(** * honeycomb-cleaner: the API client and the inactivity classifier

    A shallow embedding of [src/honeycomb_cleaner/client.py] (class
    [HoneycombClient]) and of the two classifiers of
    [src/honeycomb_cleaner/main.py] ([is_column_inactive],
    [is_dataset_inactive]), followed by the rest of main.py: its own copy
    of the client and its command line.

    Python code that raises, prints, sleeps, reads the clock and talks to
    the network is written in a small monad [M]: a computation takes the
    current [world] (the clock, the machine's time zone and the number of
    HTTP requests sent so far) and yields a [result] (a value or a raised
    exception), the [trace] of the events it produced, and the final
    world.

    Conventions of the model
    - text is a string of 8-bit characters; [lower] lowers the letters A-Z
      (no other character lowers to a letter of "delete protected" or of
      "retry-after", so membership tests are not affected);
    - durations and instants are integers counting microseconds, the
      resolution of Python's [datetime] and [timedelta];
    - [time.sleep] and [int] have the limits of CPython on a 64-bit
      machine: a sleep is kept as a signed 64-bit count of nanoseconds,
      and [int] reads at most 4300 digits; a wait computed from a date is
      a float in Python and an integer count of microseconds here, so the
      rounding of floats is not modelled;
    - [datetime.strptime] and [datetime.fromisoformat] belong to the
      Python library and are parameters of the model; [None] stands for
      the [ValueError] they raise;
    - a response carries its [text] and what [json()] makes of its body
      side by side, as the mocks of the test suite do;
    - [response.json()] raises [requests.exceptions.JSONDecodeError], which
      is both a [RequestException] and a [ValueError];
    - JSON numbers are integers; no operation modelled here looks inside
      a number. *)

From Stdlib Require Import ZArith List String Ascii Bool Lia.
Import ListNotations.

Set Warnings "-register-all".

Open Scope string_scope.
Open Scope Z_scope.
Open Scope list_scope.

(** ** Strings as Python uses them *)

Definition lower_char (c : ascii) : ascii :=
  let n := N_of_ascii c in
  if ((65 <=? n) && (n <=? 90))%N then ascii_of_N (n + 32) else c.

Fixpoint lower (s : string) : string :=
  match s with
  | EmptyString => EmptyString
  | String c r => String (lower_char c) (lower r)
  end.

(** [contains sub s] is Python's [sub in s] on strings. *)
Fixpoint contains (sub s : string) : bool :=
  String.prefix sub s ||
  match s with
  | EmptyString => false
  | String _ r => contains sub r
  end.

(** [c.isdigit()] on the characters below 256: the decimal digits and the
    superscripts two, three and one. *)
Definition is_decimal_char (c : ascii) : bool :=
  let n := N_of_ascii c in ((48 <=? n) && (n <=? 57))%N.

Definition isdigit_char (c : ascii) : bool :=
  let n := N_of_ascii c in
  is_decimal_char c || (n =? 178)%N || (n =? 179)%N || (n =? 185)%N.

Fixpoint all_chars (p : ascii -> bool) (s : string) : bool :=
  match s with
  | EmptyString => true
  | String c r => p c && all_chars p r
  end.

(** [s.isdigit()]: non-empty and every character is a digit. *)
Definition isdigit (s : string) : bool :=
  match s with
  | EmptyString => false
  | _ => all_chars isdigit_char s
  end.

Definition digit_value (c : ascii) : Z := Z.of_N (N_of_ascii c) - 48.

Fixpoint int_digits (acc : Z) (s : string) : option Z :=
  match s with
  | EmptyString => Some acc
  | String c r =>
      if is_decimal_char c then int_digits (10 * acc + digit_value c) r
      else None
  end.

(** [s.replace(c, by)] for a one-character pattern: every occurrence. *)
Fixpoint replace_char (c : ascii) (by_ : string) (s : string) : string :=
  match s with
  | EmptyString => EmptyString
  | String a r =>
      if Ascii.eqb a c then String.append by_ (replace_char c by_ r)
      else String a (replace_char c by_ r)
  end.

(** ** JSON values, as [json.loads] builds them *)

Inductive json : Type :=
| JNull
| JBool (b : bool)
| JNum (n : Z)
| JStr (s : string)
| JArr (items : list json)
| JObj (fields : list (string * json)).

Definition dict := list (string * json).

Fixpoint dict_get (d : dict) (key : string) : option json :=
  match d with
  | [] => None
  | (k, v) :: rest => if String.eqb k key then Some v else dict_get rest key
  end.

(** Python truth value of a decoded JSON value. *)
Definition truthy (j : json) : bool :=
  match j with
  | JNull => false
  | JBool b => b
  | JNum n => negb (n =? 0)
  | JStr s => negb (String.eqb s EmptyString)
  | JArr l => match l with [] => false | _ => true end
  | JObj d => match d with [] => false | _ => true end
  end.

Definition is_str (key : string) (j : json) : bool :=
  match j with
  | JStr s => String.eqb s key
  | _ => false
  end.

(** ** HTTP *)

Inductive http_method : Type := GET | PUT | DELETE.

Record request : Type := mk_request {
  req_method : http_method;
  req_url : string;
  req_json : option json
}.

Record response : Type := mk_response {
  status_code : Z;
  headers : list (string * string);
  text : string;
  json_body : option json      (* [None]: the body does not decode *)
}.

(** [response.headers] is case-insensitive in its keys. *)
Fixpoint headers_get (h : list (string * string)) (key : string)
  : option string :=
  match h with
  | [] => None
  | (k, v) :: rest =>
      if String.eqb (lower k) (lower key) then Some v
      else headers_get rest key
  end.

(** ** Exceptions *)

Inductive exn : Type :=
| ConnectionError (msg : string)  (* a RequestException without response *)
| HTTPError (r : response)        (* raised by raise_for_status *)
| JSONDecodeError                 (* raised by response.json() *)
| ValueError
| TypeError
| AttributeError
| KeyError
| OverflowError
| UnboundLocalError
| SystemExit (code : Z).

Definition is_RequestException (e : exn) : bool :=
  match e with
  | ConnectionError _ | HTTPError _ | JSONDecodeError => true
  | _ => false
  end.

Definition is_ValueError (e : exn) : bool :=
  match e with
  | ValueError | JSONDecodeError => true
  | _ => false
  end.

Definition is_TypeError (e : exn) : bool :=
  match e with TypeError => true | _ => false end.

Definition is_KeyError (e : exn) : bool :=
  match e with KeyError => true | _ => false end.

(** [e.response] of a [RequestException]. *)
Definition exn_response (e : exn) : option response :=
  match e with
  | HTTPError r => Some r
  | _ => None
  end.

(** What the transport answers to one HTTP request. *)
Inductive reply : Type :=
| Resp (r : response)
| Fail (msg : string).

(** ** Console output and events *)

Inductive message : Type :=
| MsgNoRetryAfter
| MsgRateLimited (wait : Z) (retry_after : string)
| MsgRetryAfterParseError (retry_after : string) (e : exn)
| MsgFallback
| MsgRequestFailedRetrying (e : exn)
| MsgEnvInfoError (e : exn)
| MsgColumnsUnauthorized (dataset_slug : string)
| MsgColumnsPermissionHint
| MsgColumnsError (dataset_slug : string) (e : exn)
| MsgDeleteColumnStatus (status : Z) (column_id : string)
| MsgDeleteColumnError (column_id : string) (e : exn)
| MsgErrorDetail (detail : json)
| MsgDatasetsError (e : exn)
| MsgDisableStatus (status : Z) (dataset_slug : string)
| MsgDisableError (dataset_slug : string) (e : exn)
| MsgDeleteError (dataset_slug : string) (e : exn)
| MsgDeleteStatus (status : Z) (dataset_slug : string)
| MsgProtectionDetected
| MsgRetryingDelete
| MsgRetryStatus (status : Z)
| MsgRetryError (e : exn)
| MsgWarnColumn (key_name : json)
| MsgWarnDataset (name : json).

Inductive event : Type :=
| EvRequest (r : request)
| EvSleep (microseconds : Z)
| EvPrint (m : message).

(** ** The monad *)

Record world : Type := mk_world {
  clock : Z;            (* microseconds since 0001-01-01T00:00:00 UTC *)
  local_utcoffset : Z;  (* the machine's zone, microseconds east of UTC *)
  sent : nat            (* HTTP requests issued so far *)
}.

Inductive result (A : Type) : Type :=
| Ok (a : A)
| Raise (e : exn).
Arguments Ok {A} a.
Arguments Raise {A} e.

Record run (A : Type) : Type := mk_run {
  res : result A;
  trace : list event;
  final : world
}.
Arguments mk_run {A} res trace final.
Arguments res {A} r.
Arguments trace {A} r.
Arguments final {A} r.

Definition M (A : Type) : Type := world -> run A.

Definition ret {A} (a : A) : M A := fun w => mk_run (Ok a) [] w.

Definition raise {A} (e : exn) : M A := fun w => mk_run (Raise e) [] w.

Definition lift {A} (r : result A) : M A := fun w => mk_run r [] w.

Definition bind {A B} (m : M A) (k : A -> M B) : M B := fun w =>
  match m w with
  | mk_run (Ok a) t w1 =>
      match k a w1 with
      | mk_run r t' w2 => mk_run r (t ++ t') w2
      end
  | mk_run (Raise e) t w1 => mk_run (Raise e) t w1
  end.

(** [try: body except ...: handler]; the handler answers [None] for an
    exception that no [except] clause matches, which then propagates. *)
Definition try_except {A} (body : M A) (handler : exn -> option (M A))
  : M A := fun w =>
  match body w with
  | mk_run (Ok a) t w1 => mk_run (Ok a) t w1
  | mk_run (Raise e) t w1 =>
      match handler e with
      | Some h =>
          match h w1 with
          | mk_run r t' w2 => mk_run r (t ++ t') w2
          end
      | None => mk_run (Raise e) t w1
      end
  end.

Declare Scope py_scope.
Delimit Scope py_scope with py.
Notation "x <- m ;; k" := (bind m (fun x => k))
  (at level 61, m at next level, right associativity) : py_scope.
Notation "m ;; k" := (bind m (fun _ => k))
  (at level 61, right associativity) : py_scope.
Open Scope py_scope.

Definition emit (e : event) : M unit := fun w => mk_run (Ok tt) [e] w.

Definition print (m : message) : M unit := emit (EvPrint m).

Definition seconds (n : Z) : Z := n * 1000000.

(** The longest sleep, in microseconds: [time.sleep] converts its
    argument to a signed 64-bit count of nanoseconds and raises
    [OverflowError] when it does not fit, from 9223372037 seconds on. *)
Definition sleep_max : Z := 9223372036854775.

(** [time.sleep]: the clock moves on by the time slept.  The conversion
    comes first, then the test for a negative length. *)
Definition sleep (d : Z) : M unit := fun w =>
  if sleep_max <? Z.abs d then mk_run (Raise OverflowError) [] w
  else if d <? 0 then mk_run (Raise ValueError) [] w
  else mk_run (Ok tt) [EvSleep d]
              (mk_world (clock w + d) (local_utcoffset w) (sent w)).

(** ** Dates and times

    A [datetime] is a wall-clock reading, in microseconds since
    0001-01-01T00:00:00 on its own clock, with the UTC offset of its
    [tzinfo] when it is aware.  Python keeps datetimes between the years 1
    and 9999 and raises [OverflowError] when arithmetic leaves that
    range. *)

Record datetime : Type := mk_datetime {
  wall : Z;
  tzinfo : option Z
}.

Definition timezone_utc : option Z := Some 0.

Definition microseconds_per_day : Z := 86400000000.

(** [datetime.max] is 9999-12-31T23:59:59.999999, day 3652059 of the
    calendar. *)
Definition max_wall : Z := 3652059 * microseconds_per_day - 1.

Definition replace_tzinfo (dt : datetime) (tz : option Z) : datetime :=
  mk_datetime (wall dt) tz.

(** [datetime.now(tz)]: local wall-clock time when [tz] is [None]. *)
Definition datetime_now (tz : option Z) : M datetime := fun w =>
  let offset := match tz with Some o => o | None => local_utcoffset w end in
  mk_run (Ok (mk_datetime (clock w + offset) tz)) [] w.

(** [timedelta(days=days)] *)
Definition timedelta_days (days : Z) : result Z :=
  if Z.abs days <=? 999999999 then Ok (days * microseconds_per_day)
  else Raise OverflowError.

(** [dt - td] *)
Definition datetime_minus (dt : datetime) (td : Z) : result datetime :=
  let w := wall dt - td in
  if (0 <=? w) && (w <=? max_wall) then Ok (mk_datetime w (tzinfo dt))
  else Raise OverflowError.

(** [a - b], a [timedelta] in microseconds. *)
Definition datetime_diff (a b : datetime) : result Z :=
  match tzinfo a, tzinfo b with
  | None, None => Ok (wall a - wall b)
  | Some oa, Some ob => Ok ((wall a - oa) - (wall b - ob))
  | _, _ => Raise TypeError
  end.

(** [a < b] *)
Definition datetime_lt (a b : datetime) : result bool :=
  match tzinfo a, tzinfo b with
  | None, None => Ok (wall a <? wall b)
  | Some oa, Some ob => Ok (wall a - oa <? wall b - ob)
  | _, _ => Raise TypeError
  end.

(** ** Operations of Python on decoded JSON *)

(** [sys.get_int_max_str_digits()]: the longest digit string [int]
    converts; leading zeros count. *)
Definition max_str_digits : Z := 4300.

(** [int(s)] after [s.isdigit()] held. *)
Definition int (s : string) : result Z :=
  match s with
  | EmptyString => Raise ValueError
  | _ =>
      if max_str_digits <? Z.of_nat (String.length s) then Raise ValueError
      else match int_digits 0 s with
           | Some n => Ok n
           | None => Raise ValueError
           end
  end.

(** The least integer that [float] does not take: it rounds to 2^1024. *)
Definition float_limit : Z := 2 ^ 1024 - 2 ^ 970.

(** [f"{wait_seconds:.0f}"] on a wait in microseconds: an [int] is
    converted to a float to be formatted, which raises [OverflowError]
    from [float_limit] on; a float formats. *)
Definition format_f (is_int : bool) (wait_seconds : Z) : result unit :=
  if is_int && (seconds float_limit <=? wait_seconds)
  then Raise OverflowError else Ok tt.

(** [key in j] *)
Definition py_in (key : string) (j : json) : result bool :=
  match j with
  | JObj d => Ok (match dict_get d key with Some _ => true | None => false end)
  | JArr l => Ok (existsb (is_str key) l)
  | JStr s => Ok (contains key s)
  | JNull | JBool _ | JNum _ => Raise TypeError
  end.

(** [j[key]] *)
Definition py_getitem (j : json) (key : string) : result json :=
  match j with
  | JObj d => match dict_get d key with
              | Some v => Ok v
              | None => Raise KeyError
              end
  | _ => Raise TypeError
  end.

(** [j.lower()] *)
Definition py_lower (j : json) : result string :=
  match j with
  | JStr s => Ok (lower s)
  | _ => Raise AttributeError
  end.

(** [j.get(key, default)] *)
Definition py_get (j : json) (key : string) (default : json) : result json :=
  match j with
  | JObj d => Ok (match dict_get d key with Some v => v | None => default end)
  | _ => Raise AttributeError
  end.

(** [j.replace('Z', '+00:00')] *)
Definition py_replace_Z (j : json) : result string :=
  match j with
  | JStr s => Ok (replace_char "Z"%char "+00:00" s)
  | _ => Raise AttributeError
  end.

(** [response.raise_for_status()] *)
Definition raise_for_status (r : response) : M unit :=
  if (400 <=? status_code r) && (status_code r <? 600)
  then raise (HTTPError r) else ret tt.

(** [response.json()] *)
Definition response_json (r : response) : M json :=
  match json_body r with
  | Some j => ret j
  | None => raise JSONDecodeError
  end.

(** Result of one turn of the retry loop: [continue] (with the response
    the turn assigned to the loop's variable, if any) or [return]. *)
Inductive flow : Type :=
| Continue (assigned : option response)
| Return (r : response).

Definition max_retries : nat := 3.

Definition http_date_format : string := "%a, %d %b %Y %H:%M:%S %Z".

(** ** [HoneycombClient] (client.py) *)

Section Client.

(** [self.session]: what the transport answers to the n-th request ever
    sent through it. *)
Variable session : nat -> request -> reply.

(** [datetime.strptime(text, format)] *)
Variable strptime : string -> string -> option datetime.

(** [self.session.request(method, url, **kwargs)] *)
Definition session_request (method : http_method) (url : string)
  (kwargs : option json) : M response := fun w =>
  let req := mk_request method url kwargs in
  let w' := mk_world (clock w) (local_utcoffset w) (S (sent w)) in
  match session (sent w) req with
  | Resp r => mk_run (Ok r) [EvRequest req] w'
  | Fail msg => mk_run (Raise (ConnectionError msg)) [EvRequest req] w'
  end.

Definition parse_http_date (retry_after : string) : M datetime :=
  match strptime retry_after http_date_format with
  | Some dt => ret dt
  | None => raise ValueError
  end.

Definition _handle_rate_limit (response : response) : M unit :=
  if negb (status_code response =? 429) then ret tt
  else
    match headers_get (headers response) "Retry-After" with
    | None => print MsgNoRetryAfter ;; sleep (seconds 60)
    | Some retry_after =>
        if String.eqb retry_after EmptyString then
          print MsgNoRetryAfter ;; sleep (seconds 60)
        else
          try_except
            (wait <-
               (if isdigit retry_after then
                  n <- lift (int retry_after) ;; ret (true, seconds n)
                else
                  retry_time <- parse_http_date retry_after ;;
                  let retry_time := replace_tzinfo retry_time timezone_utc in
                  now <- datetime_now timezone_utc ;;
                  d <- lift (datetime_diff retry_time now) ;;
                  ret (false, Z.max 0 d)) ;;
             let is_int := fst wait in
             let wait_seconds := snd wait in
             if wait_seconds >? 0 then
               lift (format_f is_int wait_seconds) ;;
               print (MsgRateLimited wait_seconds retry_after) ;;
               sleep wait_seconds
             else ret tt)
            (fun e =>
               if is_ValueError e || is_TypeError e then
                 Some (print (MsgRetryAfterParseError retry_after e) ;;
                       print MsgFallback ;;
                       sleep (seconds 60))
               else None)
    end.

(** One turn of [for attempt in range(max_retries)]. *)
Definition attempt_body (method : http_method) (url : string)
  (kwargs : option json) (attempt : nat) : M flow :=
  try_except
    (response <- session_request method url kwargs ;;
     if status_code response =? 429 then
       if (attempt <? max_retries - 1)%nat then
         _handle_rate_limit response ;;
         ret (Continue (Some response))
       else ret (Return response)
     else ret (Return response))
    (fun e =>
       if is_RequestException e then
         Some (if (attempt <? max_retries - 1)%nat then
                 print (MsgRequestFailedRetrying e) ;;
                 sleep (seconds 1) ;;
                 ret (Continue None)
               else raise e)
       else None).

(** The loop over the remaining attempts; [last] is the loop's variable
    [response], read by the [return response] after the loop. *)
Fixpoint attempts_loop (method : http_method) (url : string)
  (kwargs : option json) (attempts : list nat)
  (last : option response) : M response :=
  match attempts with
  | [] =>
      match last with
      | Some r => ret r
      | None => raise UnboundLocalError
      end
  | attempt :: rest =>
      f <- attempt_body method url kwargs attempt ;;
      match f with
      | Return r => ret r
      | Continue (Some r) => attempts_loop method url kwargs rest (Some r)
      | Continue None => attempts_loop method url kwargs rest last
      end
  end.

Definition _make_request_with_retry (method : http_method) (url : string)
  (kwargs : option json) : M response :=
  attempts_loop method url kwargs (seq 0 max_retries) None.

Definition unknown_info : json :=
  JObj [("name", JStr "Unknown"); ("slug", JStr "unknown")].

Definition get_environment_info : M json :=
  let url := "https://api.honeycomb.io/1/auth" in
  try_except
    (response <- _make_request_with_retry GET url None ;;
     raise_for_status response ;;
     auth_info <- response_json response ;;
     environment <- lift (py_get auth_info "environment" unknown_info) ;;
     team <- lift (py_get auth_info "team" unknown_info) ;;
     ret (JObj [("environment", environment); ("team", team)]))
    (fun e =>
       if is_RequestException e then
         Some (print (MsgEnvInfoError e) ;;
               ret (JObj [("environment", unknown_info);
                          ("team", unknown_info)]))
       else None).

Definition get_columns (dataset_slug : string) : M json :=
  let url := String.append "https://api.honeycomb.io/1/columns/"
                           dataset_slug in
  try_except
    (response <- _make_request_with_retry GET url None ;;
     raise_for_status response ;;
     response_json response)
    (fun e =>
       if is_RequestException e then
         Some (match exn_response e with
               | None => raise AttributeError
               | Some r =>
                   (if status_code r =? 401 then
                      print (MsgColumnsUnauthorized dataset_slug) ;;
                      print MsgColumnsPermissionHint
                    else print (MsgColumnsError dataset_slug e)) ;;
                   ret (JArr [])
               end)
       else None).

(** The part shared by [delete_column] and [_print_delete_error]:
    print the API's [error] field when the body has one. *)
Definition print_error_field (r : response) : M unit :=
  try_except
    (error_details <- response_json r ;;
     has_error <- lift (py_in "error" error_details) ;;
     if has_error then
       detail <- lift (py_getitem error_details "error") ;;
       print (MsgErrorDetail detail)
     else ret tt)
    (fun e =>
       if is_ValueError e || is_KeyError e then Some (ret tt) else None).

Definition delete_column (dataset_slug column_id : string) : M bool :=
  let url := String.append "https://api.honeycomb.io/1/columns/"
               (String.append dataset_slug (String.append "/" column_id)) in
  try_except
    (response <- _make_request_with_retry DELETE url None ;;
     raise_for_status response ;;
     ret true)
    (fun e =>
       if is_RequestException e then
         Some (match exn_response e with
               | Some r =>
                   print (MsgDeleteColumnStatus (status_code r) column_id) ;;
                   print_error_field r ;;
                   ret false
               | None =>
                   print (MsgDeleteColumnError column_id e) ;;
                   ret false
               end)
       else None).

Definition get_datasets : M json :=
  let url := "https://api.honeycomb.io/1/datasets" in
  try_except
    (response <- _make_request_with_retry GET url None ;;
     raise_for_status response ;;
     response_json response)
    (fun e =>
       if is_RequestException e then
         Some (print (MsgDatasetsError e) ;; raise (SystemExit 1))
       else None).

Definition disable_payload : json :=
  JObj [("settings", JObj [("delete_protected", JBool false)])].

Definition disable_deletion_protection (dataset_slug : string) : M bool :=
  let url := String.append "https://api.honeycomb.io/1/datasets/"
                           dataset_slug in
  try_except
    (response <- _make_request_with_retry PUT url (Some disable_payload) ;;
     raise_for_status response ;;
     ret true)
    (fun e =>
       if is_RequestException e then
         Some (match exn_response e with
               | Some r =>
                   print (MsgDisableStatus (status_code r) dataset_slug) ;;
                   ret false
               | None =>
                   print (MsgDisableError dataset_slug e) ;;
                   ret false
               end)
       else None).

Definition _is_deletion_protected (response : response) : M bool :=
  if negb (String.eqb (text response) EmptyString)
     && contains "delete protected" (lower (text response))
  then ret true
  else
    try_except
      (error_details <- response_json response ;;
       has_error <- lift (py_in "error" error_details) ;;
       if has_error then
         detail <- lift (py_getitem error_details "error") ;;
         lowered <- lift (py_lower detail) ;;
         ret (contains "delete protected" lowered)
       else ret false)
      (fun e =>
         if is_ValueError e || is_KeyError e then Some (ret false)
         else None).

Definition _retry_delete_after_unprotect (dataset_slug url : string)
  : M bool :=
  print MsgProtectionDetected ;;
  unprotected <- disable_deletion_protection dataset_slug ;;
  if negb unprotected then ret false
  else
    print MsgRetryingDelete ;;
    try_except
      (response <- _make_request_with_retry DELETE url None ;;
       raise_for_status response ;;
       ret true)
      (fun retry_e =>
         if is_RequestException retry_e then
           Some (match exn_response retry_e with
                 | Some r =>
                     print (MsgRetryStatus (status_code r)) ;; ret false
                 | None =>
                     print (MsgRetryError retry_e) ;; ret false
                 end)
         else None).

Definition _print_delete_error (response : response)
  (dataset_slug : string) : M unit :=
  print (MsgDeleteStatus (status_code response) dataset_slug) ;;
  print_error_field response.

Definition _handle_delete_error (e : exn) (dataset_slug url : string)
  (disable_protection : bool) : M bool :=
  match exn_response e with
  | None => print (MsgDeleteError dataset_slug e) ;; ret false
  | Some r =>
      protected <-
        (if (status_code r =? 409) && disable_protection
         then _is_deletion_protected r else ret false) ;;
      if protected then _retry_delete_after_unprotect dataset_slug url
      else _print_delete_error r dataset_slug ;; ret false
  end.

Definition delete_dataset (dataset_slug : string)
  (disable_protection : bool) : M bool :=
  let url := String.append "https://api.honeycomb.io/1/datasets/"
                           dataset_slug in
  try_except
    (response <- _make_request_with_retry DELETE url None ;;
     raise_for_status response ;;
     ret true)
    (fun e =>
       if is_RequestException e then
         Some (_handle_delete_error e dataset_slug url disable_protection)
       else None).

End Client.

(** ** The inactivity classifiers (main.py) *)

Section Classifier.

(** [datetime.fromisoformat(text)] *)
Variable fromisoformat : string -> option datetime.

Definition parse_iso (s : string) : M datetime :=
  match fromisoformat s with
  | Some dt => ret dt
  | None => raise ValueError
  end.

(** [record.get(key)] and [record.get(key, default)] *)
Definition dict_get_default (d : dict) (key : string) (default : json)
  : json :=
  match dict_get d key with
  | Some v => v
  | None => default
  end.

Definition is_column_inactive (column : dict) (days : Z) : M bool :=
  let last_written := dict_get_default column "last_written" JNull in
  if negb (truthy last_written) then ret true
  else
    try_except
      (replaced <- lift (py_replace_Z last_written) ;;
       last_written_dt <- parse_iso replaced ;;
       now <- datetime_now (tzinfo last_written_dt) ;;
       delta <- lift (timedelta_days days) ;;
       cutoff_date <- lift (datetime_minus now delta) ;;
       lift (datetime_lt last_written_dt cutoff_date))
      (fun e =>
         if is_ValueError e || is_TypeError e then
           Some (print (MsgWarnColumn
                          (dict_get_default column "key_name"
                                            (JStr "unknown"))) ;;
                 ret true)
         else None).

Definition is_dataset_inactive (dataset : dict) (days : Z) : M bool :=
  let last_written := dict_get_default dataset "last_written_at" JNull in
  if negb (truthy last_written) then ret true
  else
    try_except
      (replaced <- lift (py_replace_Z last_written) ;;
       last_written_dt <- parse_iso replaced ;;
       now <- datetime_now (tzinfo last_written_dt) ;;
       delta <- lift (timedelta_days days) ;;
       cutoff_date <- lift (datetime_minus now delta) ;;
       lift (datetime_lt last_written_dt cutoff_date))
      (fun e =>
         if is_ValueError e || is_TypeError e then
           Some (print (MsgWarnDataset
                          (dict_get_default dataset "name"
                                            (JStr "unknown"))) ;;
                 ret true)
         else None).

End Classifier.

(** ** Reading traces *)

Definition is_request (e : event) : bool :=
  match e with EvRequest _ => true | _ => false end.

(** Number of HTTP requests in a trace. *)
Definition count_requests (t : list event) : nat :=
  List.length (filter is_request t).

(** Requests of a trace, in order. *)
Fixpoint requests_of (t : list event) : list request :=
  match t with
  | [] => []
  | EvRequest r :: rest => r :: requests_of rest
  | _ :: rest => requests_of rest
  end.

(** Total time slept in a trace, in microseconds. *)
Fixpoint time_slept (t : list event) : Z :=
  match t with
  | [] => 0
  | EvSleep d :: rest => d + time_slept rest
  | _ :: rest => time_slept rest
  end.

Definition is_parse_error (e : event) : bool :=
  match e with
  | EvPrint (MsgRetryAfterParseError _ _) => true
  | _ => false
  end.

(** The world once a request has been sent, and once time has been
    slept. *)
Definition after_request (w : world) : world :=
  mk_world (clock w) (local_utcoffset w) (S (sent w)).

Definition after_sleep (d : Z) (w : world) : world :=
  mk_world (clock w + d) (local_utcoffset w) (sent w).

(** A response fails when [raise_for_status] raises on it. *)
Definition is_error_status (r : response) : bool :=
  (400 <=? status_code r) && (status_code r <? 600).

(** The strings that denote a natural number in decimal notation, leading
    zeros allowed. *)
Definition digit_char (d : Z) : ascii := ascii_of_N (Z.to_N (48 + d)).

Inductive decimal_of : string -> Z -> Prop :=
| decimal_digit d :
    0 <= d <= 9 -> decimal_of (String (digit_char d) EmptyString) d
| decimal_snoc s n d :
    decimal_of s n -> 0 <= d <= 9 ->
    decimal_of (String.append s (String (digit_char d) EmptyString))
               (10 * n + d).

(** The body says the dataset is delete protected, in its text or in a
    string [error] field of its JSON object. *)
Definition announces_protection (resp : response) : bool :=
  contains "delete protected" (lower (text resp))
  || match json_body resp with
     | Some (JObj d) =>
         match dict_get d "error" with
         | Some (JStr s) => contains "delete protected" (lower s)
         | _ => false
         end
     | _ => false
     end.

(** The error bodies the client is written for: no JSON at all, or a JSON
    object whose [error] field, when it has one, is a string. *)
Definition plain_error_body (resp : response) : Prop :=
  json_body resp = None
  \/ exists d,
      json_body resp = Some (JObj d)
      /\ (dict_get d "error" = None
          \/ exists s, dict_get d "error" = Some (JStr s)).

(** The line [_print_delete_error] adds for the API's own message. *)
Definition error_detail (resp : response) : list event :=
  match json_body resp with
  | Some (JObj d) =>
      match dict_get d "error" with
      | Some v => [EvPrint (MsgErrorDetail v)]
      | None => []
      end
  | _ => []
  end.

(** The addresses the operations call. *)
Definition auth_url : string := "https://api.honeycomb.io/1/auth".

Definition columns_url (dataset_slug : string) : string :=
  String.append "https://api.honeycomb.io/1/columns/" dataset_slug.

Definition dataset_url (dataset_slug : string) : string :=
  String.append "https://api.honeycomb.io/1/datasets/" dataset_slug.

(** The UTC offset a [tzinfo] stands for on the machine of [w], and the
    instant a datetime denotes there, in microseconds since
    0001-01-01T00:00:00 UTC. *)
Definition offset_of (w : world) (tz : option Z) : Z :=
  match tz with
  | Some o => o
  | None => local_utcoffset w
  end.

Definition instant_of (w : world) (dt : datetime) : Z :=
  wall dt - offset_of w (tzinfo dt).

Definition iso_text (s : string) : string :=
  replace_char "Z"%char "+00:00" s.

(** ** Sample data

    The readings Python's parsers give for three texts: the example of an
    HTTP-date of RFC 9110, an ISO-8601 timestamp with an explicit offset
    and, for both, nothing else. *)

Definition sample_strptime (s format : string) : option datetime :=
  if String.eqb s "Wed, 21 Oct 2015 07:28:00 GMT"
     && String.eqb format http_date_format
  then Some (mk_datetime 63581009280000000 None)
  else None.

Definition sample_fromisoformat (s : string) : option datetime :=
  if String.eqb s "2024-01-01T00:00:00+00:00"
  then Some (mk_datetime 63839664000000000 (Some 0))
  else None.

(** Noon of 2026-11-04 UTC, on a machine two hours east of UTC. *)
Definition sample_world : world :=
  mk_world 63929390400000000 7200000000 0.

(** One minute before the sample HTTP-date. *)
Definition world_2015 : world :=
  mk_world 63581009220000000 0 0.

Definition plain_response (status : Z) (body : string) (j : option json)
  : response :=
  mk_response status [] body j.

Definition rate_limited (retry_after : option string) : response :=
  mk_response 429
    (match retry_after with
     | Some v => [("Retry-After", v)]
     | None => []
     end)
    EmptyString None.

(** A transport that answers the n-th request with the n-th reply of a
    script, and fails once the script is over. *)
Definition scripted (script : list reply) : nat -> request -> reply :=
  fun n _ => nth n script (Fail "Connection refused").

(** JSON texts need the double quote. *)
Definition quoted (s : string) : string :=
  String (ascii_of_N 34)
         (String.append s (String (ascii_of_N 34) EmptyString)).

Definition error_text (message : string) : string :=
  String.append "{"
    (String.append (quoted "error")
       (String.append ": " (String.append message "}"))).

(** The answer of the API to the deletion of a protected dataset. *)
Definition protected_body : json :=
  JObj [("error", JStr "Dataset is delete protected")].

Definition protected_response : response :=
  plain_response 409 (error_text (quoted "Dataset is delete protected"))
                 (Some protected_body).

(** A conflict whose [error] field is an object, and an answer whose body
    is the JSON [null]. *)
Definition conflict_body : json :=
  JObj [("error", JObj [("message", JStr "Conflict")])].

Definition conflict_response : response :=
  plain_response 409
    (error_text
       (String.append "{"
          (String.append (quoted "message")
             (String.append ": " (String.append (quoted "Conflict") "}")))))
    (Some conflict_body).

Definition null_response (status : Z) : response :=
  plain_response status "null" (Some JNull).

(** An answer of the auth endpoint that names the environment only. *)
Definition partial_auth_body : dict :=
  [("environment", JObj [("name", JStr "Production")])].

Definition partial_auth_response : response :=
  plain_response 200 "environment: Production"
                 (Some (JObj partial_auth_body)).

(** A transport that refuses every connection, and one that answers 429
    three times. *)
Definition unreachable : nat -> request -> reply := scripted [].

Definition always_limited : nat -> request -> reply :=
  scripted [Resp (rate_limited (Some "1"));
            Resp (rate_limited None);
            Resp (rate_limited (Some "5"))].

(** A 429 that asks for one second more than [time.sleep] takes, and a
    transport that answers it before the answer of the auth endpoint. *)
Definition overlong_wait : response := rate_limited (Some "9223372037").

Definition limited_too_long : nat -> request -> reply :=
  scripted [Resp overlong_wait; Resp partial_auth_response].

Definition ok_response : response := plain_response 200 EmptyString None.

Definition delete_request (dataset_slug : string) : request :=
  mk_request DELETE (dataset_url dataset_slug) None.

Definition put_request (dataset_slug : string) : request :=
  mk_request PUT (dataset_url dataset_slug) (Some disable_payload).

Definition sample_stamp : string := "2024-01-01T00:00:00Z".

Definition sample_column : dict :=
  [("key_name", JStr "duration_ms"); ("last_written", JStr sample_stamp)].

Definition sample_dataset : dict :=
  [("name", JStr "checkout"); ("last_written_at", JStr sample_stamp)].

(** ** More of the program

    The rest of client.py is modelled above.  What follows is main.py:
    its own copy of the client, its dates and categories, and its
    command line. *)

(** Two more addresses. *)
Definition datasets_url : string := "https://api.honeycomb.io/1/datasets".

Definition column_url (dataset_slug column_id : string) : string :=
  String.append "https://api.honeycomb.io/1/columns/"
    (String.append dataset_slug (String.append "/" column_id)).

(** ** More of Python on decoded JSON *)

(** [for item in j]: the items of a list, the keys of a dict, the
    characters of a text; nothing else can be iterated. *)
Fixpoint characters (s : string) : list json :=
  match s with
  | EmptyString => []
  | String c r => JStr (String c EmptyString) :: characters r
  end.

Definition py_iter (j : json) : result (list json) :=
  match j with
  | JArr l => Ok l
  | JObj d => Ok (map (fun kv => JStr (fst kv)) d)
  | JStr s => Ok (characters s)
  | JNull | JBool _ | JNum _ => Raise TypeError
  end.

(** [name in names] for a list of texts. *)
Definition py_in_list (j : json) (names : list string) : bool :=
  existsb (fun n => is_str n j) names.

(** ** [HoneycombClient] as main.py has it

    The class of main.py sends each request once, through
    [session.get], [session.delete] and [session.put], and tests
    [hasattr(e, 'response')] alone, which holds for every
    [RequestException]. *)

Definition hasattr_response (e : exn) : bool := is_RequestException e.

Module Main.
Section HoneycombClient.
Variable session : nat -> request -> reply.

Definition get_environment_info : M json :=
  let url := "https://api.honeycomb.io/1/auth" in
  try_except
    (response <- session_request session GET url None ;;
     raise_for_status response ;;
     auth_info <- response_json response ;;
     environment <- lift (py_get auth_info "environment" unknown_info) ;;
     team <- lift (py_get auth_info "team" unknown_info) ;;
     ret (JObj [("environment", environment); ("team", team)]))
    (fun e =>
       if is_RequestException e then
         Some (print (MsgEnvInfoError e) ;;
               ret (JObj [("environment", unknown_info);
                          ("team", unknown_info)]))
       else None).

Definition get_columns (dataset_slug : string) : M json :=
  let url := String.append "https://api.honeycomb.io/1/columns/"
                           dataset_slug in
  try_except
    (response <- session_request session GET url None ;;
     raise_for_status response ;;
     response_json response)
    (fun e =>
       if is_RequestException e then
         Some (unauthorized <-
                 (if hasattr_response e then
                    match exn_response e with
                    | Some r => ret (status_code r =? 401)
                    | None => raise AttributeError
                    end
                  else ret false) ;;
               (if unauthorized then
                  print (MsgColumnsUnauthorized dataset_slug) ;;
                  print MsgColumnsPermissionHint
                else print (MsgColumnsError dataset_slug e)) ;;
               ret (JArr []))
       else None).

Definition delete_column (dataset_slug column_id : string) : M bool :=
  let url := String.append "https://api.honeycomb.io/1/columns/"
               (String.append dataset_slug (String.append "/" column_id)) in
  try_except
    (response <- session_request session DELETE url None ;;
     raise_for_status response ;;
     ret true)
    (fun e =>
       if is_RequestException e then
         Some (if hasattr_response e then
                 match exn_response e with
                 | None => raise AttributeError
                 | Some r =>
                     print (MsgDeleteColumnStatus (status_code r)
                                                  column_id) ;;
                     try_except
                       (error_details <- response_json r ;;
                        has_error <- lift (py_in "error" error_details) ;;
                        if has_error then
                          detail <- lift (py_getitem error_details
                                                     "error") ;;
                          print (MsgErrorDetail detail)
                        else ret tt)
                       (fun _ => Some (ret tt)) ;;
                     ret false
                 end
               else
                 print (MsgDeleteColumnError column_id e) ;;
                 ret false)
       else None).

Definition get_datasets : M json :=
  let url := "https://api.honeycomb.io/1/datasets" in
  try_except
    (response <- session_request session GET url None ;;
     raise_for_status response ;;
     response_json response)
    (fun e =>
       if is_RequestException e then
         Some (print (MsgDatasetsError e) ;; raise (SystemExit 1))
       else None).

Definition disable_deletion_protection (dataset_slug : string) : M bool :=
  let url := String.append "https://api.honeycomb.io/1/datasets/"
                           dataset_slug in
  try_except
    (response <- session_request session PUT url (Some disable_payload) ;;
     raise_for_status response ;;
     ret true)
    (fun e =>
       if is_RequestException e then
         Some (if hasattr_response e then
                 match exn_response e with
                 | None => raise AttributeError
                 | Some r =>
                     print (MsgDisableStatus (status_code r)
                                             dataset_slug) ;;
                     ret false
                 end
               else
                 print (MsgDisableError dataset_slug e) ;;
                 ret false)
       else None).

End HoneycombClient.
End Main.

(** ** Dates and categories (main.py) *)

Section Dates.
Variable fromisoformat : string -> option datetime.

(** [dt.strftime(format)] *)
Variable strftime : datetime -> string -> string.

Definition format_date (date_str : json) : M string :=
  if negb (truthy date_str) || is_str "null" date_str then ret "Never"
  else
    try_except
      (replaced <- lift (py_replace_Z date_str) ;;
       dt <- parse_iso fromisoformat replaced ;;
       ret (strftime dt "%Y-%m-%d"))
      (fun e =>
         if is_ValueError e || is_TypeError e then Some (ret "Unknown")
         else None).

(** A classifier called on a value that is no dict fails on its first
    [.get]. *)
Definition on_dict {A} (f : dict -> M A) (j : json) : M A :=
  match j with
  | JObj d => f d
  | _ => raise AttributeError
  end.

(** The truth value of [args.name]. *)
Definition names_given (name : option (list string)) : bool :=
  match name with
  | Some (_ :: _) => true
  | _ => false
  end.

Definition names_of (name : option (list string)) : list string :=
  match name with
  | Some l => l
  | None => []
  end.

Fixpoint categorize_loop (name : option (list string)) (days : Z)
  (datasets : list json) (active_datasets inactive_datasets
   filtered_out_datasets : list json)
  : M (list json * list json * list json) :=
  match datasets with
  | [] => ret (active_datasets, inactive_datasets, filtered_out_datasets)
  | dataset :: rest =>
      dataset_name <- lift (py_get dataset "name" (JStr EmptyString)) ;;
      if names_given name
         && negb (py_in_list dataset_name (names_of name))
      then
        categorize_loop name days rest active_datasets inactive_datasets
                        (filtered_out_datasets ++ [dataset])
      else
        inactive <- on_dict (fun d => is_dataset_inactive fromisoformat
                                                         d days) dataset ;;
        if inactive then
          categorize_loop name days rest active_datasets
                          (inactive_datasets ++ [dataset])
                          filtered_out_datasets
        else
          categorize_loop name days rest (active_datasets ++ [dataset])
                          inactive_datasets filtered_out_datasets
  end.

(** [categorize_datasets(datasets, args)], with the two fields of [args]
    it reads. *)
Definition categorize_datasets (datasets : json)
  (name : option (list string)) (days : Z)
  : M (list json * list json * list json) :=
  items <- lift (py_iter datasets) ;;
  categorize_loop name days items [] [] [].

End Dates.

(** *** Reading categories *)

(** The name filter of [--name] lets a dataset through. *)
Definition considered (name : option (list string)) (dataset : json)
  : bool :=
  negb (names_given name
        && negb (py_in_list
                   (match dataset with
                    | JObj d => dict_get_default d "name" (JStr EmptyString)
                    | _ => JNull
                    end)
                   (names_of name))).

(** The verdict of [is_dataset_inactive] at [w], where it gives one. *)
Definition inactive_at (fromisoformat : string -> option datetime)
  (w : world) (days : Z) (dataset : json) : bool :=
  match dataset with
  | JObj d =>
      match res (is_dataset_inactive fromisoformat d days w) with
      | Ok b => b
      | Raise _ => false
      end
  | _ => false
  end.

Definition is_dict (j : json) : bool :=
  match j with JObj _ => true | _ => false end.

(** A dataset [categorize_datasets] can place: a dict that the name
    filter drops or that the classifier answers for. *)
Definition placeable (fromisoformat : string -> option datetime)
  (w : world) (days : Z) (name : option (list string)) (dataset : json)
  : bool :=
  match dataset with
  | JObj d =>
      negb (considered name dataset)
      || match res (is_dataset_inactive fromisoformat d days w) with
         | Ok _ => true
         | Raise _ => false
         end
  | _ => false
  end.

(** *** The classifiers, once *)

Section Verdict.
Variable fromisoformat : string -> option datetime.

(** What both classifiers do with the timestamp they found. *)
Definition verdict (last_written : json) (days : Z) (warning : message)
  : M bool :=
  if negb (truthy last_written) then ret true
  else
    try_except
      (replaced <- lift (py_replace_Z last_written) ;;
       last_written_dt <- parse_iso fromisoformat replaced ;;
       now <- datetime_now (tzinfo last_written_dt) ;;
       delta <- lift (timedelta_days days) ;;
       cutoff_date <- lift (datetime_minus now delta) ;;
       lift (datetime_lt last_written_dt cutoff_date))
      (fun e =>
         if is_ValueError e || is_TypeError e then
           Some (print warning ;; ret true)
         else None).

End Verdict.

(** ** The command line (main.py)

    The functions of main.py print lines of their own, show tables, ask
    the user and call the client.  They run in a second monad, [CLI],
    over the first: its output interleaves the events of the client with
    the lines, tables and prompts of the command line, and its failures
    are the exceptions of the client or those of the [rich] library.

    Conventions of this part
    - a line is recorded by its kind and the values formatted into it;
    - a table is recorded by its title, its header and its rows of
      texts; styles are left out;
    - [Table.add_row] takes texts and [None], which it shows as the empty
      text, and raises [NotRenderableError] on anything else;
    - [print] is taken to succeed; [console.print] reads the texts it is
      given, the title and the cells of a table included, as console
      markup, and raises [MarkupError] before anything is written when the
      markup is wrong, as in a closing tag like [/x] that closes nothing;
      the verdict of rich on an output is a parameter of the model,
      [markup_error]; the lines main.py writes with a fixed text are
      well-formed and are printed like the others;
    - [Prompt.ask] hands back what the user chose; [ask n] is the answer
      to the n-th prompt of the run;
    - an f-string shows a text as it is; [repr] stands for what it makes
      of any other value. *)

Inductive caption : Type :=
| ActiveDatasets (days : Z)
| InactiveDatasets (days : Z)
| InactiveColumns (days : Z).

Inductive table_title : Type :=
| Title (title : caption)
| TitleFor (title : caption) (dataset_name : json)
           (showing : option (nat * nat)).

Record table : Type := mk_table {
  table_title_of : table_title;
  table_header : list string;
  table_rows : list (list string)
}.

Inductive line : Type :=
| LineSkippingNoSlug (name : json)
| LineCheckingColumns (days : Z)
| LineProcessing (datasets : nat)
| LineChecking (position datasets : nat) (dataset_name dataset_slug : json)
| LineFoundColumns (active inactive : nat)
| LineFoundInactiveColumns (columns datasets : nat)
| LineHowToDeleteColumns (days : Z)
| LineMoreColumns (more : nat)
| LineColumnDeletionMode
| LineCannotBeUndone
| LineColumnDeletionAborted
| LineDeletingColumns (columns : nat)
| LineDataset (dataset_name : json)
| LineSkippingColumn (column_name : json)
| LineDeletingColumn (column_name : json)
| LineOK
| LineDeletedColumns (deleted columns : nat)
| LineDatasetDeletionMode
| LineDatasetDeletionAborted
| LineDeletingDatasets (datasets : nat)
| LineDeleting (name : json)
| LineDeletedDatasets (deleted datasets : nat)
| LineNoApiKey
| LineHowToSetApiKey
| LineEnvironment (env_name : json)
| LineFetching (days : Z)
| LineFoundActive (datasets : nat)
| LineFoundInactive (datasets : nat)
| LineFilteredOut (datasets : nat)
| LineNothingToCleanUp
| LineHowToDelete (days : Z).

Inductive question : Type :=
| AskDeleteColumns (columns : nat)
| AskDeleteDatasets (datasets : nat).

Inductive output : Type :=
| OutClient (e : event)
| OutLine (l : line)
| OutTable (t : table)
| OutPrompt (q : question).

Inductive failure : Type :=
| Failure (e : exn)
| NotRenderableError
| MarkupError.

Record cli_world : Type := mk_cli_world {
  machine : world;
  asked : nat            (* prompts answered so far *)
}.

Inductive outcome (A : Type) : Type :=
| Done (a : A)
| Failed (e : failure).
Arguments Done {A} a.
Arguments Failed {A} e.

Record cli_run (A : Type) : Type := mk_cli_run {
  cli_res : outcome A;
  cli_out : list output;
  cli_final : cli_world
}.
Arguments mk_cli_run {A} cli_res cli_out cli_final.
Arguments cli_res {A} c.
Arguments cli_out {A} c.
Arguments cli_final {A} c.

Definition CLI (A : Type) : Type := cli_world -> cli_run A.

Definition cli_ret {A} (a : A) : CLI A := fun cw => mk_cli_run (Done a) [] cw.

Definition cli_raise {A} (e : failure) : CLI A := fun cw =>
  mk_cli_run (Failed e) [] cw.

Definition cli_bind {A B} (m : CLI A) (k : A -> CLI B) : CLI B := fun cw =>
  match m cw with
  | mk_cli_run (Done a) o cw1 =>
      match k a cw1 with
      | mk_cli_run r o' cw2 => mk_cli_run r (o ++ o') cw2
      end
  | mk_cli_run (Failed e) o cw1 => mk_cli_run (Failed e) o cw1
  end.

Declare Scope cli_scope.
Delimit Scope cli_scope with cli.
Notation "x <- m ;; k" := (cli_bind m (fun x => k))
  (at level 61, m at next level, right associativity) : cli_scope.
Notation "m ;; k" := (cli_bind m (fun _ => k))
  (at level 61, right associativity) : cli_scope.

(** A computation of the client, run from the command line. *)
Definition call {A} (m : M A) : CLI A := fun cw =>
  match m (machine cw) with
  | mk_run (Ok a) t w => mk_cli_run (Done a) (map OutClient t)
                                    (mk_cli_world w (asked cw))
  | mk_run (Raise e) t w => mk_cli_run (Failed (Failure e))
                                       (map OutClient t)
                                       (mk_cli_world w (asked cw))
  end.
Arguments call {A} m%_py.

Definition say (l : line) : CLI unit := fun cw =>
  mk_cli_run (Done tt) [OutLine l] cw.

(** What [Table.add_row] makes of one cell. *)
Definition cell (j : json) : outcome string :=
  match j with
  | JStr s => Done s
  | JNull => Done EmptyString
  | _ => Failed NotRenderableError
  end.

Fixpoint cells (row : list json) : outcome (list string) :=
  match row with
  | [] => Done []
  | j :: rest =>
      match cell j with
      | Done s =>
          match cells rest with
          | Done l => Done (s :: l)
          | Failed e => Failed e
          end
      | Failed e => Failed e
      end
  end.

(** [table.add_row(...)], the rows so far being [rows]. *)
Definition add_row (rows : list (list string)) (row : list json)
  : CLI (list (list string)) := fun cw =>
  match cells row with
  | Done l => mk_cli_run (Done (rows ++ [l])) [] cw
  | Failed e => mk_cli_run (Failed e) [] cw
  end.

(** [x or default] *)
Definition py_or (j default : json) : json :=
  if truthy j then j else default.

(** [d[key]] on a dict built by the program itself. *)
Definition item {A} (field : option A) : CLI A :=
  match field with
  | Some v => cli_ret v
  | None => cli_raise (Failure KeyError)
  end.

(** The client as the functions of main.py use it: an object with
    these methods; [delete_dataset] may be missing. *)
Record client : Type := mk_client {
  client_get_environment_info : M json;
  client_get_columns : json -> M json;
  client_delete_column : json -> json -> M bool;
  client_get_datasets : M json;
  client_delete_dataset : option (json -> bool -> M bool)
}.

(** What [check_columns_for_dataset] returns; the last two keys are
    missing from its early answers. *)
Record column_check : Type := mk_column_check {
  check_active : nat;
  check_inactive : nat;
  check_inactive_columns : list json;
  check_dataset_name : option json;
  check_dataset_slug : option json
}.

(** [args], as [parse_arguments] returns it. *)
Record arguments : Type := mk_arguments {
  arg_days : Z;
  arg_delete : bool;
  arg_delete_protected : bool;
  arg_name : option (list string);
  arg_check_columns : bool;
  arg_delete_columns : bool;
  arg_api_key : option string
}.

Definition datasets_header : list string :=
  ["Name"; "Created"; "Last Activity"; "URL"].

Definition columns_header : list string :=
  ["Column Name"; "Type"; "Created"; "Last Written"; "Hidden"].

Section CommandLine.
Local Open Scope cli_scope.

Variable session : nat -> request -> reply.
Variable fromisoformat : string -> option datetime.
Variable strftime : datetime -> string -> string.

(** Python's [str] on the values that are no text. *)
Variable repr : json -> string.

(** [Prompt.ask]: the answer to the n-th prompt. *)
Variable ask : nat -> string.

(** [os.getenv("HONEYCOMB_API_KEY")] *)
Variable environment_api_key : option string.

(** Whether rich raises [MarkupError] when it renders an output. *)
Variable markup_error : output -> bool.

(** [console.print(...)] of a text or a table that holds values of the
    API: all of it is rendered before any of it is written. *)
Definition console_print (o : output) : CLI unit := fun cw =>
  if markup_error o then mk_cli_run (Failed MarkupError) [] cw
  else mk_cli_run (Done tt) [o] cw.

(** [console.print(table)] *)
Definition show (t : table) : CLI unit := console_print (OutTable t).

Definition py_str (j : json) : string :=
  match j with
  | JStr s => s
  | _ => repr j
  end.

Definition prompt (q : question) : CLI string := fun cw =>
  mk_cli_run (Done (ask (asked cw))) [OutPrompt q]
             (mk_cli_world (machine cw) (S (asked cw))).

(** An object of the class [HoneycombClient] of main.py. *)
Definition HoneycombClient : client :=
  mk_client
    (Main.get_environment_info session)
    (fun dataset_slug => Main.get_columns session (py_str dataset_slug))
    (fun dataset_slug column_id =>
       Main.delete_column session (py_str dataset_slug) (py_str column_id))
    (Main.get_datasets session)
    None.

Definition get_dataset_url (dataset team_slug env_slug : json)
  : M string :=
  (slug <- lift (py_get dataset "slug" (JStr EmptyString)) ;;
   if negb (truthy slug) then ret "N/A"
   else
     ret (String.append "https://ui.honeycomb.io/"
            (String.append (py_str team_slug)
               (String.append "/environments/"
                  (String.append (py_str env_slug)
                     (String.append "/datasets/"
                        (String.append (py_str slug) "/home")))))))%py.

Fixpoint datasets_rows (datasets : list json) (team_slug env_slug : json)
  (rows : list (list string)) : CLI (list (list string)) :=
  match datasets with
  | [] => cli_ret rows
  | dataset :: rest =>
      name <- call (lift (py_get dataset "name" (JStr "Unknown"))) ;;
      created_at <- call (lift (py_get dataset "created_at"
                                       (JStr EmptyString))) ;;
      created <- call (format_date fromisoformat strftime created_at) ;;
      last_written_at <- call (lift (py_get dataset "last_written_at"
                                            (JStr EmptyString))) ;;
      last_activity <- call (format_date fromisoformat strftime
                                         last_written_at) ;;
      url <- call (get_dataset_url dataset team_slug env_slug) ;;
      rows <- add_row rows [name; JStr created; JStr last_activity;
                            JStr url] ;;
      datasets_rows rest team_slug env_slug rows
  end.

Definition display_datasets_table (datasets : list json) (title : caption)
  (team_slug env_slug : json) : CLI unit :=
  rows <- datasets_rows datasets team_slug env_slug [] ;;
  show (mk_table (Title title) datasets_header rows).

Definition LIMIT : nat := 150.

Fixpoint columns_rows (display_columns : list json)
  (rows : list (list string)) : CLI (list (list string)) :=
  match display_columns with
  | [] => cli_ret rows
  | column :: rest =>
      key_name <- call (lift (py_get column "key_name" JNull)) ;;
      let key_name := py_or key_name (JStr "Unknown") in
      col_type <- call (lift (py_get column "type" JNull)) ;;
      let col_type := py_or col_type (JStr "unknown") in
      created_at <- call (lift (py_get column "created_at" JNull)) ;;
      created <- call (format_date fromisoformat strftime created_at) ;;
      last_written <- call (lift (py_get column "last_written" JNull)) ;;
      last_used <- call (format_date fromisoformat strftime last_written) ;;
      hidden <- call (lift (py_get column "hidden" (JBool false))) ;;
      let hidden := if truthy hidden then "Yes" else "No" in
      rows <- add_row rows [key_name; col_type; JStr created;
                            JStr last_used; JStr hidden] ;;
      columns_rows rest rows
  end.

Definition display_columns_table (columns : list json) (title : caption)
  (dataset_name : json) : CLI unit :=
  let display_columns := firstn LIMIT columns in
  let total_columns := List.length columns in
  let table_title :=
    TitleFor title dataset_name
             (if (LIMIT <? total_columns)%nat
              then Some (LIMIT, total_columns) else None) in
  rows <- columns_rows display_columns [] ;;
  show (mk_table table_title columns_header rows) ;;
  if (100 <? total_columns)%nat
  then say (LineMoreColumns (total_columns - 100))
  else cli_ret tt.

Fixpoint check_loop (days : Z) (columns active_columns inactive_columns
                                : list json)
  : M (list json * list json) :=
  (match columns with
   | [] => ret (active_columns, inactive_columns)
   | column :: rest =>
       inactive <- on_dict (fun c => is_column_inactive fromisoformat
                                                        c days) column ;;
       if inactive
       then check_loop days rest active_columns
                       (inactive_columns ++ [column])
       else check_loop days rest (active_columns ++ [column])
                       inactive_columns
   end)%py.

Definition no_columns : column_check := mk_column_check 0 0 [] None None.

Definition check_columns_for_dataset (client : client) (dataset : json)
  (days : Z) : CLI column_check :=
  dataset_name <- call (lift (py_get dataset "name" (JStr "Unknown"))) ;;
  dataset_slug <- call (lift (py_get dataset "slug" (JStr EmptyString))) ;;
  if negb (truthy dataset_slug) then
    say (LineSkippingNoSlug dataset_name) ;;
    cli_ret no_columns
  else
    columns <- call (client_get_columns client dataset_slug) ;;
    if negb (truthy columns) then cli_ret no_columns
    else
      items <- call (lift (py_iter columns)) ;;
      lists <- call (check_loop days items [] []) ;;
      cli_ret (mk_column_check (List.length (fst lists))
                               (List.length (snd lists))
                               (snd lists)
                               (Some dataset_name) (Some dataset_slug)).

Fixpoint delete_column_loop (client : client) (dataset_slug : json)
  (columns : list json) (deleted_columns : nat) : CLI nat :=
  match columns with
  | [] => cli_ret deleted_columns
  | column :: rest =>
      column_name <- call (lift (py_get column "key_name"
                                        (JStr "Unknown"))) ;;
      column_id <- call (lift (py_get column "id" (JStr EmptyString))) ;;
      if negb (truthy column_id) then
        say (LineSkippingColumn column_name) ;;
        delete_column_loop client dataset_slug rest deleted_columns
      else
        say (LineDeletingColumn column_name) ;;
        deleted <- call (client_delete_column client dataset_slug
                                              column_id) ;;
        if deleted then
          say LineOK ;;
          delete_column_loop client dataset_slug rest (S deleted_columns)
        else delete_column_loop client dataset_slug rest deleted_columns
  end.

Fixpoint delete_columns_loop (client : client)
  (datasets_with_inactive_columns : list column_check)
  (deleted_columns : nat) : CLI nat :=
  match datasets_with_inactive_columns with
  | [] => cli_ret deleted_columns
  | dataset_info :: rest =>
      dataset_name <- item (check_dataset_name dataset_info) ;;
      dataset_slug <- item (check_dataset_slug dataset_info) ;;
      say (LineDataset dataset_name) ;;
      deleted_columns <-
        delete_column_loop client dataset_slug
                           (check_inactive_columns dataset_info)
                           deleted_columns ;;
      delete_columns_loop client rest deleted_columns
  end.

Definition delete_columns (client : client)
  (datasets_with_inactive_columns : list column_check)
  (total_inactive_columns : nat) : CLI unit :=
  say LineColumnDeletionMode ;;
  say LineCannotBeUndone ;;
  answer <- prompt (AskDeleteColumns total_inactive_columns) ;;
  if String.eqb answer "no" then say LineColumnDeletionAborted
  else
    say (LineDeletingColumns total_inactive_columns) ;;
    deleted_columns <-
      delete_columns_loop client datasets_with_inactive_columns 0 ;;
    say (LineDeletedColumns deleted_columns total_inactive_columns).

Fixpoint process_loop (client : client) (args : arguments)
  (datasets : list json) (position count : nat)
  (total_inactive_columns : nat)
  (datasets_with_inactive_columns : list column_check)
  : CLI (nat * list column_check) :=
  match datasets with
  | [] => cli_ret (total_inactive_columns, datasets_with_inactive_columns)
  | dataset :: rest =>
      dataset_name <- call (lift (py_get dataset "name"
                                         (JStr "Unknown"))) ;;
      dataset_slug <- call (lift (py_get dataset "slug"
                                         (JStr EmptyString))) ;;
      say (LineChecking (position + 1) count dataset_name dataset_slug) ;;
      result <- check_columns_for_dataset client dataset (arg_days args) ;;
      say (LineFoundColumns (check_active result)
                            (check_inactive result)) ;;
      if (0 <? check_inactive result)%nat then
        dataset_name <- item (check_dataset_name result) ;;
        display_columns_table (check_inactive_columns result)
                              (InactiveColumns (arg_days args))
                              dataset_name ;;
        process_loop client args rest (S position) count
                     (total_inactive_columns + check_inactive result)
                     (datasets_with_inactive_columns ++ [result])
      else
        process_loop client args rest (S position) count
                     total_inactive_columns datasets_with_inactive_columns
  end.

Definition process_column_cleanup (client : client)
  (active_datasets : list json) (args : arguments) : CLI unit :=
  say (LineCheckingColumns (arg_days args)) ;;
  say (LineProcessing (List.length active_datasets)) ;;
  found <- process_loop client args active_datasets 0
                        (List.length active_datasets) 0 [] ;;
  let total_inactive_columns := fst found in
  let datasets_with_inactive_columns := snd found in
  say (LineFoundInactiveColumns
         total_inactive_columns
         (List.length datasets_with_inactive_columns)) ;;
  if (0 <? total_inactive_columns)%nat && arg_delete_columns args then
    delete_columns client datasets_with_inactive_columns
                   total_inactive_columns
  else if (0 <? total_inactive_columns)%nat then
    say (LineHowToDeleteColumns (arg_days args))
  else cli_ret tt.

Fixpoint delete_datasets_loop (client : client) (args : arguments)
  (inactive_datasets : list json) (deleted_count : nat) : CLI nat :=
  match inactive_datasets with
  | [] => cli_ret deleted_count
  | dataset :: rest =>
      name <- call (lift (py_get dataset "name" (JStr "Unknown"))) ;;
      slug <- call (lift (py_get dataset "slug" (JStr EmptyString))) ;;
      if negb (truthy slug) then
        say (LineSkippingNoSlug name) ;;
        delete_datasets_loop client args rest deleted_count
      else
        say (LineDeleting name) ;;
        deleted <-
          match client_delete_dataset client with
          | Some delete_dataset =>
              call (delete_dataset slug (arg_delete_protected args))
          | None => cli_raise (Failure AttributeError)
          end ;;
        if deleted then
          say LineOK ;;
          delete_datasets_loop client args rest (S deleted_count)
        else delete_datasets_loop client args rest deleted_count
  end.

Definition delete_datasets (client : client) (inactive_datasets : list json)
  (args : arguments) : CLI unit :=
  say LineDatasetDeletionMode ;;
  say LineCannotBeUndone ;;
  answer <- prompt (AskDeleteDatasets (List.length inactive_datasets)) ;;
  if String.eqb answer "no" then say LineDatasetDeletionAborted
  else
    say (LineDeletingDatasets (List.length inactive_datasets)) ;;
    deleted_count <- delete_datasets_loop client args inactive_datasets 0 ;;
    say (LineDeletedDatasets deleted_count
                             (List.length inactive_datasets)).

(** [args.api_key or os.getenv("HONEYCOMB_API_KEY")] *)
Definition chosen_api_key (args : arguments) : option string :=
  match arg_api_key args with
  | Some (String c s) => Some (String c s)
  | _ => environment_api_key
  end.

Definition setup_client (args : arguments) : CLI client :=
  match chosen_api_key args with
  | Some (String _ _) => cli_ret HoneycombClient
  | _ =>
      say LineNoApiKey ;;
      say LineHowToSetApiKey ;;
      cli_raise (Failure (SystemExit 1))
  end.

Definition is_empty {A} (l : list A) : bool :=
  match l with [] => true | _ => false end.

(** [main()], from the arguments [parse_arguments] has read. *)
Definition main (args : arguments) : CLI unit :=
  client <- setup_client args ;;
  auth_info <- call (client_get_environment_info client) ;;
  env_info <- call (lift (py_get auth_info "environment" (JObj []))) ;;
  team_info <- call (lift (py_get auth_info "team" (JObj []))) ;;
  env_name <- call (lift (py_get env_info "name" (JStr "Unknown"))) ;;
  env_slug <- call (lift (py_get env_info "slug" (JStr "unknown"))) ;;
  team_slug <- call (lift (py_get team_info "slug" (JStr "unknown"))) ;;
  console_print (OutLine (LineEnvironment env_name)) ;;
  say (LineFetching (arg_days args)) ;;
  datasets <- call (client_get_datasets client) ;;
  categories <- call (categorize_datasets fromisoformat datasets
                                          (arg_name args) (arg_days args)) ;;
  let active_datasets := fst (fst categories) in
  let inactive_datasets := snd (fst categories) in
  let filtered_out_datasets := snd categories in
  say (LineFoundActive (List.length active_datasets)) ;;
  (if negb (is_empty active_datasets) then
     display_datasets_table active_datasets
                            (ActiveDatasets (arg_days args))
                            team_slug env_slug
   else cli_ret tt) ;;
  say (LineFoundInactive (List.length inactive_datasets)) ;;
  (if names_given (arg_name args) then
     say (LineFilteredOut (List.length filtered_out_datasets))
   else cli_ret tt) ;;
  (if is_empty inactive_datasets then say LineNothingToCleanUp
   else cli_ret tt) ;;
  (if negb (is_empty inactive_datasets) then
     display_datasets_table inactive_datasets
                            (InactiveDatasets (arg_days args))
                            team_slug env_slug
   else cli_ret tt) ;;
  (if arg_check_columns args then
     process_column_cleanup client active_datasets args
   else cli_ret tt) ;;
  if arg_delete args && negb (is_empty inactive_datasets) then
    delete_datasets client inactive_datasets args
  else if arg_delete args && is_empty inactive_datasets then
    say (LineHowToDelete (arg_days args))
  else cli_ret tt.

End CommandLine.

(** *** Reading the output of a run *)

Fixpoint output_requests (o : list output) : list request :=
  match o with
  | [] => []
  | OutClient (EvRequest r) :: rest => r :: output_requests rest
  | _ :: rest => output_requests rest
  end.

Definition is_get (r : request) : bool :=
  match req_method r with GET => true | _ => false end.

(** [s] without its prefix [p], when it starts with it. *)
Fixpoint strip_prefix (p s : string) : option string :=
  match p, s with
  | EmptyString, _ => Some s
  | String a p', String b s' =>
      if Ascii.eqb a b then strip_prefix p' s' else None
  | String _ _, EmptyString => None
  end.

(** A DELETE without body whose address is written from the template of
    a column's address, [/1/columns/{dataset_slug}/{column_id}].  The
    address is the text handed to the transport: a slug or an id with
    dot segments is not told apart. *)
Definition is_column_delete (r : request) : bool :=
  match req_method r, req_json r with
  | DELETE, None =>
      match strip_prefix "https://api.honeycomb.io/1/columns/" (req_url r)
      with
      | Some rest => contains "/" rest
      | None => false
      end
  | _, _ => false
  end.

(** Every request of an output, of a trace, satisfies [P]. *)
Definition only (P : request -> bool) (o : list output) : Prop :=
  forallb P (output_requests o) = true.

Definition cli_only (P : request -> bool) {A} (m : CLI A) : Prop :=
  forall cw, only P (cli_out (m cw)).

Definition m_only (P : request -> bool) {A} (m : M A) : Prop :=
  forall w, forallb P (requests_of (trace (m w))) = true.

(** The verdict of [is_column_inactive] at [w], where it gives one, and
    the columns it gives one for. *)
Definition column_inactive_at (fromisoformat : string -> option datetime)
  (w : world) (days : Z) (column : json) : bool :=
  match column with
  | JObj c =>
      match res (is_column_inactive fromisoformat c days w) with
      | Ok b => b
      | Raise _ => false
      end
  | _ => false
  end.

Definition column_placeable (fromisoformat : string -> option datetime)
  (w : world) (days : Z) (column : json) : bool :=
  match column with
  | JObj c =>
      match res (is_column_inactive fromisoformat c days w) with
      | Ok _ => true
      | Raise _ => false
      end
  | _ => false
  end.

(** The DELETE requests [delete_columns] is to send: one for each column
    that has an id, dataset after dataset. *)
Definition column_target (repr : json -> string) (dataset_slug column : json)
  : list request :=
  match column with
  | JObj c =>
      let column_id := dict_get_default c "id" (JStr EmptyString) in
      if truthy column_id
      then [mk_request DELETE
              (column_url (py_str repr dataset_slug) (py_str repr column_id))
              None]
      else []
  | _ => []
  end.

Definition column_targets (repr : json -> string)
  (found : list column_check) : list request :=
  flat_map
    (fun info =>
       match check_dataset_slug info with
       | Some dataset_slug =>
           flat_map (column_target repr dataset_slug)
                    (check_inactive_columns info)
       | None => []
       end)
    found.

Definition has_slug (dataset : json) : bool :=
  match dataset with
  | JObj d => truthy (dict_get_default d "slug" (JStr EmptyString))
  | _ => false
  end.

(** A value a table can show where a text is expected, after [or] has
    replaced what is false: a text, or anything false. *)
Definition text_or_false (j : json) : bool :=
  negb (truthy j) || match j with JStr _ => true | _ => false end.

Definition displayable (column : json) : bool :=
  match column with
  | JObj c =>
      text_or_false (dict_get_default c "key_name" JNull)
      && text_or_false (dict_get_default c "type" JNull)
      && text_or_false (dict_get_default c "created_at" JNull)
      && text_or_false (dict_get_default c "last_written" JNull)
  | _ => false
  end.

Definition after_prompt (cw : cli_world) : cli_world :=
  mk_cli_world (machine cw) (S (asked cw)).

(** *** Sample data for main.py

    The texts of the sample answers are abridged; what [json()] makes of
    them is given in full. *)

(** The day [strftime] gives for the sample timestamp; the sample data
    holds no other instant. *)
Definition sample_strftime (dt : datetime) (format : string) : string :=
  if (wall dt =? 63839664000000000) && String.eqb format "%Y-%m-%d"
  then "2024-01-01" else "0001-01-01".

(** Python's [str] on the values of the sample data that are no text. *)
Definition sample_repr (j : json) : string :=
  match j with
  | JNull => "None"
  | JBool true => "True"
  | JBool false => "False"
  | _ => EmptyString
  end.

(** A user who gives the same answer to every prompt. *)
Definition always (answer : string) : nat -> string := fun _ => answer.

(** rich on the sample data: the one wrong markup there is the closing
    tag "[/x]", which closes nothing. *)
Definition has_stray_tag (s : string) : bool := contains "[/x]" s.

Definition sample_markup_error (o : output) : bool :=
  match o with
  | OutLine (LineEnvironment (JStr s)) => has_stray_tag s
  | OutTable t =>
      match table_title_of t with
      | TitleFor _ (JStr s) _ => has_stray_tag s
      | _ => false
      end
      || existsb (existsb has_stray_tag) (table_rows t)
  | _ => false
  end.

Definition not_found_response : response :=
  plain_response 404 (error_text (quoted "Dataset not found"))
                 (Some (JObj [("error", JStr "Dataset not found")])).


Definition stale_column : json :=
  JObj [("id", JStr "c1"); ("key_name", JStr "duration_ms");
        ("type", JStr "float"); ("last_written", JStr sample_stamp)].

Definition unused_column : json :=
  JObj [("id", JStr "c2"); ("key_name", JStr "legacy")].

Definition numbered_column : dict :=
  [("key_name", JStr "epoch"); ("last_written", JNum 1700000000)].

(** A column whose name is a closing tag of console markup. *)
Definition tagged_column : json :=
  JObj [("id", JStr "c3"); ("key_name", JStr "[/x]")].

Definition checkout : json :=
  JObj [("name", JStr "checkout"); ("slug", JStr "checkout");
        ("last_written_at", JStr sample_stamp)].

Definition scratch : json := JObj [("name", JStr "scratch")].

Definition columns_response : response :=
  plain_response 200 "[...]" (Some (JArr [stale_column; unused_column])).

Definition datasets_response : response :=
  plain_response 200 "[...]" (Some (JArr [checkout; scratch])).

(** The API as a run of [main] over the two datasets meets it, every
    deletion granted. *)
Definition sample_api : nat -> request -> reply :=
  scripted [Resp partial_auth_response; Resp datasets_response;
            Resp columns_response; Resp ok_response; Resp ok_response].

(** [--check-columns] alone, and every flag set; over 2000 days
    [checkout] is active, over 60 it is not. *)
Definition check_only (days : Z) : arguments :=
  mk_arguments days false false None true false (Some "key").

Definition delete_everything (days : Z) : arguments :=
  mk_arguments days true true None true true (Some "key").

Definition start : cli_world := mk_cli_world sample_world 0.

Definition sample_main (ask : nat -> string) (args : arguments)
  : cli_run unit :=
  main sample_api sample_fromisoformat sample_strftime sample_repr ask None
       sample_markup_error args start.

(** What was found for [checkout]: one inactive column. *)
Definition checkout_found : column_check :=
  mk_column_check 1 1 [unused_column] (Some (JStr "checkout"))
                  (Some (JStr "checkout")).

(** * Properties *)

(** ** Proof automation for runs *)

Ltac break_inner :=
  match goal with
  | |- context [match ?x with _ => _ end] =>
      lazymatch x with
      | context [match _ with _ => _ end] => fail
      | _ => destruct x eqn:?
      end
  end.

(** The two fixed sleeps of the client, 60 seconds and one second, are
    lengths [time.sleep] takes. *)
Lemma sleep_sixty_fits : (sleep_max <? Z.abs (seconds 60)) = false.
Proof. reflexivity. Qed.

Lemma sleep_sixty_length : (seconds 60 <? 0) = false.
Proof. reflexivity. Qed.

Lemma sleep_one_fits : (sleep_max <? Z.abs (seconds 1)) = false.
Proof. reflexivity. Qed.

Lemma sleep_one_length : (seconds 1 <? 0) = false.
Proof. reflexivity. Qed.

Ltac run_cbv :=
  repeat
    (progress
       (cbv beta iota zeta delta
          [bind try_except ret raise lift emit print sleep datetime_now];
        rewrite ?sleep_sixty_fits, ?sleep_sixty_length,
          ?sleep_one_fits, ?sleep_one_length;
        cbn [res trace final clock local_utcoffset sent wall tzinfo app
             fst snd orb andb negb is_ValueError is_TypeError is_KeyError
             is_RequestException exn_response
             py_in py_getitem py_lower py_get py_replace_Z])).

Ltac world_eq :=
  unfold after_request, after_sleep;
  cbn [clock local_utcoffset sent];
  f_equal; lia.

Lemma count_requests_app (a b : list event) :
  count_requests (a ++ b) = (count_requests a + count_requests b)%nat.
Proof.
  unfold count_requests. rewrite filter_app, length_app. reflexivity.
Qed.

Lemma time_slept_app (a b : list event) :
  time_slept (a ++ b) = time_slept a + time_slept b.
Proof.
  induction a as [|e a IH]; cbn [app time_slept]; [lia|].
  destruct e; rewrite IH; lia.
Qed.

(** ** Decimal notation *)

Lemma append_assoc (a b c : string) :
  String.append (String.append a b) c = String.append a (String.append b c).
Proof.
  induction a as [|x a IH]; cbn; [reflexivity|]. rewrite IH. reflexivity.
Qed.

Lemma append_not_empty (a : string) (c : ascii) :
  String.append a (String c EmptyString) <> EmptyString.
Proof. destruct a; discriminate. Qed.

Lemma all_chars_app (p : ascii -> bool) (a b : string) :
  all_chars p (String.append a b) = all_chars p a && all_chars p b.
Proof.
  induction a as [|x a IH]; cbn; [reflexivity|].
  rewrite IH, andb_assoc. reflexivity.
Qed.

Lemma int_digits_app (a b : string) :
  forall acc,
    int_digits acc (String.append a b) =
    match int_digits acc a with
    | Some n => int_digits n b
    | None => None
    end.
Proof.
  induction a as [|x a IH]; intros acc; cbn; [reflexivity|].
  destruct (is_decimal_char x); [apply IH|reflexivity].
Qed.

Lemma digit_char_decimal (d : Z) :
  0 <= d <= 9 ->
  is_decimal_char (digit_char d) = true /\ digit_value (digit_char d) = d.
Proof.
  intros H.
  assert (d = 0 \/ d = 1 \/ d = 2 \/ d = 3 \/ d = 4 \/ d = 5 \/ d = 6
          \/ d = 7 \/ d = 8 \/ d = 9) as Hd by lia.
  repeat (destruct Hd as [-> | Hd]); try subst d; split; reflexivity.
Qed.

Lemma decimal_char_digit (c : ascii) :
  is_decimal_char c = true ->
  0 <= digit_value c <= 9 /\ c = digit_char (digit_value c).
Proof.
  destruct c as [[] [] [] [] [] [] [] []]; cbv; intros H;
    try discriminate H; split; try reflexivity; split; discriminate.
Qed.

Lemma isdigit_spec (s : string) :
  isdigit s = true <-> s <> EmptyString /\ all_chars isdigit_char s = true.
Proof.
  destruct s; cbn [isdigit].
  - split; [discriminate|]. intros [H _]. contradiction.
  - split; [intros H; split; [discriminate|exact H]|]. intros [_ H]. exact H.
Qed.

(** The decimal notation of [n] is a digit string whose digits read as
    [n]. *)
Lemma decimal_of_digits (s : string) (n : Z) :
  decimal_of s n ->
  0 <= n /\ isdigit s = true /\ s <> EmptyString
  /\ int_digits 0 s = Some n.
Proof.
  intros H.
  assert (0 <= n /\ s <> EmptyString
          /\ all_chars is_decimal_char s = true
          /\ int_digits 0 s = Some n) as (Hn & Hs & Hall & Hint).
  { induction H as [d Hd | s n d H IH Hd].
    - destruct (digit_char_decimal d Hd) as (Hc & Hv).
      cbn. rewrite Hc, Hv. repeat split; try lia; try discriminate.
    - destruct IH as (Hn & Hs & Hall & Hint).
      destruct (digit_char_decimal d Hd) as (Hc & Hv).
      repeat split; [lia|apply append_not_empty| |].
      + rewrite all_chars_app, Hall. cbn. rewrite Hc. reflexivity.
      + rewrite int_digits_app, Hint. cbn. rewrite Hc, Hv. reflexivity. }
  split; [exact Hn|]. split; [|split; assumption].
  apply isdigit_spec. split; [exact Hs|].
  clear - Hall. induction s as [|c s IH]; cbn in *; [reflexivity|].
  apply andb_true_iff in Hall. destruct Hall as (Hc & Hall).
  rewrite (IH Hall). unfold isdigit_char. rewrite Hc. reflexivity.
Qed.

(** [int] reads it as [n] when it has at most 4300 digits, and raises
    [ValueError] when it has more. *)
Lemma decimal_of_int (s : string) (n : Z) :
  decimal_of s n ->
  Z.of_nat (String.length s) <= max_str_digits ->
  0 <= n /\ isdigit s = true /\ int s = Ok n.
Proof.
  intros H Hlen.
  destruct (decimal_of_digits s n H) as (Hn & Hdigit & Hs & Hint).
  split; [exact Hn|]. split; [exact Hdigit|].
  unfold int. destruct s; [contradiction|].
  destruct (Z.ltb_spec max_str_digits (Z.of_nat (String.length (String a s))));
    [lia|].
  rewrite Hint. reflexivity.
Qed.

Lemma int_too_long (s : string) :
  max_str_digits < Z.of_nat (String.length s) ->
  int s = Raise ValueError.
Proof.
  intros Hlen. unfold int. destruct s; [reflexivity|].
  destruct (Z.ltb_spec max_str_digits (Z.of_nat (String.length (String a s))));
    [reflexivity|lia].
Qed.

(** [int] raises nothing but [ValueError]. *)
Lemma int_raises (s : string) (e : exn) :
  int s = Raise e -> e = ValueError.
Proof.
  unfold int. destruct s; [congruence|].
  destruct (max_str_digits <? _); [congruence|].
  destruct (int_digits 0 _); congruence.
Qed.

(** Conversely, what [int] reads is in decimal notation. *)
Lemma int_decimal_of (s : string) (n : Z) :
  int s = Ok n -> decimal_of s n.
Proof.
  assert (forall s p acc,
             (p = EmptyString /\ acc = 0) \/ decimal_of p acc ->
             s <> EmptyString ->
             int_digits acc s = Some n ->
             decimal_of (String.append p s) n) as Hgen.
  { clear s. induction s as [|c s IH]; intros p acc Hp Hs Hint;
      [contradiction|].
    cbn in Hint. destruct (is_decimal_char c) eqn:Hc; [|discriminate].
    destruct (decimal_char_digit c Hc) as (Hd & Hcd).
    assert (decimal_of (String.append p (String c EmptyString))
                       (10 * acc + digit_value c)) as Hstep.
    { destruct Hp as [(-> & ->) | Hp].
      - cbn [String.append]. rewrite Hcd at 1.
        replace (10 * 0 + digit_value c) with (digit_value c) by lia.
        apply decimal_digit. exact Hd.
      - rewrite Hcd at 1. apply decimal_snoc; assumption. }
    destruct s as [|c' s'].
    - cbn in Hint. injection Hint as <-. exact Hstep.
    - replace (String.append p (String c (String c' s')))
        with (String.append (String.append p (String c EmptyString))
                            (String c' s'))
        by (rewrite append_assoc; reflexivity).
      apply (IH _ (10 * acc + digit_value c));
        [right; exact Hstep| |exact Hint].
      discriminate. }
  unfold int. destruct s as [|c s]; [discriminate|].
  destruct (max_str_digits <? _); [discriminate|].
  destruct (int_digits 0 (String c s)) eqn:Hint; [|discriminate].
  intros H. injection H as <-.
  apply (Hgen (String c s) EmptyString 0);
    [left; split; reflexivity| |exact Hint].
  discriminate.
Qed.

Lemma decimal_of_not_empty (n : Z) : ~ decimal_of EmptyString n.
Proof.
  intros H. inversion H as [d Hd Hs | s m d Hm Hd Hs].
  apply (append_not_empty s (digit_char d)). exact Hs.
Qed.

(** A text with a comma is not a digit string. *)
Lemma comma_not_digit (s : string) :
  contains "," s = true -> isdigit s = false /\ s <> EmptyString.
Proof.
  intros H.
  assert (all_chars isdigit_char s = false) as Hall.
  { induction s as [|c s IH]; [discriminate H|].
    cbn [contains String.prefix] in H. cbn [all_chars].
    destruct (ascii_dec "," c) as [<- | Hne].
    - reflexivity.
    - cbn [orb] in H. rewrite (IH H). apply andb_false_r. }
  split.
  - destruct s; [reflexivity|exact Hall].
  - intros ->. discriminate H.
Qed.

(** ** The backoff on a 429 *)

(** The seconds [time.sleep] takes are those a float can hold. *)
Lemma sleep_below_float_limit : 9223372036 < float_limit.
Proof. reflexivity. Qed.

Section RateLimitFacts.
Variable strptime : string -> string -> option datetime.

(** The backoff without a Retry-After header. *)
Lemma handle_rate_limit_no_header (resp : response) (w : world) :
  status_code resp = 429 ->
  headers_get (headers resp) "Retry-After" = None ->
  _handle_rate_limit strptime resp w =
  mk_run (Ok tt) [EvPrint MsgNoRetryAfter; EvSleep (seconds 60)]
         (after_sleep (seconds 60) w).
Proof.
  intros Hstatus Hheader. unfold _handle_rate_limit.
  rewrite Hstatus, Hheader. cbn [Z.eqb Pos.eqb negb]. run_cbv.
  reflexivity.
Qed.

(** The backoff on a Retry-After that [int] reads as [n]: nothing for 0;
    the message and the sleep up to 9223372036 seconds; beyond,
    [OverflowError] from [time.sleep] after the message, or from the
    formatting of the message before anything is printed. *)
Lemma handle_rate_limit_decimal (resp : response) (w : world)
  (retry_after : string) (n : Z) :
  status_code resp = 429 ->
  headers_get (headers resp) "Retry-After" = Some retry_after ->
  decimal_of retry_after n ->
  Z.of_nat (String.length retry_after) <= max_str_digits ->
  _handle_rate_limit strptime resp w =
  if n =? 0 then mk_run (Ok tt) [] w
  else if float_limit <=? n then mk_run (Raise OverflowError) [] w
  else if 9223372036 <? n then
    mk_run (Raise OverflowError)
           [EvPrint (MsgRateLimited (seconds n) retry_after)] w
  else
    mk_run (Ok tt)
           [EvPrint (MsgRateLimited (seconds n) retry_after);
            EvSleep (seconds n)]
           (after_sleep (seconds n) w).
Proof.
  intros Hstatus Hheader Hdec Hlen.
  destruct (decimal_of_int retry_after n Hdec Hlen) as (Hn & Hdigit & Hint).
  unfold _handle_rate_limit. rewrite Hstatus, Hheader.
  cbn [Z.eqb Pos.eqb negb].
  destruct (String.eqb_spec retry_after EmptyString) as [-> | _];
    [discriminate Hdigit|].
  rewrite Hdigit, Hint. unfold format_f. run_cbv.
  pose proof sleep_below_float_limit as Hfloat.
  destruct (Z.eqb_spec n 0) as [-> | Hn0]; [reflexivity|].
  destruct (Z.gtb_spec (seconds n) 0) as [_ | Hpos];
    [|unfold seconds in Hpos; lia].
  destruct (Z.leb_spec float_limit n) as [Hbig | Hbig];
    destruct (Z.leb_spec (seconds float_limit) (seconds n)) as [Hbig' | Hbig'];
    try (unfold seconds in Hbig'; lia); run_cbv; [reflexivity|].
  destruct (Z.ltb_spec 9223372036 n) as [Hlong | Hlong];
    destruct (Z.ltb_spec sleep_max (Z.abs (seconds n))) as [Hlong' | Hlong'];
    try (unfold seconds, sleep_max in Hlong'; lia); run_cbv; [reflexivity|].
  destruct (Z.ltb_spec (seconds n) 0) as [Hneg | _];
    [unfold seconds in Hneg; lia|].
  reflexivity.
Qed.

(** The backoff on a Retry-After that [strptime] reads as a date. *)
Lemma handle_rate_limit_date (resp : response) (w : world)
  (retry_after : string) (retry_time : datetime) :
  status_code resp = 429 ->
  headers_get (headers resp) "Retry-After" = Some retry_after ->
  contains "," retry_after = true ->
  strptime retry_after http_date_format = Some retry_time ->
  let wait := Z.max 0 (wall retry_time - clock w) in
  _handle_rate_limit strptime resp w =
  if wait =? 0 then mk_run (Ok tt) [] w
  else if sleep_max <? wait then
    mk_run (Raise OverflowError)
           [EvPrint (MsgRateLimited wait retry_after)] w
  else
    mk_run (Ok tt)
           [EvPrint (MsgRateLimited wait retry_after); EvSleep wait]
           (after_sleep wait w).
Proof.
  intros Hstatus Hheader Hcomma Hparse wait.
  destruct (comma_not_digit retry_after Hcomma) as (Hdigit & Hne).
  unfold _handle_rate_limit. rewrite Hstatus, Hheader.
  cbn [Z.eqb Pos.eqb negb].
  destruct (String.eqb_spec retry_after EmptyString) as [-> | _];
    [contradiction|].
  rewrite Hdigit. unfold parse_http_date. rewrite Hparse.
  unfold datetime_diff, replace_tzinfo, timezone_utc, format_f. run_cbv.
  replace (wall retry_time - 0 - (clock w + 0 - 0))
    with (wall retry_time - clock w) by lia.
  fold wait.
  assert (0 <= wait) as Hwait by (subst wait; lia).
  destruct (Z.eqb_spec wait 0) as [-> | Hne0]; [reflexivity|].
  destruct (Z.gtb_spec wait 0) as [_ | Hpos]; [|lia]. run_cbv.
  rewrite (Z.abs_eq wait Hwait).
  destruct (Z.ltb_spec sleep_max wait); run_cbv; [reflexivity|].
  destruct (Z.ltb_spec wait 0); [lia|]. reflexivity.
Qed.

(** C2, amended: on a 429 whose Retry-After is the decimal notation of
    [n], in at most 4300 digits and at most 9223372036, the client sleeps
    exactly [n] seconds; when it is an HTTP-date, read as UTC, that is at
    most 9223372036 seconds ahead, it sleeps until that date, and not at
    all when the date is past. *)
Theorem retry_after_wait (resp : response) (w : world)
  (retry_after : string) :
  status_code resp = 429 ->
  headers_get (headers resp) "Retry-After" = Some retry_after ->
  let h := _handle_rate_limit strptime resp w in
  (forall n,
      decimal_of retry_after n ->
      Z.of_nat (String.length retry_after) <= 4300 ->
      n <= 9223372036 ->
      res h = Ok tt
      /\ trace h = (if seconds n >? 0
                    then [EvPrint (MsgRateLimited (seconds n) retry_after);
                          EvSleep (seconds n)]
                    else [])
      /\ time_slept (trace h) = seconds n
      /\ clock (final h) = clock w + seconds n)
  /\ (forall retry_time,
        contains "," retry_after = true ->
        strptime retry_after http_date_format = Some retry_time ->
        let wait := Z.max 0 (wall retry_time - clock w) in
        wait <= seconds 9223372036 ->
        res h = Ok tt
        /\ trace h = (if wait >? 0
                      then [EvPrint (MsgRateLimited wait retry_after);
                            EvSleep wait]
                      else [])
        /\ time_slept (trace h) = wait
        /\ clock (final h) = clock w + wait).
Proof.
  intros Hstatus Hheader. cbv zeta. split.
  - intros n Hdec Hlen Hn.
    rewrite (handle_rate_limit_decimal resp w retry_after n Hstatus Hheader
               Hdec Hlen).
    pose proof sleep_below_float_limit as Hfloat.
    destruct (decimal_of_digits retry_after n Hdec) as (Hn0 & _).
    destruct (Z.eqb_spec n 0) as [-> | Hne]; cbn [res trace final].
    + cbn. repeat split; lia.
    + destruct (Z.leb_spec float_limit n); [lia|].
      destruct (Z.ltb_spec 9223372036 n); [lia|].
      destruct (Z.gtb_spec (seconds n) 0) as [_ | Hpos];
        [|unfold seconds in Hpos; lia].
      cbn [res trace final time_slept after_sleep clock].
      repeat split; lia.
  - intros retry_time Hcomma Hparse Hwait.
    rewrite (handle_rate_limit_date resp w retry_after retry_time Hstatus
               Hheader Hcomma Hparse).
    cbv zeta.
    set (wait := Z.max 0 (wall retry_time - clock w)) in *.
    assert (0 <= wait) as Hpos by (subst wait; lia).
    destruct (Z.eqb_spec wait 0) as [-> | Hne]; cbn [res trace final].
    + cbn. repeat split; lia.
    + destruct (Z.ltb_spec sleep_max wait) as [Hlong | _];
        [unfold seconds, sleep_max in *; lia|].
      destruct (Z.gtb_spec wait 0) as [_ | Hle]; [|lia].
      cbn [res trace final time_slept after_sleep clock].
      repeat split; lia.
Qed.

(** C3, amended: without a Retry-After header the client sleeps 60
    seconds; with a non-empty header that is neither a decimal number nor
    a date it reports the parse error and sleeps 60 seconds. *)
Theorem retry_after_fallback (resp : response) (w : world) :
  status_code resp = 429 ->
  let h := _handle_rate_limit strptime resp w in
  (headers_get (headers resp) "Retry-After" = None ->
   res h = Ok tt
   /\ trace h = [EvPrint MsgNoRetryAfter; EvSleep (seconds 60)]
   /\ time_slept (trace h) = seconds 60)
  /\ (forall retry_after,
        headers_get (headers resp) "Retry-After" = Some retry_after ->
        retry_after <> EmptyString ->
        (forall n, ~ decimal_of retry_after n) ->
        strptime retry_after http_date_format = None ->
        res h = Ok tt
        /\ trace h = [EvPrint (MsgRetryAfterParseError retry_after
                                                        ValueError);
                      EvPrint MsgFallback;
                      EvSleep (seconds 60)]
        /\ time_slept (trace h) = seconds 60
        /\ existsb is_parse_error (trace h) = true).
Proof.
  intros Hstatus. cbv zeta.
  unfold _handle_rate_limit. rewrite Hstatus.
  cbn [Z.eqb Pos.eqb negb].
  split.
  - intros ->. run_cbv. cbn [time_slept].
    repeat split; first [reflexivity | lia].
  - intros retry_after -> Hne Hnodec Hparse.
    destruct (String.eqb_spec retry_after EmptyString) as [-> | _];
      [contradiction|].
    destruct (isdigit retry_after) eqn:Hdigit.
    + destruct (int retry_after) as [n | e] eqn:Hint.
      { exfalso. apply (Hnodec n), int_decimal_of, Hint. }
      apply int_raises in Hint. subst e.
      run_cbv. cbn [time_slept existsb is_parse_error orb].
      repeat split; first [reflexivity | lia].
    + unfold parse_http_date. rewrite Hparse. run_cbv.
      cbn [time_slept existsb is_parse_error orb].
      repeat split; first [reflexivity | lia].
Qed.

(** A decimal Retry-After of more than 4300 digits is one [int] does not
    read: the client reports the parse error and sleeps 60 seconds. *)
Lemma handle_rate_limit_too_long (resp : response) (w : world)
  (retry_after : string) (n : Z) :
  status_code resp = 429 ->
  headers_get (headers resp) "Retry-After" = Some retry_after ->
  decimal_of retry_after n ->
  max_str_digits < Z.of_nat (String.length retry_after) ->
  _handle_rate_limit strptime resp w =
  mk_run (Ok tt)
         [EvPrint (MsgRetryAfterParseError retry_after ValueError);
          EvPrint MsgFallback;
          EvSleep (seconds 60)]
         (after_sleep (seconds 60) w).
Proof.
  intros Hstatus Hheader Hdec Hlen.
  destruct (decimal_of_digits retry_after n Hdec) as (_ & Hdigit & Hne & _).
  unfold _handle_rate_limit. rewrite Hstatus, Hheader.
  cbn [Z.eqb Pos.eqb negb].
  destruct (String.eqb_spec retry_after EmptyString) as [-> | _];
    [contradiction|].
  rewrite Hdigit, (int_too_long retry_after Hlen). run_cbv. reflexivity.
Qed.
End RateLimitFacts.

(** C3 fails on a header that is present and empty: the wait is 60
    seconds, but what is printed is the message for a missing header. *)
Lemma empty_retry_after_is_not_reported :
  let resp := rate_limited (Some EmptyString) in
  let h := _handle_rate_limit sample_strptime resp sample_world in
  status_code resp = 429
  /\ headers_get (headers resp) "Retry-After" = Some EmptyString
  /\ (forall n, ~ decimal_of EmptyString n)
  /\ sample_strptime EmptyString http_date_format = None
  /\ trace h = [EvPrint MsgNoRetryAfter; EvSleep (seconds 60)]
  /\ existsb is_parse_error (trace h) = false.
Proof.
  cbv zeta. repeat split; try reflexivity. exact decimal_of_not_empty.
Qed.

(** C2 fails on a Retry-After of 9223372037 seconds, a non-negative
    integer: [time.sleep] raises [OverflowError] once the message is
    printed, and nothing is slept. *)
Lemma overlong_retry_after_raises :
  let h := _handle_rate_limit sample_strptime overlong_wait sample_world in
  status_code overlong_wait = 429
  /\ headers_get (headers overlong_wait) "Retry-After" = Some "9223372037"
  /\ decimal_of "9223372037" 9223372037
  /\ res h = Raise OverflowError
  /\ trace h = [EvPrint (MsgRateLimited (seconds 9223372037) "9223372037")]
  /\ time_slept (trace h) = 0.
Proof.
  cbv zeta. repeat split; try reflexivity.
  apply int_decimal_of. reflexivity.
Qed.

(** ** The retry loop *)

Section ClientFacts.
Variable session : nat -> request -> reply.
Variable strptime : string -> string -> option datetime.

(** The backoff returns or raises [OverflowError]: a wait that
    [time.sleep], or the float the message is formatted from, does not
    take.  It sends nothing, and the clock moves by what it slept. *)
Lemma handle_rate_limit_outcome (resp : response) (w : world) :
  let h := _handle_rate_limit strptime resp w in
  (res h = Ok tt \/ res h = Raise OverflowError)
  /\ count_requests (trace h) = 0%nat
  /\ final h = after_sleep (time_slept (trace h)) w.
Proof.
  destruct w as [c o n].
  unfold _handle_rate_limit, parse_http_date, int, format_f, datetime_diff,
    replace_tzinfo, timezone_utc, after_sleep, count_requests.
  run_cbv.
  repeat (break_inner; run_cbv);
    cbn [filter List.length time_slept clock local_utcoffset sent];
    (split; [first [left; reflexivity | right; reflexivity]|]);
    (split; [reflexivity|f_equal; lia]).
Qed.

Lemma attempts_loop_cons method url kwargs attempt rest last w :
  attempts_loop session strptime method url kwargs (attempt :: rest) last w =
  let req := mk_request method url kwargs in
  match session (sent w) req with
  | Fail msg =>
      if (attempt <? max_retries - 1)%nat then
        let r' := attempts_loop session strptime method url kwargs rest last
                    (after_sleep (seconds 1) (after_request w)) in
        mk_run (res r')
               (EvRequest req
                :: EvPrint (MsgRequestFailedRetrying (ConnectionError msg))
                :: EvSleep (seconds 1) :: trace r')
               (final r')
      else mk_run (Raise (ConnectionError msg)) [EvRequest req]
                  (after_request w)
  | Resp r =>
      if (status_code r =? 429) && (attempt <? max_retries - 1)%nat then
        let h := _handle_rate_limit strptime r (after_request w) in
        match res h with
        | Ok _ =>
            let r' := attempts_loop session strptime method url kwargs rest
                        (Some r) (final h) in
            mk_run (res r') (EvRequest req :: trace h ++ trace r') (final r')
        | Raise e => mk_run (Raise e) (EvRequest req :: trace h) (final h)
        end
      else mk_run (Ok r) [EvRequest req] (after_request w)
  end.
Proof.
  cbn [attempts_loop].
  unfold attempt_body, session_request, after_request, after_sleep.
  run_cbv.
  destruct (session (sent w) (mk_request method url kwargs)) as [r | msg];
    run_cbv.
  - destruct (status_code r =? 429); run_cbv; [|reflexivity].
    destruct (attempt <? max_retries - 1)%nat; run_cbv; [|reflexivity].
    destruct (handle_rate_limit_outcome r
                (mk_world (clock w) (local_utcoffset w) (S (sent w))))
      as (Hres & _ & _).
    cbv zeta in Hres.
    destruct (_handle_rate_limit strptime r _) as [[[]|e] t f];
      cbn [res] in Hres.
    + run_cbv. rewrite app_nil_r.
      destruct (attempts_loop _ _ _ _ _ _ _ _). reflexivity.
    + destruct Hres as [Hres | Hres]; [discriminate Hres|].
      injection Hres as ->. run_cbv. reflexivity.
  - destruct (attempt <? max_retries - 1)%nat; run_cbv; [|reflexivity].
    destruct (attempts_loop _ _ _ _ _ _ _ _). reflexivity.
Qed.

(** Where a run of the loop leaves the world. *)
Lemma attempts_loop_final method url kwargs attempts :
  forall last w,
    let r := attempts_loop session strptime method url kwargs attempts
                           last w in
    (count_requests (trace r) <= List.length attempts)%nat
    /\ final r = mk_world (clock w + time_slept (trace r))
                          (local_utcoffset w)
                          (sent w + count_requests (trace r)).
Proof.
  induction attempts as [|attempt rest IH]; intros last w r.
  - subst r. cbn [attempts_loop]. destruct w as [c o n].
    destruct last; cbn; (split; [lia|f_equal; lia]).
  - subst r. rewrite attempts_loop_cons. cbv zeta.
    destruct (session (sent w) _) as [resp | msg].
    + destruct ((status_code resp =? 429) && _).
      * destruct (handle_rate_limit_outcome resp (after_request w))
          as (_ & Hc & Hf). cbv zeta in Hc, Hf.
        destruct (res (_handle_rate_limit strptime resp (after_request w)))
          as [[] | e].
        -- specialize (IH (Some resp)
                         (final (_handle_rate_limit strptime resp
                                   (after_request w)))).
           cbv zeta in IH. rewrite Hf in IH. destruct IH as (IHc & IHf).
           cbn [res trace final]. rewrite Hf, IHf.
           change (EvRequest ?q :: ?a ++ ?b) with ((EvRequest q :: a) ++ b).
           rewrite count_requests_app, time_slept_app.
           change (count_requests (EvRequest ?q :: ?a))
             with (S (count_requests a)).
           cbn [time_slept after_sleep after_request clock local_utcoffset
                sent List.length].
           rewrite Hc. split; [lia|world_eq].
        -- cbn [res trace final]. rewrite Hf.
           change (count_requests (EvRequest ?q :: ?a))
             with (S (count_requests a)).
           cbn [time_slept after_sleep after_request clock local_utcoffset
                sent List.length].
           rewrite Hc. split; [lia|world_eq].
      * destruct w as [c o n]. cbn. split; [lia|world_eq].
    + destruct (attempt <? max_retries - 1)%nat.
      * specialize (IH last (after_sleep (seconds 1) (after_request w))).
        cbv zeta in IH. destruct IH as (IHc & IHf).
        cbn [res trace final]. rewrite IHf.
        change (count_requests
                  (EvRequest ?q :: EvPrint ?m :: EvSleep ?d :: ?a))
          with (S (count_requests a)).
        cbn [time_slept after_sleep after_request clock local_utcoffset
             sent List.length].
        split; [lia|world_eq].
      * destruct w as [c o n]. cbn. split; [lia|world_eq].
Qed.

Lemma attempts_loop_head method url kwargs attempt rest last w :
  exists tail,
    trace (attempts_loop session strptime method url kwargs
                         (attempt :: rest) last w)
    = EvRequest (mk_request method url kwargs) :: tail.
Proof.
  rewrite attempts_loop_cons. cbv zeta.
  destruct (session (sent w) _) as [resp | msg].
  - destruct ((status_code resp =? 429) && _);
      [destruct (res (_handle_rate_limit _ _ _))|]; cbn [trace]; eauto.
  - destruct (attempt <? max_retries - 1)%nat; cbn [trace]; eauto.
Qed.

(** A run that sends more than [k] requests is a prefix with [k]
    requests followed by the run of the loop from its [k]-th turn. *)
Lemma attempts_loop_suffix method url kwargs :
  forall k n a last w,
    let r := attempts_loop session strptime method url kwargs (seq a n)
                           last w in
    (k < count_requests (trace r))%nat ->
    exists pre last',
      count_requests pre = k
      /\ let rk := attempts_loop session strptime method url kwargs
                     (seq (a + k) (n - k)) last'
                     (mk_world (clock w + time_slept pre)
                               (local_utcoffset w) (sent w + k)) in
         res r = res rk /\ trace r = pre ++ trace rk.
Proof.
  induction k as [|k IH]; intros n a last w r Hk.
  - exists [], last. split; [reflexivity|]. cbv zeta.
    cbn [time_slept app]. rewrite Nat.add_0_r, Nat.sub_0_r, Z.add_0_r.
    destruct w as [c o m]. cbn [clock local_utcoffset sent].
    rewrite Nat.add_0_r. split; reflexivity.
  - destruct n as [|n].
    { subst r. cbn in Hk. destruct last; cbn in Hk; lia. }
    subst r. cbn [seq] in *. rewrite attempts_loop_cons in *.
    cbv zeta in *.
    destruct (session (sent w) _) as [resp | msg].
    + destruct ((status_code resp =? 429) && _).
      * destruct (handle_rate_limit_outcome resp (after_request w))
          as (_ & Hc & Hf). cbv zeta in Hc, Hf.
        destruct (res (_handle_rate_limit strptime resp (after_request w)))
          as [[] | e];
          [|cbn [trace] in Hk;
            change (count_requests (EvRequest ?q :: ?x))
              with (S (count_requests x)) in Hk; lia].
        cbn [res trace] in *. rewrite Hf in *.
        change (EvRequest ?q :: ?x ++ ?y) with ((EvRequest q :: x) ++ y)
          in Hk.
        rewrite count_requests_app in Hk.
        change (count_requests (EvRequest ?q :: ?x))
          with (S (count_requests x)) in Hk.
        rewrite Hc in Hk.
        specialize (IH n (S a) (Some resp)
                      (after_sleep
                         (time_slept
                            (trace (_handle_rate_limit strptime resp
                                      (after_request w))))
                         (after_request w))).
        cbv zeta in IH.
        destruct (IH ltac:(lia)) as (pre & last' & Hpre & Hres & Htr).
        exists (EvRequest (mk_request method url kwargs)
                :: trace (_handle_rate_limit strptime resp (after_request w))
                   ++ pre), last'.
        split.
        { change (EvRequest ?q :: ?x ++ ?y) with ((EvRequest q :: x) ++ y).
          rewrite count_requests_app.
          change (count_requests (EvRequest ?q :: ?x))
            with (S (count_requests x)).
          rewrite Hc. lia. }
        cbv zeta. rewrite Hres, Htr.
        cbn [time_slept]. rewrite time_slept_app.
        unfold after_sleep, after_request.
        cbn [clock local_utcoffset sent Nat.sub].
        replace (a + S k)%nat with (S a + k)%nat by lia.
        replace (sent w + S k)%nat with (S (sent w) + k)%nat by lia.
        rewrite Z.add_assoc.
        split; [reflexivity|].
        cbn [app]. rewrite app_assoc. reflexivity.
      * cbn in Hk. lia.
    + destruct (a <? max_retries - 1)%nat.
      * cbn [res trace] in *.
        change (count_requests
                  (EvRequest ?q :: EvPrint ?m :: EvSleep ?d :: ?x))
          with (S (count_requests x)) in Hk.
        specialize (IH n (S a) last
                      (after_sleep (seconds 1) (after_request w))).
        cbv zeta in IH.
        destruct (IH ltac:(lia)) as (pre & last' & Hpre & Hres & Htr).
        exists (EvRequest (mk_request method url kwargs)
                :: EvPrint (MsgRequestFailedRetrying (ConnectionError msg))
                :: EvSleep (seconds 1) :: pre), last'.
        split.
        { change (count_requests
                    (EvRequest ?q :: EvPrint ?m :: EvSleep ?d :: ?x))
            with (S (count_requests x)). lia. }
        cbv zeta. rewrite Hres, Htr.
        cbn [time_slept].
        unfold after_sleep, after_request.
        cbn [clock local_utcoffset sent Nat.sub].
        replace (a + S k)%nat with (S a + k)%nat by lia.
        replace (sent w + S k)%nat with (S (sent w) + k)%nat by lia.
        rewrite Z.add_assoc.
        split; reflexivity.
      * cbn in Hk. lia.
Qed.

(** C4, amended: a logical call sends at most three requests.  A 429 met
    on the first or the second attempt is followed by the backoff of
    [_handle_rate_limit]: the message and a sleep of 60 seconds when the
    response has no Retry-After header, the message and a sleep of [n]
    seconds when the header is the decimal notation of [n] within the
    limits of [int] and [time.sleep].  When the backoff returns, another
    request follows; when it raises, the call ends there with its
    [OverflowError].  A 429 met on the third attempt is handed back as it
    is, and the trace ends with that request: nothing is slept after
    it. *)
Theorem retry_at_most_three_requests method url kwargs w :
  let r := _make_request_with_retry session strptime method url kwargs w in
  let req := mk_request method url kwargs in
  (count_requests (trace r) <= 3)%nat
  /\ (forall k resp,
        (k < 2)%nat -> (k < count_requests (trace r))%nat ->
        session (sent w + k)%nat req = Resp resp ->
        status_code resp = 429 ->
        exists pre,
          count_requests pre = k
          /\ let h := _handle_rate_limit strptime resp
                        (mk_world (clock w + time_slept pre)
                                  (local_utcoffset w)
                                  (S (sent w + k))) in
             (headers_get (headers resp) "Retry-After" = None ->
              res h = Ok tt
              /\ trace h = [EvPrint MsgNoRetryAfter; EvSleep (seconds 60)])
             /\ (forall retry_after n,
                    headers_get (headers resp) "Retry-After"
                    = Some retry_after ->
                    decimal_of retry_after n ->
                    Z.of_nat (String.length retry_after) <= 4300 ->
                    0 < n <= 9223372036 ->
                    res h = Ok tt
                    /\ trace h =
                         [EvPrint (MsgRateLimited (seconds n) retry_after);
                          EvSleep (seconds n)])
             /\ (res h = Ok tt ->
                 exists rest,
                   trace r =
                     pre ++ EvRequest req :: trace h
                     ++ EvRequest req :: rest)
             /\ (res h <> Ok tt ->
                 res h = Raise OverflowError
                 /\ res r = Raise OverflowError
                 /\ trace r = pre ++ EvRequest req :: trace h))
  /\ (forall resp,
        count_requests (trace r) = 3%nat ->
        session (sent w + 2)%nat req = Resp resp ->
        status_code resp = 429 ->
        res r = Ok resp
        /\ exists pre,
             count_requests pre = 2%nat
             /\ trace r = pre ++ [EvRequest req]).
Proof.
  cbv zeta. unfold _make_request_with_retry.
  change (seq 0 max_retries) with (seq 0 3).
  pose proof (attempts_loop_final method url kwargs (seq 0 3) None w)
    as Hfinal.
  pose proof (attempts_loop_suffix method url kwargs) as Hsuffix.
  specialize (fun k => Hsuffix k 3%nat 0%nat None w).
  cbv zeta in Hfinal, Hsuffix.
  set (r := attempts_loop session strptime method url kwargs (seq 0 3)
                          None w) in *.
  split; [|split].
  - apply Hfinal.
  - intros k resp Hk2 Hk Hreply Hstatus.
    destruct (Hsuffix k Hk) as (pre & last' & Hpre & Hres & Htr).
    exists pre. split; [exact Hpre|].
    set (wk := mk_world (clock w + time_slept pre) (local_utcoffset w)
                        (S (sent w + k))).
    split; [|split].
    { intros Hheader.
      rewrite (handle_rate_limit_no_header strptime resp wk Hstatus Hheader).
      split; reflexivity. }
    { intros retry_after n Hheader Hdec Hlen Hn.
      rewrite (handle_rate_limit_decimal strptime resp wk retry_after n
                 Hstatus Hheader Hdec Hlen).
      pose proof sleep_below_float_limit as Hfloat.
      destruct (Z.eqb_spec n 0); [lia|].
      destruct (Z.leb_spec float_limit n); [lia|].
      destruct (Z.ltb_spec 9223372036 n); [lia|].
      split; reflexivity. }
    destruct (handle_rate_limit_outcome resp wk) as (Hout & _).
    cbv zeta in Hout. revert Hout.
    destruct k as [|[|k]]; [| |lia];
      cbn [seq Nat.add Nat.sub] in Hres, Htr;
      rewrite attempts_loop_cons in Hres, Htr; cbv zeta in Hres, Htr;
      cbn [sent] in Hres, Htr; rewrite Hreply, Hstatus in Hres, Htr;
      cbn [Z.eqb Pos.eqb andb Nat.ltb Nat.leb max_retries Nat.sub]
        in Hres, Htr;
      unfold after_request in Hres, Htr;
      cbn [clock local_utcoffset sent] in Hres, Htr;
      fold wk in Hres, Htr;
      destruct (res (_handle_rate_limit strptime resp wk)) as [[] | e];
      cbn [res trace] in Hres, Htr; intros Hout.
    all: split;
      [intros Hok
      |intros Hraise; destruct Hout as [Hout | Hout];
       try congruence].
    all: try discriminate Hok.
    all: try (split; [exact Hout|]; injection Hout as ->;
              split; [exact Hres|exact Htr]).
    all: match type of Htr with
         | context [trace (attempts_loop _ _ _ _ _ (?a :: ?l) ?la ?wo)] =>
             destruct (attempts_loop_head method url kwargs a l la wo)
               as (tail & Hhead)
         end;
      rewrite Hhead in Htr; exists tail; exact Htr.
  - intros resp H3 Hreply Hstatus.
    destruct (Hsuffix 2%nat ltac:(lia))
      as (pre & last' & Hpre & Hres & Htr).
    cbn [seq Nat.add Nat.sub] in Hres, Htr.
    rewrite attempts_loop_cons in Hres, Htr. cbv zeta in Hres, Htr.
    cbn [sent] in Hres, Htr. rewrite Hreply, Hstatus in Hres, Htr.
    cbn in Hres, Htr.
    split; [exact Hres|]. exists pre. split; assumption.
Qed.

(** Three transport failures in a row. *)
Lemma make_request_all_fail method url kwargs w m0 m1 m2 :
  let req := mk_request method url kwargs in
  session (sent w) req = Fail m0 ->
  session (sent w + 1)%nat req = Fail m1 ->
  session (sent w + 2)%nat req = Fail m2 ->
  _make_request_with_retry session strptime method url kwargs w =
  mk_run (Raise (ConnectionError m2))
         [EvRequest req;
          EvPrint (MsgRequestFailedRetrying (ConnectionError m0));
          EvSleep (seconds 1);
          EvRequest req;
          EvPrint (MsgRequestFailedRetrying (ConnectionError m1));
          EvSleep (seconds 1);
          EvRequest req]
         (mk_world (clock w + seconds 2) (local_utcoffset w)
                   (sent w + 3)).
Proof.
  intros req H0 H1 H2.
  replace (sent w + 1)%nat with (S (sent w)) in H1 by lia.
  replace (sent w + 2)%nat with (S (S (sent w))) in H2 by lia.
  unfold _make_request_with_retry. cbn [seq max_retries].
  rewrite attempts_loop_cons. cbv zeta. fold req. rewrite H0.
  cbn [Nat.ltb Nat.leb max_retries Nat.sub].
  rewrite attempts_loop_cons. cbv zeta. fold req.
  cbn [sent after_sleep after_request]. rewrite H1.
  cbn [Nat.ltb Nat.leb max_retries Nat.sub].
  rewrite attempts_loop_cons. cbv zeta. fold req.
  cbn [sent after_sleep after_request]. rewrite H2.
  cbn [Nat.ltb Nat.leb max_retries Nat.sub res trace final].
  f_equal. unfold seconds. world_eq.
Qed.

(** C5: a transport failure on the first or the second attempt is
    followed by a message, a sleep of one second and another request; on
    the third attempt it is raised to the operation.  When the three
    attempts of [get_datasets] fail that way the process exits with
    status 1. *)
Theorem transport_failure_retry method url kwargs w :
  let r := _make_request_with_retry session strptime method url kwargs w in
  let req := mk_request method url kwargs in
  (forall k msg,
      (k < 2)%nat -> (k < count_requests (trace r))%nat ->
      session (sent w + k)%nat req = Fail msg ->
      exists pre rest,
        count_requests pre = k
        /\ trace r =
             pre ++ EvRequest req
             :: EvPrint (MsgRequestFailedRetrying (ConnectionError msg))
             :: EvSleep (seconds 1)
             :: EvRequest req :: rest)
  /\ (forall msg,
        count_requests (trace r) = 3%nat ->
        session (sent w + 2)%nat req = Fail msg ->
        res r = Raise (ConnectionError msg)
        /\ exists pre,
             count_requests pre = 2%nat
             /\ trace r = pre ++ [EvRequest req])
  /\ (forall m0 m1 m2,
        let listing :=
          mk_request GET "https://api.honeycomb.io/1/datasets" None in
        session (sent w) listing = Fail m0 ->
        session (sent w + 1)%nat listing = Fail m1 ->
        session (sent w + 2)%nat listing = Fail m2 ->
        let d := get_datasets session strptime w in
        res d = Raise (SystemExit 1)
        /\ 1 <> 0
        /\ trace d =
             [EvRequest listing;
              EvPrint (MsgRequestFailedRetrying (ConnectionError m0));
              EvSleep (seconds 1);
              EvRequest listing;
              EvPrint (MsgRequestFailedRetrying (ConnectionError m1));
              EvSleep (seconds 1);
              EvRequest listing;
              EvPrint (MsgDatasetsError (ConnectionError m2))]).
Proof.
  cbv zeta. split; [|split].
  - unfold _make_request_with_retry.
    change (seq 0 max_retries) with (seq 0 3).
    pose proof (attempts_loop_suffix method url kwargs) as Hsuffix.
    specialize (fun k => Hsuffix k 3%nat 0%nat None w).
    cbv zeta in Hsuffix.
    set (r := attempts_loop session strptime method url kwargs (seq 0 3)
                            None w) in *.
    intros k msg Hk2 Hk Hreply.
    destruct (Hsuffix k Hk) as (pre & last' & Hpre & Hres & Htr).
    exists pre.
    destruct k as [|[|k]]; [| |lia];
      cbn [seq Nat.add Nat.sub] in Hres, Htr;
      rewrite attempts_loop_cons in Htr; cbv zeta in Htr;
      cbn [sent] in Htr; rewrite Hreply in Htr;
      cbn [Nat.ltb Nat.leb max_retries Nat.sub trace] in Htr;
      match type of Htr with
      | context [trace (attempts_loop _ _ _ _ _ (?a :: ?l) ?la ?wo)] =>
          destruct (attempts_loop_head method url kwargs a l la wo)
            as (tail & Hhead)
      end;
      rewrite Hhead in Htr; exists tail; (split; [exact Hpre|]);
      exact Htr.
  - unfold _make_request_with_retry.
    change (seq 0 max_retries) with (seq 0 3).
    pose proof (attempts_loop_suffix method url kwargs) as Hsuffix.
    specialize (fun k => Hsuffix k 3%nat 0%nat None w).
    cbv zeta in Hsuffix.
    set (r := attempts_loop session strptime method url kwargs (seq 0 3)
                            None w) in *.
    intros msg H3 Hreply.
    destruct (Hsuffix 2%nat ltac:(lia))
      as (pre & last' & Hpre & Hres & Htr).
    cbn [seq Nat.add Nat.sub] in Hres, Htr.
    rewrite attempts_loop_cons in Hres, Htr. cbv zeta in Hres, Htr.
    cbn [sent] in Hres, Htr. rewrite Hreply in Hres, Htr.
    cbn in Hres, Htr.
    split; [exact Hres|]. exists pre. split; assumption.
  - intros m0 m1 m2 H0 H1 H2.
    unfold get_datasets. run_cbv.
    rewrite (make_request_all_fail GET _ None w m0 m1 m2 H0 H1 H2).
    run_cbv. repeat split; [lia].
Qed.
End ClientFacts.

(** C4 fails on a 429 whose backoff [time.sleep] refuses: the first
    attempt is followed by the message of the backoff only; nothing is
    slept, no second request is sent although the transport would answer
    it, and the call raises [OverflowError]. *)
Lemma overlong_backoff_ends_the_call :
  let r := _make_request_with_retry limited_too_long sample_strptime GET
             auth_url None sample_world in
  let req := mk_request GET auth_url None in
  limited_too_long 0%nat req = Resp overlong_wait
  /\ status_code overlong_wait = 429
  /\ limited_too_long 1%nat req = Resp partial_auth_response
  /\ res r = Raise OverflowError
  /\ trace r = [EvRequest req;
                EvPrint (MsgRateLimited (seconds 9223372037) "9223372037")]
  /\ count_requests (trace r) = 1%nat
  /\ time_slept (trace r) = 0.
Proof. cbv zeta. repeat split; reflexivity. Qed.

(** ** The operations of the client *)

Section OperationFacts.
Variable session : nat -> request -> reply.
Variable strptime : string -> string -> option datetime.

Ltac loop_turn :=
  rewrite attempts_loop_cons; cbv zeta;
  cbn [Nat.ltb Nat.leb max_retries Nat.sub].

Ltac case_reply :=
  match goal with
  | |- context [session ?n ?q] =>
      destruct (session n q) as [? | ?];
      [try match goal with
           | |- context [status_code ?x =? 429] =>
               destruct (status_code x =? 429)
           end|]
  end.

Ltac case_backoff :=
  try match goal with
      | |- context [res (_handle_rate_limit ?s ?r ?w)] =>
          let H := fresh "Hbackoff" in
          destruct (handle_rate_limit_outcome s r w) as ([H | H] & _);
          cbv zeta in H; rewrite H
      end.

(** A logical call hands back a response, raises the transport's
    failure, or raises the [OverflowError] of a backoff; nothing else. *)
Lemma make_request_result method url kwargs w :
  let r := _make_request_with_retry session strptime method url kwargs w in
  (exists resp, res r = Ok resp)
  \/ (exists msg, res r = Raise (ConnectionError msg))
  \/ res r = Raise OverflowError.
Proof.
  cbv zeta. unfold _make_request_with_retry. cbn [seq max_retries].
  loop_turn. case_reply; cbn [andb res]; case_backoff; cbn [res]; eauto.
  all: loop_turn; case_reply; cbn [andb res]; case_backoff; cbn [res];
    eauto.
  all: loop_turn; case_reply; cbn [andb res]; eauto.
Qed.


(** Where the amended C6 stops: the [OverflowError] of a backoff is not a
    [RequestException], and escapes [get_environment_info]. *)
Lemma environment_info_overflow (w : world) :
  let r := _make_request_with_retry session strptime GET auth_url None w in
  let info := get_environment_info session strptime w in
  res r = Raise OverflowError ->
  res info = Raise OverflowError /\ trace info = trace r.
Proof.
  cbv zeta. unfold get_environment_info. fold auth_url. run_cbv.
  destruct (_make_request_with_retry session strptime GET auth_url None w)
    as [[resp | e] t f]; cbn [res trace]; [discriminate|].
  intros [= ->]. run_cbv. split; reflexivity.
Qed.

(** C7: where the claim and the code part.  After three transport
    failures the handler of [get_columns] reads [e.response.status_code]
    on an exception whose response is [None]: [AttributeError] escapes
    and no sequence is returned. *)
Theorem get_columns_transport_failure dataset_slug w m0 m1 m2 :
  let req := mk_request GET (columns_url dataset_slug) None in
  session (sent w) req = Fail m0 ->
  session (sent w + 1)%nat req = Fail m1 ->
  session (sent w + 2)%nat req = Fail m2 ->
  res (get_columns session strptime dataset_slug w) = Raise AttributeError.
Proof.
  intros req H0 H1 H2. unfold get_columns. run_cbv.
  fold (columns_url dataset_slug).
  rewrite (make_request_all_fail session strptime GET _ None w m0 m1 m2
             H0 H1 H2).
  run_cbv. reflexivity.
Qed.


(** The sibling operation tests [e.response is not None] and turns the
    same transport failure into [False]. *)
Lemma delete_column_transport_failure dataset_slug column_id w m0 m1 m2 :
  let req :=
    mk_request DELETE
      (String.append "https://api.honeycomb.io/1/columns/"
         (String.append dataset_slug (String.append "/" column_id)))
      None in
  session (sent w) req = Fail m0 ->
  session (sent w + 1)%nat req = Fail m1 ->
  session (sent w + 2)%nat req = Fail m2 ->
  res (delete_column session strptime dataset_slug column_id w) = Ok false.
Proof.
  intros req H0 H1 H2. unfold delete_column. run_cbv.
  rewrite (make_request_all_fail session strptime DELETE _ None w m0 m1 m2
             H0 H1 H2).
  run_cbv. reflexivity.
Qed.

(** Without a match in the text, a body that decodes to [null] and an
    [error] field that is not a string both escape the [except] clause
    of [_is_deletion_protected]. *)
Lemma is_deletion_protected_escapes (resp : response) (w : world) :
  contains "delete protected" (lower (text resp)) = false ->
  (json_body resp = Some JNull ->
   _is_deletion_protected resp w = mk_run (Raise TypeError) [] w)
  /\ (forall d v,
        json_body resp = Some (JObj d) ->
        dict_get d "error" = Some v ->
        (forall s, v <> JStr s) ->
        _is_deletion_protected resp w
        = mk_run (Raise AttributeError) [] w).
Proof.
  intros Htext. unfold _is_deletion_protected, response_json.
  rewrite Htext, andb_false_r. split.
  - intros ->. run_cbv. reflexivity.
  - intros d v -> Hv Hstr. run_cbv. rewrite Hv. run_cbv.
    destruct v; run_cbv; try reflexivity. contradiction (Hstr s eq_refl).
Qed.

(** C10: where the claim and the code part.  Without a match in the
    text, a body that decodes to [null] or an [error] field that is not
    a string makes [_is_deletion_protected] raise: the [except] clause
    names [ValueError] and [KeyError] only. *)
Theorem is_deletion_protected_raises (resp : response) (w : world) :
  contains "delete protected" (lower (text resp)) = false ->
  (json_body resp = Some JNull ->
   res (_is_deletion_protected resp w) = Raise TypeError)
  /\ (forall d v,
        json_body resp = Some (JObj d) ->
        dict_get d "error" = Some v ->
        (forall s, v <> JStr s) ->
        res (_is_deletion_protected resp w) = Raise AttributeError).
Proof.
  intros Htext.
  destruct (is_deletion_protected_escapes resp w Htext) as (Hnull & Hobj).
  split.
  - intros Hjson. rewrite (Hnull Hjson). reflexivity.
  - intros d v Hjson Hv Hstr. rewrite (Hobj d v Hjson Hv Hstr).
    reflexivity.
Qed.

(** What [_is_deletion_protected] answers on the bodies it is written
    for. *)
Lemma is_deletion_protected_answer (resp : response) (w : world) :
  (text resp <> EmptyString ->
   contains "delete protected" (lower (text resp)) = true ->
   _is_deletion_protected resp w = mk_run (Ok true) [] w)
  /\ (forall d s,
        contains "delete protected" (lower (text resp)) = false ->
        json_body resp = Some (JObj d) ->
        dict_get d "error" = Some (JStr s) ->
        _is_deletion_protected resp w =
        mk_run (Ok (contains "delete protected" (lower s))) [] w)
  /\ (forall d,
        contains "delete protected" (lower (text resp)) = false ->
        json_body resp = Some (JObj d) ->
        dict_get d "error" = None ->
        _is_deletion_protected resp w = mk_run (Ok false) [] w)
  /\ (contains "delete protected" (lower (text resp)) = false ->
      json_body resp = None ->
      _is_deletion_protected resp w = mk_run (Ok false) [] w).
Proof.
  unfold _is_deletion_protected, response_json. repeat split.
  - intros Hne ->. apply String.eqb_neq in Hne. rewrite Hne. reflexivity.
  - intros d s -> -> Hs. rewrite andb_false_r. run_cbv.
    rewrite Hs. run_cbv. reflexivity.
  - intros d -> -> Hs. rewrite andb_false_r. run_cbv.
    rewrite Hs. run_cbv. reflexivity.
  - intros -> ->. rewrite andb_false_r. run_cbv. reflexivity.
Qed.

Lemma is_deletion_protected_plain (resp : response) (w : world) :
  contains "delete protected" (lower (text resp)) = true
  \/ plain_error_body resp ->
  _is_deletion_protected resp w
  = mk_run (Ok (announces_protection resp)) [] w.
Proof.
  destruct (is_deletion_protected_answer resp w) as (H1 & H2 & H3 & H4).
  unfold announces_protection.
  destruct (contains "delete protected" (lower (text resp))) eqn:Htext.
  - intros _. apply H1; [|reflexivity].
    intros Hempty. rewrite Hempty in Htext. discriminate Htext.
  - intros [Habs | [Hnone | (d & Hd & [Herr | (s & Herr)])]].
    + discriminate Habs.
    + rewrite Hnone. apply H4; [reflexivity|exact Hnone].
    + rewrite Hd, Herr. apply (H3 d); auto.
    + rewrite Hd, Herr. apply (H2 d s); auto.
Qed.

(** The first answer comes back at once when it is not a 429. *)
Lemma make_request_first_response method url kwargs w resp :
  session (sent w) (mk_request method url kwargs) = Resp resp ->
  status_code resp <> 429 ->
  _make_request_with_retry session strptime method url kwargs w
  = mk_run (Ok resp) [EvRequest (mk_request method url kwargs)]
           (after_request w).
Proof.
  intros Hreply Hstatus. unfold _make_request_with_retry.
  cbn [seq max_retries]. rewrite attempts_loop_cons. cbv zeta.
  rewrite Hreply. apply Z.eqb_neq in Hstatus. rewrite Hstatus.
  reflexivity.
Qed.

(** [disable_deletion_protection] answers a boolean, or raises the
    [OverflowError] of a backoff of its request. *)
Lemma disable_deletion_protection_result dataset_slug w :
  let u := disable_deletion_protection session strptime dataset_slug w in
  (exists b, res u = Ok b) \/ res u = Raise OverflowError.
Proof.
  cbv zeta. unfold disable_deletion_protection, raise_for_status. run_cbv.
  pose proof (make_request_result PUT
                (String.append "https://api.honeycomb.io/1/datasets/"
                               dataset_slug)
                (Some disable_payload) w) as Hr.
  cbv zeta in Hr.
  destruct (_make_request_with_retry _ _ _ _ _ _) as [[resp | e] t f];
    cbn [res] in Hr.
  - destruct ((400 <=? status_code resp) && (status_code resp <? 600));
      run_cbv; eauto.
  - destruct Hr as [(resp & Hr) | [(msg & Hr) | Hr]]; [discriminate Hr| |];
      injection Hr as ->; run_cbv; eauto.
Qed.

(** C1: where the claim and the code part.  A 409 whose [error] field
    is not a string, met with [disable_protection] set, escapes from
    [_is_deletion_protected] as [AttributeError]; an error answer whose
    body decodes to [null] escapes from [_print_delete_error] as
    [TypeError].  In both cases [delete_dataset] raises instead of
    answering [False]. *)
Theorem delete_dataset_raises dataset_slug w resp :
  let req := mk_request DELETE (dataset_url dataset_slug) None in
  session (sent w) req = Resp resp ->
  contains "delete protected" (lower (text resp)) = false ->
  (forall d v,
      status_code resp = 409 ->
      json_body resp = Some (JObj d) ->
      dict_get d "error" = Some v ->
      (forall s, v <> JStr s) ->
      let r := delete_dataset session strptime dataset_slug true w in
      res r = Raise AttributeError /\ trace r = [EvRequest req])
  /\ (forall disable_protection,
        is_error_status resp = true ->
        status_code resp <> 429 ->
        json_body resp = Some JNull ->
        (status_code resp =? 409) && disable_protection = false ->
        let r := delete_dataset session strptime dataset_slug
                                disable_protection w in
        res r = Raise TypeError
        /\ trace r = [EvRequest req;
                      EvPrint (MsgDeleteStatus (status_code resp)
                                               dataset_slug)]).
Proof.
  intros req Hreply Htext. split.
  - intros d v Hstatus Hjson Hv Hstr. cbv zeta.
    destruct (is_deletion_protected_escapes resp (after_request w) Htext)
      as (_ & Hraise).
    specialize (Hraise d v Hjson Hv Hstr).
    unfold delete_dataset, raise_for_status, _handle_delete_error.
    fold (dataset_url dataset_slug). run_cbv.
    rewrite (make_request_first_response DELETE _ None w resp Hreply)
      by (rewrite Hstatus; discriminate).
    rewrite Hstatus.
    cbn [Z.eqb Z.leb Z.ltb Z.compare Pos.compare Pos.compare_cont
         Pos.eqb andb].
    run_cbv. rewrite Hstatus. cbn [Z.eqb Pos.eqb andb]. run_cbv.
    rewrite Hraise. run_cbv. split; reflexivity.
  - intros disable_protection Herror Hstatus Hjson Hgate. cbv zeta.
    unfold delete_dataset, raise_for_status, _handle_delete_error,
      _print_delete_error, print_error_field, response_json.
    fold (dataset_url dataset_slug). run_cbv.
    rewrite (make_request_first_response DELETE _ None w resp Hreply
               Hstatus).
    fold (is_error_status resp). rewrite Herror. run_cbv.
    rewrite Hgate, Hjson. run_cbv. split; reflexivity.
Qed.

(** The part of C1 the code keeps, on the bodies it is written for.
    A 409 that announces protection, with [disable_protection] set:
    protection is disabled first; if that fails nothing more is sent;
    otherwise the delete is issued once more, through one logical call,
    and its outcome is the answer. *)
Lemma delete_dataset_protection_protocol dataset_slug w resp :
  let url := dataset_url dataset_slug in
  let r1 := _make_request_with_retry session strptime DELETE url None w in
  let u := disable_deletion_protection session strptime dataset_slug
             (final r1) in
  let r2 := _make_request_with_retry session strptime DELETE url None
              (final u) in
  let r := delete_dataset session strptime dataset_slug true w in
  let opening := trace r1 ++ EvPrint MsgProtectionDetected :: trace u in
  res r1 = Ok resp ->
  status_code resp = 409 ->
  contains "delete protected" (lower (text resp)) = true
  \/ plain_error_body resp ->
  announces_protection resp = true ->
  (res u = Ok false -> res r = Ok false /\ trace r = opening)
  /\ (res u = Ok true ->
      (forall resp2,
          res r2 = Ok resp2 -> is_error_status resp2 = false ->
          res r = Ok true
          /\ trace r = opening ++ EvPrint MsgRetryingDelete :: trace r2)
      /\ (forall resp2,
            res r2 = Ok resp2 -> is_error_status resp2 = true ->
            res r = Ok false
            /\ trace r = opening ++ EvPrint MsgRetryingDelete :: trace r2
                         ++ [EvPrint (MsgRetryStatus (status_code resp2))])
      /\ (forall msg,
            res r2 = Raise (ConnectionError msg) ->
            res r = Ok false
            /\ trace r = opening ++ EvPrint MsgRetryingDelete :: trace r2
                         ++ [EvPrint (MsgRetryError (ConnectionError msg))])).
Proof.
  cbv zeta.
  unfold delete_dataset, _handle_delete_error,
    _retry_delete_after_unprotect, raise_for_status.
  fold (dataset_url dataset_slug). run_cbv.
  destruct (_make_request_with_retry session strptime DELETE
              (dataset_url dataset_slug) None w) as [[resp1 | e1] t1 f1];
    cbn [res trace final]; intros [= ->] Hstatus Hbody Hann.
  rewrite Hstatus.
  cbn [Z.eqb Z.leb Z.ltb Z.compare Pos.compare Pos.compare_cont
       Pos.eqb andb].
  run_cbv. rewrite Hstatus. cbn [Z.eqb Pos.eqb andb]. run_cbv.
  rewrite (is_deletion_protected_plain resp f1 Hbody), Hann. run_cbv.
  destruct (disable_deletion_protection_result dataset_slug f1)
    as [(b & Hb) | Hb]; cbv zeta in Hb;
    destruct (disable_deletion_protection session strptime dataset_slug f1)
      as [[b' | eu] tu fu]; cbn [res trace final] in *;
    try discriminate Hb;
    [|split; discriminate].
  injection Hb as ->.
  destruct b; run_cbv.
  - split; [discriminate|]. intros _.
    pose proof (make_request_result DELETE (dataset_url dataset_slug)
                  None fu) as Hr2. cbv zeta in Hr2.
    destruct (_make_request_with_retry session strptime DELETE
                (dataset_url dataset_slug) None fu) as [[resp2 | e2] t2 f2];
      cbn [res trace final] in *.
    + fold (is_error_status resp2).
      destruct (is_error_status resp2) eqn:Herr; run_cbv;
        (split; [|split]); try (intros ? [= <-]); try congruence;
        try discriminate; intros _; rewrite ?app_nil_r;
        (split; [reflexivity|]);
        repeat (rewrite <- app_assoc; cbn [app]); reflexivity.
    + destruct Hr2 as [(resp2 & Hr2) | [(msg & Hr2) | Hr2]];
        [discriminate Hr2| |];
        injection Hr2 as ->; run_cbv;
        (split; [|split]); try discriminate.
      intros msg' [= <-]. split; [reflexivity|].
      repeat (rewrite <- app_assoc; cbn [app]). reflexivity.
  - split; [|discriminate]. intros _. rewrite ?app_nil_r.
    split; reflexivity.
Qed.

(** Every other failing answer is reported and answered with [False];
    nothing more is sent. *)
Lemma delete_dataset_other_failure dataset_slug disable_protection w resp :
  let r1 := _make_request_with_retry session strptime DELETE
              (dataset_url dataset_slug) None w in
  let r := delete_dataset session strptime dataset_slug
                          disable_protection w in
  res r1 = Ok resp ->
  is_error_status resp = true ->
  plain_error_body resp ->
  (status_code resp =? 409) && disable_protection
  && announces_protection resp = false ->
  res r = Ok false
  /\ trace r = trace r1
               ++ EvPrint (MsgDeleteStatus (status_code resp) dataset_slug)
               :: error_detail resp
  /\ count_requests (trace r) = count_requests (trace r1).
Proof.
  cbv zeta.
  unfold delete_dataset, raise_for_status, _handle_delete_error,
    _print_delete_error, print_error_field, response_json, error_detail.
  fold (dataset_url dataset_slug). run_cbv.
  destruct (_make_request_with_retry session strptime DELETE
              (dataset_url dataset_slug) None w) as [[resp1 | e1] t1 f1];
    cbn [res trace final]; intros [= ->] Herror Hbody Hgate.
  fold (is_error_status resp). rewrite Herror. run_cbv.
  assert (Hprot :
            (if (status_code resp =? 409) && disable_protection
             then _is_deletion_protected resp
             else fun w => mk_run (Ok false) [] w) f1
            = mk_run (Ok false) [] f1).
  { destruct ((status_code resp =? 409) && disable_protection);
      [|reflexivity].
    rewrite (is_deletion_protected_plain resp f1 (or_intror Hbody)).
    cbn [andb] in Hgate. rewrite Hgate. reflexivity. }
  rewrite Hprot. run_cbv.
  assert (Hcount : forall t tail,
             count_requests tail = 0%nat ->
             count_requests (t ++ tail) = count_requests t).
  { intros t tail H0. rewrite count_requests_app, H0. lia. }
  destruct Hbody as [Hnone | (d & Hd & [Herr | (s & Herr)])].
  - rewrite Hnone. run_cbv. rewrite ?app_nil_r.
    repeat split. apply Hcount. reflexivity.
  - rewrite Hd. run_cbv. rewrite Herr. run_cbv. rewrite ?app_nil_r.
    repeat split. apply Hcount. reflexivity.
  - rewrite Hd. run_cbv. rewrite Herr. run_cbv. rewrite ?app_nil_r.
    repeat (rewrite <- app_assoc; cbn [app]).
    repeat split. apply Hcount. reflexivity.
Qed.
End OperationFacts.


(** It fails as well when a backoff raises: the answer of the auth
    endpoint, ready behind a 429 that asks for too long a wait, is never
    fetched. *)
Lemma environment_info_raises_on_overlong_backoff :
  let info := get_environment_info limited_too_long sample_strptime
                                   sample_world in
  res info = Raise OverflowError
  /\ count_requests (trace info) = 1%nat.
Proof. split; reflexivity. Qed.

(** ** The classifiers *)

(** A literal [Z] at the end of a text without other [Z] is read as the
    offset [+00:00]. *)
Lemma replace_Z_suffix (p : string) :
  contains "Z" p = false ->
  iso_text (String.append p "Z") = String.append p "+00:00".
Proof.
  unfold iso_text. induction p as [|c p IH]; intros H; [reflexivity|].
  cbn [contains String.prefix] in H. cbn [String.append replace_char].
  destruct (ascii_dec "Z" c) as [<- | Hne].
  - cbn in H. destruct p; discriminate H.
  - cbn [orb] in H. destruct (Ascii.eqb_spec c "Z") as [-> | _];
      [contradiction|].
    rewrite (IH H). reflexivity.
Qed.

Ltac same_comparison :=
  match goal with
  | |- (?a <? ?b) = (?c <? ?d) =>
      destruct (Z.ltb_spec a b); destruct (Z.ltb_spec c d);
      try reflexivity; lia
  end.

Section ClassifierFacts.
Variable fromisoformat : string -> option datetime.

Lemma text_is_truthy (s : string) :
  s <> EmptyString -> truthy (JStr s) = true.
Proof.
  intros H. cbn. apply String.eqb_neq in H. rewrite H. reflexivity.
Qed.

(** The comparison both classifiers end with. *)
Lemma cutoff_comparison (t : datetime) (days : Z) (w : world) :
  let now_wall := clock w + offset_of w (tzinfo t) in
  let cutoff := clock w - days * microseconds_per_day in
  let comparison : M bool :=
    now <- datetime_now (tzinfo t) ;;
    delta <- lift (timedelta_days days) ;;
    cutoff_date <- lift (datetime_minus now delta) ;;
    lift (datetime_lt t cutoff_date) in
  0 <= now_wall <= max_wall ->
  0 <= now_wall - days * microseconds_per_day <= max_wall ->
  comparison w = mk_run (Ok (instant_of w t <? cutoff)) [] w.
Proof.
  cbv zeta. unfold instant_of, offset_of, timedelta_days, datetime_minus,
    datetime_lt, max_wall, microseconds_per_day.
  destruct t as [wt [o|]]; cbn [wall tzinfo]; intros Hnow Hcut; run_cbv.
  - assert ((Z.abs days <=? 999999999) = true) as ->
        by (apply Z.leb_le, Z.abs_le; lia).
    run_cbv.
    replace ((0 <=? clock w + o - days * 86400000000)
             && (clock w + o - days * 86400000000
                 <=? 3652059 * 86400000000 - 1)) with true
      by (symmetry; apply andb_true_iff; split; apply Z.leb_le; lia).
    run_cbv. do 2 f_equal. same_comparison.
  - assert ((Z.abs days <=? 999999999) = true) as ->
        by (apply Z.leb_le, Z.abs_le; lia).
    run_cbv.
    replace ((0 <=? clock w + local_utcoffset w - days * 86400000000)
             && (clock w + local_utcoffset w - days * 86400000000
                 <=? 3652059 * 86400000000 - 1)) with true
      by (symmetry; apply andb_true_iff; split; apply Z.leb_le; lia).
    run_cbv. do 2 f_equal. same_comparison.
Qed.

(** C8, amended: for a timestamp that parses to [t] and a window for
    which the cutoff is itself a date Python can represent, both
    classifiers answer inactive exactly when [t] lies before now minus
    [days] days; at the boundary the answer is active. *)
Theorem inactive_iff_before_cutoff (record : dict) (days : Z) (w : world)
  (s : string) (t : datetime) :
  let now_wall := clock w + offset_of w (tzinfo t) in
  let cutoff := clock w - days * microseconds_per_day in
  s <> EmptyString ->
  fromisoformat (iso_text s) = Some t ->
  0 <= now_wall <= max_wall ->
  0 <= now_wall - days * microseconds_per_day <= max_wall ->
  exists inactive,
    (inactive = true <-> instant_of w t < cutoff)
    /\ (instant_of w t = cutoff -> inactive = false)
    /\ (dict_get record "last_written" = Some (JStr s) ->
        is_column_inactive fromisoformat record days w
        = mk_run (Ok inactive) [] w)
    /\ (dict_get record "last_written_at" = Some (JStr s) ->
        is_dataset_inactive fromisoformat record days w
        = mk_run (Ok inactive) [] w).
Proof.
  cbv zeta. intros Hs Hparse Hnow Hcut. unfold iso_text in Hparse.
  exists (instant_of w t <? clock w - days * microseconds_per_day).
  pose proof (cutoff_comparison t days w Hnow Hcut) as Hcmp.
  cbv zeta in Hcmp.
  split; [apply Z.ltb_lt|]. split; [intros ->; apply Z.ltb_irrefl|].
  split; intros Hfield.
  - unfold is_column_inactive, dict_get_default, parse_iso.
    rewrite Hfield, (text_is_truthy s Hs).
    revert Hcmp. run_cbv. rewrite Hparse. run_cbv.
    intros ->. reflexivity.
  - unfold is_dataset_inactive, dict_get_default, parse_iso.
    rewrite Hfield, (text_is_truthy s Hs).
    revert Hcmp. run_cbv. rewrite Hparse. run_cbv.
    intros ->. reflexivity.
Qed.

(** The part of C9 the code keeps: a record without timestamp, or with
    an empty one, is inactive whatever the window; so is a record whose
    timestamp, a text, does not parse, and then a warning names the
    column by its [key_name], the dataset by its [name]. *)
Lemma missing_or_unparsable_is_inactive (record : dict) (days : Z)
  (w : world) :
  (dict_get record "last_written" = None
   \/ dict_get record "last_written" = Some JNull
   \/ dict_get record "last_written" = Some (JStr EmptyString) ->
   is_column_inactive fromisoformat record days w = mk_run (Ok true) [] w)
  /\ (dict_get record "last_written_at" = None
      \/ dict_get record "last_written_at" = Some JNull
      \/ dict_get record "last_written_at" = Some (JStr EmptyString) ->
      is_dataset_inactive fromisoformat record days w
      = mk_run (Ok true) [] w)
  /\ (forall s,
        dict_get record "last_written" = Some (JStr s) ->
        s <> EmptyString ->
        fromisoformat (iso_text s) = None ->
        is_column_inactive fromisoformat record days w
        = mk_run (Ok true)
                 [EvPrint (MsgWarnColumn
                             (dict_get_default record "key_name"
                                               (JStr "unknown")))]
                 w)
  /\ (forall s,
        dict_get record "last_written_at" = Some (JStr s) ->
        s <> EmptyString ->
        fromisoformat (iso_text s) = None ->
        is_dataset_inactive fromisoformat record days w
        = mk_run (Ok true)
                 [EvPrint (MsgWarnDataset
                             (dict_get_default record "name"
                                               (JStr "unknown")))]
                 w).
Proof.
  repeat split.
  - unfold is_column_inactive, dict_get_default.
    intros [-> | [-> | ->]]; reflexivity.
  - unfold is_dataset_inactive, dict_get_default.
    intros [-> | [-> | ->]]; reflexivity.
  - intros s Hfield Hs Hparse. unfold iso_text in Hparse.
    unfold is_column_inactive, parse_iso.
    unfold dict_get_default.
    rewrite Hfield, (text_is_truthy s Hs).
    run_cbv. rewrite Hparse. run_cbv. reflexivity.
  - intros s Hfield Hs Hparse. unfold iso_text in Hparse.
    unfold is_dataset_inactive, parse_iso.
    unfold dict_get_default.
    rewrite Hfield, (text_is_truthy s Hs).
    run_cbv. rewrite Hparse. run_cbv. reflexivity.
Qed.

(** C9: where the claim and the code part.  A timestamp that is present
    and is not a text (a number other than zero, [true], a list or an
    object with entries) cannot be parsed, and both classifiers raise
    [AttributeError] instead of answering inactive: they call [replace]
    on it, and their [except] clause names [ValueError] and [TypeError]
    only.  No warning is printed. *)
Theorem timestamp_must_be_text (record : dict) (days : Z) (w : world)
  (v : json) :
  truthy v = true ->
  (forall s, v <> JStr s) ->
  (dict_get record "last_written" = Some v ->
   is_column_inactive fromisoformat record days w
   = mk_run (Raise AttributeError) [] w)
  /\ (dict_get record "last_written_at" = Some v ->
      is_dataset_inactive fromisoformat record days w
      = mk_run (Raise AttributeError) [] w).
Proof.
  intros Htruthy Htext.
  unfold is_column_inactive, is_dataset_inactive, dict_get_default.
  split; intros ->; rewrite Htruthy;
    destruct v as [| b | n | s | l | d]; try reflexivity;
    exfalso; apply (Htext s); reflexivity.
Qed.
End ClassifierFacts.

(** C8 fails on a window so large that the cutoff falls before the year
    1: the subtraction raises [OverflowError], which neither classifier
    catches. *)
Lemma huge_window_overflows :
  dict_get sample_column "last_written" = Some (JStr sample_stamp)
  /\ dict_get sample_dataset "last_written_at" = Some (JStr sample_stamp)
  /\ sample_fromisoformat (iso_text sample_stamp)
     = Some (mk_datetime 63839664000000000 (Some 0))
  /\ res (is_column_inactive sample_fromisoformat sample_column 1000000
                             sample_world)
     = Raise OverflowError
  /\ res (is_dataset_inactive sample_fromisoformat sample_dataset 1000000
                              sample_world)
     = Raise OverflowError.
Proof. repeat split. Qed.

(** ** More of the client *)

Lemma requests_of_app (a b : list event) :
  requests_of (a ++ b) = requests_of a ++ requests_of b.
Proof.
  induction a as [|e a IH]; cbn [app requests_of]; [reflexivity|].
  destruct e; cbn [app]; rewrite IH; reflexivity.
Qed.

Lemma requests_of_none (t : list event) :
  count_requests t = 0%nat -> requests_of t = [].
Proof.
  unfold count_requests. induction t as [|e t IH]; [reflexivity|].
  destruct e; cbn; intros H; try discriminate H; apply IH; exact H.
Qed.

Section RetryFacts.
Variable session : nat -> request -> reply.
Variable strptime : string -> string -> option datetime.

(** Every turn of the loop sends the same request again. *)
Lemma attempts_loop_same_request method url kwargs attempts :
  forall last w,
    let r := attempts_loop session strptime method url kwargs attempts
                           last w in
    requests_of (trace r)
    = repeat (mk_request method url kwargs) (count_requests (trace r)).
Proof.
  induction attempts as [|attempt rest IH]; intros last w r; subst r.
  - cbn [attempts_loop]. destruct last; reflexivity.
  - rewrite attempts_loop_cons. cbv zeta.
    destruct (session (sent w) _) as [resp | msg].
    + destruct ((status_code resp =? 429) && _); [|reflexivity].
      destruct (handle_rate_limit_outcome strptime resp (after_request w))
        as (_ & Hc & _). cbv zeta in Hc.
      destruct (res (_handle_rate_limit strptime resp (after_request w)))
        as [[] | e]; cbn [trace].
      * change (EvRequest ?q :: ?a ++ ?b) with ((EvRequest q :: a) ++ b).
        rewrite requests_of_app, count_requests_app.
        change (count_requests (EvRequest ?q :: ?a))
          with (S (count_requests a)).
        cbn [requests_of]. rewrite Hc, (requests_of_none _ Hc), IH.
        reflexivity.
      * change (count_requests (EvRequest ?q :: ?a))
          with (S (count_requests a)).
        cbn [requests_of]. rewrite Hc, (requests_of_none _ Hc).
        reflexivity.
    + destruct (attempt <? max_retries - 1)%nat; [|reflexivity].
      cbn [trace requests_of].
      change (count_requests
                (EvRequest ?q :: EvPrint ?m :: EvSleep ?d :: ?a))
        with (S (count_requests a)).
      rewrite IH. reflexivity.
Qed.

(** What a run over the last [n] attempts hands back is the answer to the
    last request it sent; what it raises is the transport failure met on
    the last attempt, or the [OverflowError] of the backoff that followed
    a 429 on an earlier one. *)
Lemma attempts_loop_last_answer method url kwargs :
  forall n a last w,
    (a + S n = max_retries)%nat ->
    let r := attempts_loop session strptime method url kwargs
                           (seq a (S n)) last w in
    let c := count_requests (trace r) in
    let req := mk_request method url kwargs in
    (1 <= c)%nat
    /\ match res r with
       | Ok resp => session (sent w + c - 1)%nat req = Resp resp
       | Raise e =>
           (exists msg,
               e = ConnectionError msg
               /\ session (sent w + c - 1)%nat req = Fail msg)
           \/ (e = OverflowError
               /\ (a + c < 3)%nat
               /\ exists resp w',
                    session (sent w + c - 1)%nat req = Resp resp
                    /\ status_code resp = 429
                    /\ res (_handle_rate_limit strptime resp w')
                       = Raise OverflowError)
       end.
Proof.
  unfold max_retries.
  induction n as [|n IH]; intros a last w Ha; cbv zeta.
  - cbn [seq]. rewrite attempts_loop_cons. cbv zeta.
    assert (a = 2%nat) as -> by lia.
    cbn [Nat.ltb Nat.leb max_retries Nat.sub].
    destruct (session (sent w) _) as [resp | msg] eqn:Hreply;
      rewrite ?andb_false_r;
      cbn [res trace]; (split; [cbn; lia|]);
      change (count_requests [EvRequest ?q]) with 1%nat;
      replace (sent w + 1 - 1)%nat with (sent w) by lia; eauto.
  - cbn [seq]. rewrite attempts_loop_cons. cbv zeta.
    assert ((a <? max_retries - 1)%nat = true) as Hnonfinal
        by (apply Nat.ltb_lt; unfold max_retries; lia).
    destruct (session (sent w) _) as [resp | msg] eqn:Hreply;
      rewrite Hnonfinal, ?andb_true_r.
    + destruct (Z.eqb_spec (status_code resp) 429) as [Hstatus | _].
      * destruct (handle_rate_limit_outcome strptime resp (after_request w))
          as (Hout & Hc & Hf). cbv zeta in Hout, Hc, Hf.
        destruct (res (_handle_rate_limit strptime resp (after_request w)))
          as [[] | e] eqn:Hres.
        -- specialize (IH (S a) (Some resp)
                         (final (_handle_rate_limit strptime resp
                                   (after_request w))) ltac:(lia)).
           cbv zeta in IH. cbn [seq] in IH. destruct IH as (IH1 & IH2).
           cbn [res trace].
           change (EvRequest ?q :: ?x ++ ?y) with ((EvRequest q :: x) ++ y).
           rewrite count_requests_app.
           change (count_requests (EvRequest ?q :: ?x))
             with (S (count_requests x)).
           rewrite Hc. split; [lia|].
           rewrite Hf in IH2. cbn [after_sleep after_request sent] in IH2.
           rewrite Hf.
           match goal with
           | |- context [(sent w + (1 + ?c) - 1)%nat] =>
               replace (sent w + (1 + c) - 1)%nat
                 with (S (sent w) + c - 1)%nat by lia
           end.
           destruct (res (attempts_loop _ _ _ _ _ _ _ _)) as [resp' | e'];
             [exact IH2|].
           destruct IH2 as [IH2 | (He & Hlt & IH2)]; [left; exact IH2|].
           right. split; [exact He|]. split; [lia|exact IH2].
        -- destruct Hout as [Hout | Hout]; [discriminate Hout|].
           injection Hout as ->. cbn [res trace].
           change (count_requests (EvRequest ?q :: ?x))
             with (S (count_requests x)).
           rewrite Hc. split; [lia|]. right.
           split; [reflexivity|].
           apply Nat.ltb_lt in Hnonfinal. unfold max_retries in Hnonfinal.
           split; [lia|].
           exists resp, (after_request w).
           replace (sent w + 1 - 1)%nat with (sent w) by lia.
           split; [exact Hreply|]. split; [exact Hstatus|exact Hres].
      * cbn [res trace]. split; [cbn; lia|].
        change (count_requests [EvRequest ?q]) with 1%nat.
        replace (sent w + 1 - 1)%nat with (sent w) by lia. exact Hreply.
    + specialize (IH (S a) last (after_sleep (seconds 1) (after_request w))
                    ltac:(lia)).
      cbv zeta in IH. cbn [seq] in IH. destruct IH as (IH1 & IH2).
      cbn [res trace].
      change (count_requests
                (EvRequest ?q :: EvPrint ?m :: EvSleep ?d :: ?x))
        with (S (count_requests x)).
      split; [lia|].
      cbn [after_sleep after_request sent] in IH2.
      match goal with
      | |- context [(sent w + S ?c - 1)%nat] =>
          replace (sent w + S c - 1)%nat
            with (S (sent w) + c - 1)%nat by lia
      end.
      destruct (res (attempts_loop _ _ _ _ _ _ _ _)) as [resp' | e'];
        [exact IH2|].
      destruct IH2 as [IH2 | (He & Hlt & IH2)]; [left; exact IH2|].
      right. split; [exact He|]. split; [lia|exact IH2].
Qed.

(** X1: a logical call sends one and the same request, between one and
    three times, and hands back the answer to the last of them: the
    response it got, or the transport failure it met.  The one other
    exception it raises is the [OverflowError] of a backoff: then the
    last request was the first or the second, and was answered by a 429
    on which [_handle_rate_limit] raised. *)
Theorem make_request_last_answer method url kwargs w :
  let r := _make_request_with_retry session strptime method url kwargs w in
  let req := mk_request method url kwargs in
  let c := count_requests (trace r) in
  (1 <= c <= 3)%nat
  /\ requests_of (trace r) = repeat req c
  /\ (forall resp,
        res r = Ok resp -> session (sent w + c - 1)%nat req = Resp resp)
  /\ (forall e,
        res r = Raise e ->
        (exists msg,
            e = ConnectionError msg
            /\ session (sent w + c - 1)%nat req = Fail msg)
        \/ (e = OverflowError
            /\ (c < 3)%nat
            /\ exists resp w',
                 session (sent w + c - 1)%nat req = Resp resp
                 /\ status_code resp = 429
                 /\ res (_handle_rate_limit strptime resp w')
                    = Raise OverflowError)).
Proof.
  cbv zeta. unfold _make_request_with_retry.
  pose proof (attempts_loop_final session strptime method url kwargs
                (seq 0 max_retries) None w) as (Hle & _).
  pose proof (attempts_loop_last_answer method url kwargs 2 0 None w
                eq_refl) as (Hge & Hlast).
  cbv zeta in Hlast. change (seq 0 3) with (seq 0 max_retries) in *.
  split; [split; [exact Hge|exact Hle]|].
  split; [apply attempts_loop_same_request|].
  destruct (res (attempts_loop _ _ _ _ _ _ _ _)) as [resp | e].
  - split; [intros resp' [= <-]; exact Hlast|intros e [=]].
  - split; [intros resp [=]|intros e' [= <-]; exact Hlast].
Qed.
End RetryFacts.

Lemma count_requests_print (t : list event) (tail : list event) :
  count_requests tail = 0%nat ->
  count_requests (t ++ tail) = count_requests t
  /\ requests_of (t ++ tail) = requests_of t.
Proof.
  intros H. rewrite count_requests_app, requests_of_app, H.
  rewrite (requests_of_none _ H), app_nil_r. split; [lia|reflexivity].
Qed.

Section AnswerFacts.
Variable session : nat -> request -> reply.
Variable strptime : string -> string -> option datetime.

(** What the callers of a logical call rely on. *)
Lemma make_request_shape method url kwargs w :
  let r := _make_request_with_retry session strptime method url kwargs w in
  ((exists resp, res r = Ok resp)
   \/ (exists msg, res r = Raise (ConnectionError msg))
   \/ res r = Raise OverflowError)
  /\ (1 <= count_requests (trace r) <= 3)%nat
  /\ requests_of (trace r)
     = repeat (mk_request method url kwargs) (count_requests (trace r)).
Proof.
  cbv zeta. split; [apply make_request_result|]. split; [split|].
  - apply (attempts_loop_last_answer session strptime method url kwargs
             2 0 None w eq_refl).
  - apply (attempts_loop_final session strptime method url kwargs
             (seq 0 max_retries) None w).
  - apply attempts_loop_same_request.
Qed.

(** X2: whatever the response and its headers, [_handle_rate_limit]
    returns normally or raises [OverflowError], and sends nothing; the
    clock moves by the time it slept, which is never negative and never
    more than [time.sleep] takes; when it raises it has not slept; and a
    response that is not a 429 costs no time and no output. *)
Theorem rate_limit_backoff_outcome (resp : response) (w : world) :
  let h := _handle_rate_limit strptime resp w in
  (res h = Ok tt \/ res h = Raise OverflowError)
  /\ count_requests (trace h) = 0%nat
  /\ final h = after_sleep (time_slept (trace h)) w
  /\ 0 <= time_slept (trace h) <= sleep_max
  /\ (res h = Raise OverflowError -> time_slept (trace h) = 0)
  /\ (status_code resp <> 429 -> res h = Ok tt /\ trace h = []).
Proof.
  cbv zeta.
  destruct (handle_rate_limit_outcome strptime resp w) as (Hres & Hc & Hf).
  cbv zeta in Hres, Hc, Hf.
  split; [exact Hres|]. split; [exact Hc|]. split; [exact Hf|].
  clear Hres Hc Hf. split; [|split].
  - unfold _handle_rate_limit, parse_http_date, int, format_f,
      datetime_diff, replace_tzinfo, timezone_utc.
    run_cbv.
    repeat (break_inner; run_cbv); cbn [time_slept];
      repeat match goal with
             | H : (_ >? 0) = true |- _ => apply Z.gtb_lt in H
             | H : (_ <? _) = false |- _ => apply Z.ltb_ge in H
             end;
      unfold sleep_max, seconds in *; lia.
  - unfold _handle_rate_limit, parse_http_date, int, format_f,
      datetime_diff, replace_tzinfo, timezone_utc.
    run_cbv.
    repeat (break_inner; run_cbv); cbn [time_slept];
      intros H; first [reflexivity | discriminate H].
  - intros Hstatus. unfold _handle_rate_limit.
    apply Z.eqb_neq in Hstatus. rewrite Hstatus. split; reflexivity.
Qed.

(** X3: [disable_deletion_protection] answers a boolean unless a backoff
    of its logical call raises [OverflowError], which it lets through;
    the boolean is [True] exactly when the call ends on a response that
    is not an error; all it ever sends is the PUT that clears
    [delete_protected], at most three times. *)
Theorem disable_deletion_protection_answer dataset_slug w :
  let r := _make_request_with_retry session strptime PUT
             (dataset_url dataset_slug) (Some disable_payload) w in
  let u := disable_deletion_protection session strptime dataset_slug w in
  (res r <> Raise OverflowError ->
   exists b,
     res u = Ok b
     /\ (b = true
         <-> exists resp, res r = Ok resp /\ is_error_status resp = false))
  /\ (res r = Raise OverflowError ->
      res u = Raise OverflowError /\ trace u = trace r)
  /\ (1 <= count_requests (trace u) <= 3)%nat
  /\ requests_of (trace u)
     = repeat (put_request dataset_slug) (count_requests (trace u))
  /\ final u = final r.
Proof.
  cbv zeta.
  pose proof (make_request_shape PUT (dataset_url dataset_slug)
                (Some disable_payload) w) as (Hr & Hc & Hq).
  cbv zeta in Hr, Hc, Hq. revert Hr Hc Hq.
  unfold disable_deletion_protection, raise_for_status, put_request.
  fold (dataset_url dataset_slug). run_cbv.
  destruct (_make_request_with_retry session strptime PUT
              (dataset_url dataset_slug) (Some disable_payload) w)
    as [[resp | e] t f]; cbn [res trace final]; intros Hr Hc Hq.
  - fold (is_error_status resp).
    destruct (is_error_status resp) eqn:Herr; run_cbv;
      rewrite ?app_nil_r.
    + destruct (count_requests_print t
                  [EvPrint (MsgDisableStatus (status_code resp)
                                             dataset_slug)] eq_refl)
        as (-> & ->).
      split; [|split; [discriminate|repeat split; try assumption; lia]].
      intros _. exists false. split; [reflexivity|]. split; [discriminate|].
      intros (resp' & [= <-] & H). congruence.
    + split; [|split; [discriminate|repeat split; try assumption; lia]].
      intros _. exists true. split; [reflexivity|]. split; [|reflexivity].
      intros _. exists resp. split; [reflexivity|exact Herr].
  - destruct Hr as [(resp & Hr) | [(msg & Hr) | Hr]]; [discriminate Hr| |];
      injection Hr as ->; run_cbv; rewrite ?app_nil_r.
    + destruct (count_requests_print t
                  [EvPrint (MsgDisableError dataset_slug
                              (ConnectionError msg))] eq_refl)
        as (-> & ->).
      split; [|split; [discriminate|repeat split; try assumption; lia]].
      intros _. exists false. split; [reflexivity|]. split; [discriminate|].
      intros (resp' & [=] & _).
    + split; [intros H; contradiction|].
      split; [intros _; split; reflexivity|].
      repeat split; try assumption; lia.
Qed.

End AnswerFacts.

Section RequestFacts.
Variable session : nat -> request -> reply.
Variable strptime : string -> string -> option datetime.

(** [_is_deletion_protected] only reads the response. *)
Lemma is_deletion_protected_silent (resp : response) (w : world) :
  exists o, _is_deletion_protected resp w = mk_run o [] w.
Proof.
  unfold _is_deletion_protected, response_json.
  destruct (negb (text resp =? EmptyString)%string
            && contains "delete protected" (lower (text resp)));
    [eexists; reflexivity|].
  run_cbv.
  destruct (json_body resp) as [[| b | n | s | l | d]|]; run_cbv;
    try (eexists; reflexivity).
  - destruct (contains "error" s); run_cbv; eexists; reflexivity.
  - destruct (existsb (is_str "error") l); run_cbv; eexists; reflexivity.
  - destruct (dict_get d "error") as [[| b | n | s | l | d']|]; run_cbv;
      eexists; reflexivity.
Qed.

(** [print_error_field] prints at most one line and sends nothing. *)
Lemma print_error_field_quiet (resp : response) (w : world) :
  exists o t,
    print_error_field resp w = mk_run o t w
    /\ count_requests t = 0%nat.
Proof.
  unfold print_error_field, response_json. run_cbv.
  destruct (json_body resp) as [[| b | n | s | l | d]|]; run_cbv;
    try (do 2 eexists; split; reflexivity).
  - destruct (contains "error" s); run_cbv;
      do 2 eexists; split; reflexivity.
  - destruct (existsb (is_str "error") l); run_cbv;
      do 2 eexists; split; reflexivity.
  - destruct (dict_get d "error"); run_cbv;
      do 2 eexists; split; reflexivity.
Qed.

(** The requests of [disable_deletion_protection]. *)
Lemma disable_deletion_protection_requests dataset_slug w :
  let u := disable_deletion_protection session strptime dataset_slug w in
  ((exists b, res u = Ok b) \/ res u = Raise OverflowError)
  /\ (1 <= count_requests (trace u) <= 3)%nat
  /\ requests_of (trace u)
     = repeat (put_request dataset_slug) (count_requests (trace u)).
Proof.
  cbv zeta.
  pose proof (make_request_shape session strptime PUT
                (dataset_url dataset_slug)
                (Some disable_payload) w) as (Hr & Hc & Hq).
  cbv zeta in Hr, Hc, Hq. revert Hr Hc Hq.
  unfold disable_deletion_protection, raise_for_status, put_request.
  fold (dataset_url dataset_slug). run_cbv.
  destruct (_make_request_with_retry session strptime PUT
              (dataset_url dataset_slug) (Some disable_payload) w)
    as [[resp | e] t f]; cbn [res trace final]; intros Hr Hc Hq.
  - destruct ((400 <=? status_code resp) && (status_code resp <? 600));
      run_cbv; rewrite ?app_nil_r.
    + destruct (count_requests_print t
                  [EvPrint (MsgDisableStatus (status_code resp)
                                             dataset_slug)] eq_refl)
        as (-> & ->).
      split; [eauto|]. split; assumption.
    + split; [eauto|]. split; assumption.
  - destruct Hr as [(resp & Hr) | [(msg & Hr) | Hr]]; [discriminate Hr| |];
      injection Hr as ->; run_cbv; rewrite ?app_nil_r.
    + destruct (count_requests_print t
                  [EvPrint (MsgDisableError dataset_slug
                              (ConnectionError msg))] eq_refl)
        as (-> & ->).
      split; [eauto|]. split; assumption.
    + split; [eauto|]. split; assumption.
Qed.



(** X7: the requests of [delete_dataset], whatever the answers.  The
    DELETE goes out one to three times; only then, and only with
    [disable_protection], the PUT that lifts the protection, up to three
    times; only after that the DELETE again, up to three times.  Nothing
    else is ever sent. *)
Theorem delete_dataset_requests dataset_slug disable_protection w :
  let r := delete_dataset session strptime dataset_slug
                          disable_protection w in
  exists a b c : nat,
    requests_of (trace r)
    = repeat (delete_request dataset_slug) a
      ++ repeat (put_request dataset_slug) b
      ++ repeat (delete_request dataset_slug) c
    /\ (1 <= a <= 3)%nat /\ (b <= 3)%nat /\ (c <= 3)%nat
    /\ (disable_protection = false -> b = 0%nat /\ c = 0%nat)
    /\ (b = 0%nat -> c = 0%nat).
Proof.
  cbv zeta.
  pose proof (make_request_shape session strptime DELETE
                (dataset_url dataset_slug) None w) as (Hr & Hc & Hq).
  cbv zeta in Hr, Hc, Hq. revert Hr Hc Hq.
  unfold delete_dataset, _handle_delete_error,
    _retry_delete_after_unprotect, _print_delete_error, delete_request,
    raise_for_status.
  fold (dataset_url dataset_slug). run_cbv.
  destruct (_make_request_with_retry session strptime DELETE
              (dataset_url dataset_slug) None w) as [[resp | e] t f];
    cbn [res trace final]; intros Hr Hc Hq.
  - destruct ((400 <=? status_code resp) && (status_code resp <? 600));
      run_cbv; rewrite ?app_nil_r;
      [|exists (count_requests t), 0%nat, 0%nat; cbn [repeat app];
        rewrite app_nil_r; repeat split; try assumption; lia].
    assert (Hplain :
              forall tail : list event,
                count_requests tail = 0%nat ->
                exists a b c : nat,
                  requests_of (t ++ tail)
                  = repeat (mk_request DELETE (dataset_url dataset_slug)
                                       None) a
                    ++ repeat (put_request dataset_slug) b
                    ++ repeat (mk_request DELETE (dataset_url dataset_slug)
                                          None) c
                  /\ (1 <= a <= 3)%nat /\ (b <= 3)%nat /\ (c <= 3)%nat
                  /\ (disable_protection = false -> b = 0%nat /\ c = 0%nat)
                  /\ (b = 0%nat -> c = 0%nat)).
    { intros tail Htail.
      destruct (count_requests_print t tail Htail) as (_ & ->).
      exists (count_requests t), 0%nat, 0%nat. cbn [repeat app].
      rewrite app_nil_r. repeat split; try assumption; lia. }
    destruct (print_error_field_quiet resp f) as (op & tp & Hp & Hpc).
    destruct ((status_code resp =? 409) && disable_protection) eqn:Hgate.
    + destruct (is_deletion_protected_silent resp f) as (o & ->).
      destruct o as [[|] | e]; run_cbv.
      * apply andb_prop in Hgate as (_ & ->).
        pose proof (disable_deletion_protection_requests dataset_slug f)
          as (_ & Hbc & Hbq). cbv zeta in Hbc, Hbq.
        destruct (disable_deletion_protection session strptime
                    dataset_slug f) as [[b | eu] tu fu];
          cbn [res trace final] in *;
          [|run_cbv;
            exists (count_requests t), (count_requests tu), 0%nat;
            repeat (rewrite ?requests_of_app; cbn [requests_of app]);
            cbn [repeat]; rewrite ?app_nil_r, Hq, Hbq;
            repeat split; try assumption; try lia; discriminate].
        destruct b; run_cbv.
        -- pose proof (make_request_shape session strptime DELETE
                         (dataset_url dataset_slug) None fu)
             as (Hr2 & Hc2 & Hq2).
           cbv zeta in Hr2, Hc2, Hq2.
           destruct (_make_request_with_retry session strptime DELETE
                       (dataset_url dataset_slug) None fu)
             as [[resp2 | e2] t2 f2]; cbn [res trace final] in *.
           ++ exists (count_requests t), (count_requests tu),
                (count_requests t2).
              destruct ((400 <=? status_code resp2)
                        && (status_code resp2 <? 600)); run_cbv;
                rewrite ?app_nil_r;
                repeat (rewrite ?requests_of_app; cbn [requests_of app]);
                rewrite ?app_nil_r, Hq, Hbq, Hq2;
                repeat split; try assumption; try lia; discriminate.
           ++ destruct Hr2 as [(resp2 & Hr2) | [(msg & Hr2) | Hr2]];
                [discriminate Hr2| |];
                injection Hr2 as ->; run_cbv;
                exists (count_requests t), (count_requests tu),
                  (count_requests t2);
                repeat (rewrite ?requests_of_app; cbn [requests_of app]);
                rewrite ?app_nil_r, Hq, Hbq, Hq2;
                repeat split; try assumption; try lia; discriminate.
        -- exists (count_requests t), (count_requests tu), 0%nat.
           repeat (rewrite ?requests_of_app; cbn [requests_of app]);
             cbn [repeat]; rewrite ?app_nil_r, Hq, Hbq;
             repeat split; try assumption; try lia; discriminate.
      * rewrite Hp. destruct op; run_cbv; rewrite ?app_nil_r;
          apply Hplain; rewrite ?count_requests_app;
          cbn [app]; rewrite ?count_requests_app;
          change (count_requests (EvPrint ?m :: ?x))
            with (count_requests x);
          rewrite ?count_requests_app, ?Hpc; reflexivity.
      * apply Hplain. reflexivity.
    + run_cbv. rewrite Hp. destruct op; run_cbv; rewrite ?app_nil_r;
        apply Hplain; rewrite ?count_requests_app;
        cbn [app]; rewrite ?count_requests_app;
        change (count_requests (EvPrint ?m :: ?x))
          with (count_requests x);
        rewrite ?count_requests_app, ?Hpc; reflexivity.
  - destruct Hr as [(resp & Hr) | [(msg & Hr) | Hr]]; [discriminate Hr| |];
      injection Hr as ->; run_cbv.
    + destruct (count_requests_print t
                  [EvPrint (MsgDeleteError dataset_slug
                              (ConnectionError msg))] eq_refl) as (_ & ->).
      exists (count_requests t), 0%nat, 0%nat. cbn [repeat app].
      rewrite app_nil_r. repeat split; try assumption; lia.
    + exists (count_requests t), 0%nat, 0%nat. cbn [repeat app].
      rewrite app_nil_r. repeat split; try assumption; lia.
Qed.
End RequestFacts.

Section DeleteDatasetFacts.
Variable session : nat -> request -> reply.
Variable strptime : string -> string -> option datetime.

(** X8: the plain ends of [delete_dataset], whatever the flag.  An
    answer that is not an error gives [True] and nothing is printed; a
    failure of the transport gives [False] after one line, and nothing
    more is sent; the [OverflowError] of a backoff is let through. *)
Theorem delete_dataset_direct_outcomes dataset_slug disable_protection w :
  let r1 := _make_request_with_retry session strptime DELETE
              (dataset_url dataset_slug) None w in
  let r := delete_dataset session strptime dataset_slug
                          disable_protection w in
  (forall resp,
      res r1 = Ok resp -> is_error_status resp = false ->
      r = mk_run (Ok true) (trace r1) (final r1))
  /\ (forall msg,
        res r1 = Raise (ConnectionError msg) ->
        r = mk_run (Ok false)
                   (trace r1
                    ++ [EvPrint (MsgDeleteError dataset_slug
                                   (ConnectionError msg))])
                   (final r1))
  /\ (res r1 = Raise OverflowError ->
      r = mk_run (Raise OverflowError) (trace r1) (final r1)).
Proof.
  cbv zeta.
  pose proof (make_request_result session strptime DELETE
                (dataset_url dataset_slug) None w) as Hr.
  cbv zeta in Hr. revert Hr.
  unfold delete_dataset, _handle_delete_error, raise_for_status.
  fold (dataset_url dataset_slug). run_cbv.
  destruct (_make_request_with_retry session strptime DELETE
              (dataset_url dataset_slug) None w) as [[resp | e] t f];
    cbn [res trace final]; intros Hr.
  - split; [|split; discriminate]. intros resp' [= <-] Herr.
    unfold is_error_status in Herr. rewrite Herr. run_cbv.
    rewrite app_nil_r. reflexivity.
  - destruct Hr as [(resp & Hr) | [(msg & Hr) | Hr]]; [discriminate Hr| |];
      injection Hr as ->; run_cbv; (split; [discriminate|]).
    + split; [intros msg' [= <-]; reflexivity|discriminate].
    + split; [discriminate|]. intros _. reflexivity.
Qed.
End DeleteDatasetFacts.

(** ** More of main.py *)

Section VerdictFacts.
Variable fromisoformat : string -> option datetime.

Lemma is_column_inactive_verdict (column : dict) (days : Z) :
  is_column_inactive fromisoformat column days
  = verdict fromisoformat (dict_get_default column "last_written" JNull)
            days
            (MsgWarnColumn (dict_get_default column "key_name"
                                             (JStr "unknown"))).
Proof. reflexivity. Qed.

Lemma is_dataset_inactive_verdict (dataset : dict) (days : Z) :
  is_dataset_inactive fromisoformat dataset days
  = verdict fromisoformat (dict_get_default dataset "last_written_at" JNull)
            days
            (MsgWarnDataset (dict_get_default dataset "name"
                                              (JStr "unknown"))).
Proof. reflexivity. Qed.

Lemma verdict_reads_only (v : json) (days : Z) (warning : message)
  (w : world) :
  final (verdict fromisoformat v days warning w) = w
  /\ (trace (verdict fromisoformat v days warning w) = []
      \/ (trace (verdict fromisoformat v days warning w)
          = [EvPrint warning]
          /\ res (verdict fromisoformat v days warning w) = Ok true)).
Proof.
  unfold verdict, parse_iso, timedelta_days, datetime_minus, datetime_lt.
  destruct (negb (truthy v)); [split; [reflexivity|left; reflexivity]|].
  run_cbv.
  repeat (break_inner; run_cbv);
    (split; [reflexivity|]);
    solve [left; reflexivity | right; split; reflexivity].
Qed.

Lemma verdict_same_answer (v : json) (days : Z) (m1 m2 : message)
  (w : world) :
  res (verdict fromisoformat v days m1 w)
  = res (verdict fromisoformat v days m2 w).
Proof.
  unfold verdict, parse_iso, timedelta_days, datetime_minus, datetime_lt.
  destruct (negb (truthy v)); [reflexivity|].
  run_cbv.
  repeat (break_inner; run_cbv); reflexivity.
Qed.

Lemma verdict_shorter_window (v : json) (days days' : Z)
  (warning : message) (w : world) :
  days' <= days ->
  res (verdict fromisoformat v days warning w) = Ok true ->
  forall b,
    res (verdict fromisoformat v days' warning w) = Ok b -> b = true.
Proof.
  intros Hle.
  unfold verdict, parse_iso, timedelta_days, datetime_minus, datetime_lt.
  destruct (negb (truthy v)); [intros _ b [= <-]; reflexivity|].
  run_cbv.
  destruct v as [| bv | n | s | l | d]; run_cbv; try discriminate.
  destruct (fromisoformat _) as [[wt tz]|]; run_cbv;
    [|intros _ b [= <-]; reflexivity].
  destruct (Z.abs days <=? 999999999); run_cbv; [|discriminate].
  destruct (Z.abs days' <=? 999999999); run_cbv; [|discriminate].
  unfold microseconds_per_day.
  destruct tz as [o|]; cbn [wall tzinfo].
  - destruct ((0 <=? clock w + o - days * 86400000000) && _); run_cbv;
      [|discriminate].
    destruct ((0 <=? clock w + o - days' * 86400000000) && _); run_cbv;
      [|discriminate].
    intros [= H] b [= <-]. apply Z.ltb_lt in H. apply Z.ltb_lt. lia.
  - destruct ((0 <=? clock w + local_utcoffset w - days * 86400000000)
              && _); run_cbv; [|discriminate].
    destruct ((0 <=? clock w + local_utcoffset w - days' * 86400000000)
              && _); run_cbv; [|discriminate].
    intros [= H] b [= <-]. apply Z.ltb_lt in H. apply Z.ltb_lt. lia.
Qed.

(** X9: the classifiers only read.  Neither changes the clock or sends
    anything; each prints nothing, or its one warning and then answers
    inactive; and on the same timestamp the two give the same answer. *)
Theorem classifiers_only_read (column dataset : dict) (days : Z)
  (w : world) :
  let c := is_column_inactive fromisoformat column days w in
  let d := is_dataset_inactive fromisoformat dataset days w in
  final c = w /\ final d = w
  /\ (trace c = []
      \/ (trace c = [EvPrint (MsgWarnColumn
                                (dict_get_default column "key_name"
                                                  (JStr "unknown")))]
          /\ res c = Ok true))
  /\ (trace d = []
      \/ (trace d = [EvPrint (MsgWarnDataset
                                (dict_get_default dataset "name"
                                                  (JStr "unknown")))]
          /\ res d = Ok true))
  /\ (dict_get column "last_written" = dict_get dataset "last_written_at"
      -> res c = res d).
Proof.
  cbv zeta.
  rewrite is_column_inactive_verdict, is_dataset_inactive_verdict.
  split; [apply verdict_reads_only|]. split; [apply verdict_reads_only|].
  split; [apply verdict_reads_only|]. split; [apply verdict_reads_only|].
  intros Hsame. unfold dict_get_default. rewrite Hsame.
  apply verdict_same_answer.
Qed.

(** X10: a record found inactive over a window is found inactive over
    every shorter window, whenever the classifier answers there. *)
Theorem shorter_window_keeps_inactive (record : dict) (days days' : Z)
  (w : world) :
  days' <= days ->
  (res (is_column_inactive fromisoformat record days w) = Ok true ->
   forall b,
     res (is_column_inactive fromisoformat record days' w) = Ok b ->
     b = true)
  /\ (res (is_dataset_inactive fromisoformat record days w) = Ok true ->
      forall b,
        res (is_dataset_inactive fromisoformat record days' w) = Ok b ->
        b = true).
Proof.
  intros Hle.
  rewrite !is_column_inactive_verdict, !is_dataset_inactive_verdict.
  split; apply verdict_shorter_window; exact Hle.
Qed.

End VerdictFacts.

Section DateFacts.
Variable fromisoformat : string -> option datetime.
Variable strftime : datetime -> string -> string.

(** X12: what [format_date] shows.  Nothing, [null], the empty text and
    the text [null] show as Never; any other text shows as the day it
    parses to, or as Unknown when it does not parse; any other value
    that is true in Python's sense raises [AttributeError]. *)
Theorem format_date_outcomes (date_str : json) (w : world) :
  (truthy date_str = false \/ date_str = JStr "null" ->
   format_date fromisoformat strftime date_str w
   = mk_run (Ok "Never") [] w)
  /\ (forall s,
        date_str = JStr s -> s <> EmptyString -> s <> "null" ->
        format_date fromisoformat strftime date_str w
        = mk_run (Ok match fromisoformat (iso_text s) with
                     | Some dt => strftime dt "%Y-%m-%d"
                     | None => "Unknown"
                     end) [] w)
  /\ (truthy date_str = true ->
      (forall s, date_str <> JStr s) ->
      format_date fromisoformat strftime date_str w
      = mk_run (Raise AttributeError) [] w).
Proof.
  unfold format_date, parse_iso, iso_text. split; [|split].
  - intros [-> | ->]; reflexivity.
  - intros s -> Hs Hnull. rewrite (text_is_truthy s Hs).
    cbn [negb orb is_str].
    apply String.eqb_neq in Hnull. rewrite Hnull. run_cbv.
    destruct (fromisoformat _); reflexivity.
  - intros -> Htext.
    destruct date_str as [| b | n | s | l | d]; try reflexivity.
    exfalso. apply (Htext s). reflexivity.
Qed.

(** X13: what is shown and what is decided agree.  A dataset whose last
    activity shows as Never or Unknown, and a column whose last write
    does, is classified inactive, for every window. *)
Theorem never_or_unknown_is_inactive (record : dict) (days : Z)
  (w : world) :
  fromisoformat "null" = None ->
  (forall dt, strftime dt "%Y-%m-%d" <> "Never"
              /\ strftime dt "%Y-%m-%d" <> "Unknown") ->
  (forall shown,
      res (format_date fromisoformat strftime
             (dict_get_default record "last_written_at"
                               (JStr EmptyString)) w) = Ok shown ->
      shown = "Never" \/ shown = "Unknown" ->
      res (is_dataset_inactive fromisoformat record days w) = Ok true)
  /\ (forall shown,
        res (format_date fromisoformat strftime
               (dict_get_default record "last_written" JNull) w)
        = Ok shown ->
        shown = "Never" \/ shown = "Unknown" ->
        res (is_column_inactive fromisoformat record days w) = Ok true).
Proof.
  intros Hnull Hday.
  assert (Hcore :
            forall v shown warning,
              res (format_date fromisoformat strftime v w) = Ok shown ->
              shown = "Never" \/ shown = "Unknown" ->
              res (verdict fromisoformat v days warning w) = Ok true).
  { intros v shown warning.
    unfold format_date, verdict, parse_iso.
    destruct (negb (truthy v)) eqn:Htruthy; [reflexivity|].
    cbn [orb].
    destruct v as [| b | n | s | l | d]; cbn [is_str]; run_cbv;
      try discriminate.
    destruct (String.eqb_spec s "null") as [-> | Hs].
    - intros _ _.
      change (replace_char "Z" "+00:00" "null") with "null".
      rewrite Hnull. reflexivity.
    - run_cbv.
      destruct (fromisoformat (replace_char "Z" "+00:00" s)) as [dt|];
        run_cbv; [|reflexivity].
      destruct (Hday dt) as (Hn & Hu).
      intros [= <-] [H | H]; contradiction. }
  split; intros shown Hshown Hkind.
  - rewrite is_dataset_inactive_verdict. unfold dict_get_default in *.
    destruct (dict_get record "last_written_at") as [v|].
    + exact (Hcore v shown _ Hshown Hkind).
    + reflexivity.
  - rewrite is_column_inactive_verdict.
    exact (Hcore _ shown _ Hshown Hkind).
Qed.
End DateFacts.

Section CategoryFacts.
Variable fromisoformat : string -> option datetime.

Lemma is_dataset_inactive_reads_only (dataset : dict) (days : Z)
  (w : world) :
  exists o t,
    is_dataset_inactive fromisoformat dataset days w = mk_run o t w
    /\ count_requests t = 0%nat.
Proof.
  rewrite is_dataset_inactive_verdict.
  destruct (verdict_reads_only fromisoformat
              (dict_get_default dataset "last_written_at" JNull) days
              (MsgWarnDataset (dict_get_default dataset "name"
                                                (JStr "unknown"))) w)
    as (Hf & Ht).
  destruct (verdict _ _ _ _ _) as [o t f]; cbn [res trace final] in *.
  subst f. exists o, t. split; [reflexivity|].
  destruct Ht as [-> | (-> & _)]; reflexivity.
Qed.

Lemma categorize_loop_spec (name : option (list string)) (days : Z)
  (w : world) :
  forall items a i f,
    let r := categorize_loop fromisoformat name days items a i f w in
    let inactive := inactive_at fromisoformat w days in
    final r = w
    /\ count_requests (trace r) = 0%nat
    /\ (forall a' i' f',
          res r = Ok (a', i', f') ->
          a' = a ++ filter (fun d => considered name d && negb (inactive d))
                           items
          /\ i' = i ++ filter (fun d => considered name d && inactive d)
                              items
          /\ f' = f ++ filter (fun d => negb (considered name d)) items)
    /\ (forallb (placeable fromisoformat w days name) items = true ->
        exists a' i' f', res r = Ok (a', i', f')).
Proof.
  induction items as [|dataset rest IH]; intros a i f; cbv zeta.
  - cbn [categorize_loop filter forallb]. run_cbv.
    rewrite !app_nil_r.
    split; [reflexivity|]. split; [reflexivity|].
    split; [intros a' i' f' [= <- <- <-]; repeat split|eauto].
  - cbn [categorize_loop filter forallb].
    destruct dataset as [| b | n | s | l | d]; run_cbv;
      try (split; [reflexivity|]; split; [reflexivity|];
           split; [discriminate|discriminate]).
    assert (Hcons :
              considered name (JObj d)
              = negb (names_given name
                      && negb (py_in_list
                                 (dict_get_default d "name"
                                                   (JStr EmptyString))
                                 (names_of name)))) by reflexivity.
    change (placeable fromisoformat w days name (JObj d))
      with (negb (considered name (JObj d))
            || match res (is_dataset_inactive fromisoformat d days w) with
               | Ok _ => true
               | Raise _ => false
               end).
    fold (dict_get_default d "name" (JStr EmptyString)).
    destruct (names_given name
              && negb (py_in_list
                         (dict_get_default d "name" (JStr EmptyString))
                         (names_of name))) eqn:Hdrop;
      cbn [negb] in Hcons; rewrite !Hcons; cbn [negb andb orb].
    + specialize (IH a i (f ++ [JObj d])). cbv zeta in IH.
      destruct (categorize_loop _ _ _ _ _ _ _ _) as [o t fw];
        cbn [res trace final] in *.
      destruct IH as (Hf & Hc & Hok & Htotal).
      split; [exact Hf|]. split; [exact Hc|].
      split; [|exact Htotal].
      intros a' i' f' Hres. destruct (Hok a' i' f' Hres) as (-> & -> & ->).
      rewrite <- app_assoc. repeat split.
    + pose proof (eq_refl :
                    inactive_at fromisoformat w days (JObj d)
                    = match res (is_dataset_inactive fromisoformat d days
                                                     w) with
                      | Ok b => b
                      | Raise _ => false
                      end) as Hin.
      unfold on_dict.
      destruct (is_dataset_inactive_reads_only d days w)
        as (o & t & Hrun & Hc0).
      rewrite Hrun in *. cbn [res] in Hin. cbn [res].
      destruct o as [[|] | e]; run_cbv; rewrite ?Hin;
        cbn [negb andb orb].
      * specialize (IH a (i ++ [JObj d]) f). cbv zeta in IH.
        destruct (categorize_loop _ _ _ _ _ _ _ _) as [o' t' fw];
          cbn [res trace final] in *.
        destruct IH as (Hf & Hc & Hok & Htotal).
        split; [exact Hf|].
        split; [rewrite count_requests_app, Hc0, Hc; reflexivity|].
        split; [|exact Htotal].
        intros a' i' f' Hres.
        destruct (Hok a' i' f' Hres) as (-> & -> & ->).
        rewrite <- app_assoc. repeat split.
      * specialize (IH (a ++ [JObj d]) i f). cbv zeta in IH.
        destruct (categorize_loop _ _ _ _ _ _ _ _) as [o' t' fw];
          cbn [res trace final] in *.
        destruct IH as (Hf & Hc & Hok & Htotal).
        split; [exact Hf|].
        split; [rewrite count_requests_app, Hc0, Hc; reflexivity|].
        split; [|exact Htotal].
        intros a' i' f' Hres.
        destruct (Hok a' i' f' Hres) as (-> & -> & ->).
        rewrite <- app_assoc. repeat split.
      * split; [reflexivity|]. split; [exact Hc0|].
        split; discriminate.
Qed.

(** X14: [categorize_datasets] sorts a list of datasets into three
    lists that keep its order.  The datasets the name filter drops are
    filtered out; of the others, those the classifier finds inactive are
    inactive, the rest active.  It answers whenever every dataset is a
    dict that the filter drops or the classifier answers for, and it
    sends nothing and leaves the clock alone. *)
Theorem categorize_datasets_partition (items : list json)
  (name : option (list string)) (days : Z) (w : world) :
  let r := categorize_datasets fromisoformat (JArr items) name days w in
  let inactive := inactive_at fromisoformat w days in
  final r = w
  /\ count_requests (trace r) = 0%nat
  /\ (forall a i f,
        res r = Ok (a, i, f) ->
        a = filter (fun d => considered name d && negb (inactive d)) items
        /\ i = filter (fun d => considered name d && inactive d) items
        /\ f = filter (fun d => negb (considered name d)) items)
  /\ (forallb (placeable fromisoformat w days name) items = true ->
      exists a i f, res r = Ok (a, i, f)).
Proof.
  cbv zeta. unfold categorize_datasets. run_cbv. cbn [py_iter].
  pose proof (categorize_loop_spec name days w items [] [] []) as H.
  cbv zeta in H.
  destruct (categorize_loop _ _ _ _ _ _ _ _) as [o t fw];
    cbn [res trace final app] in *.
  exact H.
Qed.
End CategoryFacts.

(** ** The client of main.py *)

Section MainClientFacts.
Variable session : nat -> request -> reply.

Lemma session_request_run method url kwargs w :
  exists o,
    session_request session method url kwargs w
    = mk_run o [EvRequest (mk_request method url kwargs)] (after_request w)
    /\ match session (sent w) (mk_request method url kwargs) with
       | Resp r => o = Ok r
       | Fail msg => o = Raise (ConnectionError msg)
       end.
Proof.
  unfold session_request.
  destruct (session (sent w) _); eexists; split; reflexivity.
Qed.

(** The one request of [delete_column], whatever comes back. *)
Lemma main_delete_column_request dataset_slug column_id w :
  requests_of (trace (Main.delete_column session dataset_slug column_id w))
  = [mk_request DELETE (column_url dataset_slug column_id) None].
Proof.
  unfold Main.delete_column, hasattr_response, response_json,
    raise_for_status.
  fold (column_url dataset_slug column_id). run_cbv.
  destruct (session_request_run DELETE (column_url dataset_slug column_id)
              None w) as ([resp | e] & -> & Hr);
    try (destruct (session (sent w) _); [discriminate Hr|];
         injection Hr as ->);
    run_cbv;
    repeat (break_inner; run_cbv); reflexivity.
Qed.

(** X15: the class of main.py does not retry.  Each of its operations
    sends its request exactly once, whatever comes back, a 429
    included. *)
Theorem main_client_sends_once dataset_slug column_id w :
  requests_of (trace (Main.get_environment_info session w))
  = [mk_request GET auth_url None]
  /\ requests_of (trace (Main.get_columns session dataset_slug w))
     = [mk_request GET (columns_url dataset_slug) None]
  /\ requests_of (trace (Main.delete_column session dataset_slug
                                            column_id w))
     = [mk_request DELETE (column_url dataset_slug column_id) None]
  /\ requests_of (trace (Main.get_datasets session w))
     = [mk_request GET datasets_url None]
  /\ requests_of (trace (Main.disable_deletion_protection session
                                                          dataset_slug w))
     = [put_request dataset_slug].
Proof.
  unfold Main.get_environment_info, Main.get_columns, Main.delete_column,
    Main.get_datasets, Main.disable_deletion_protection, hasattr_response,
    response_json, raise_for_status, put_request.
  fold auth_url. fold (columns_url dataset_slug).
  fold (column_url dataset_slug column_id). fold datasets_url.
  fold (dataset_url dataset_slug).
  repeat split; run_cbv;
    match goal with
    | |- context [session_request session ?m ?u ?k w] =>
        destruct (session_request_run m u k w) as ([resp | e] & -> & Hr)
    end;
    try (destruct (session (sent w) _); [discriminate Hr|];
         injection Hr as ->);
    run_cbv;
    repeat (break_inner; run_cbv); reflexivity.
Qed.

(** X16: [delete_column] of main.py.  An answer that is not an error
    gives [True]; an error status gives [False] whatever its body, for
    the inner [except] catches everything; a failure of the transport
    raises [AttributeError], for [hasattr(e, 'response')] holds when
    [e.response] is [None]. *)
Theorem main_delete_column_outcomes dataset_slug column_id w :
  let req := mk_request DELETE (column_url dataset_slug column_id) None in
  let d := Main.delete_column session dataset_slug column_id w in
  (forall resp,
      session (sent w) req = Resp resp ->
      res d = Ok (negb (is_error_status resp)))
  /\ (forall msg,
        session (sent w) req = Fail msg ->
        res d = Raise AttributeError
        /\ trace d = [EvRequest req])
  /\ final d = after_request w.
Proof.
  cbv zeta.
  unfold Main.delete_column, hasattr_response, response_json,
    raise_for_status.
  fold (column_url dataset_slug column_id). run_cbv.
  destruct (session_request_run DELETE
              (column_url dataset_slug column_id) None w)
    as (o & -> & Hr).
  destruct (session (sent w) _) as [resp | msg]; subst o; run_cbv.
  - fold (is_error_status resp).
    destruct (is_error_status resp) eqn:Herr; run_cbv.
    + repeat (break_inner; run_cbv);
        (split; [intros ? [= <-]; rewrite Herr; reflexivity|]);
        (split; [discriminate|reflexivity]).
    + split; [intros ? [= <-]; rewrite Herr; reflexivity|].
      split; [discriminate|reflexivity].
  - split; [discriminate|]. split; [|reflexivity].
    intros ? [= <-]. split; reflexivity.
Qed.
End MainClientFacts.

(** ** The command line *)

Ltac run_cli :=
  repeat
    (progress
       (cbv beta iota zeta delta
          [cli_bind cli_ret cli_raise say show console_print item];
        cbn [cli_res cli_out cli_final machine asked app map])).

Lemma output_requests_app (a b : list output) :
  output_requests (a ++ b) = output_requests a ++ output_requests b.
Proof.
  induction a as [|x a IH]; [reflexivity|].
  destruct x as [[q | d | m] | l | t | q]; cbn [app output_requests];
    rewrite IH; reflexivity.
Qed.

Lemma output_requests_client (t : list event) :
  output_requests (map OutClient t) = requests_of t.
Proof.
  induction t as [|e t IH]; [reflexivity|].
  destruct e; cbn [map output_requests requests_of]; rewrite IH;
    reflexivity.
Qed.

Lemma only_app P (a b : list output) :
  only P a -> only P b -> only P (a ++ b).
Proof.
  unfold only. intros Ha Hb.
  rewrite output_requests_app, forallb_app, Ha, Hb. reflexivity.
Qed.

Lemma cli_only_bind P {A B} (m : CLI A) (k : A -> CLI B) :
  cli_only P m -> (forall a, cli_only P (k a)) -> cli_only P (cli_bind m k).
Proof.
  intros Hm Hk cw. specialize (Hm cw). unfold cli_bind.
  destruct (m cw) as [[a | e] o cw1]; cbn [cli_out] in *; [|exact Hm].
  specialize (Hk a cw1). destruct (k a cw1) as [r o' cw2].
  cbn [cli_out] in *. apply only_app; assumption.
Qed.

Lemma cli_only_bind_ret P {A B} (a : A) (k : A -> CLI B) :
  cli_only P (k a) -> cli_only P (cli_bind (cli_ret a) k).
Proof.
  intros Hk cw. specialize (Hk cw). unfold cli_bind, cli_ret.
  destruct (k a cw) as [r o cw2]. exact Hk.
Qed.

Lemma cli_only_ret P {A} (a : A) : cli_only P (cli_ret a).
Proof. intros cw. reflexivity. Qed.

Lemma cli_only_raise P {A} (e : failure) : cli_only P (@cli_raise A e).
Proof. intros cw. reflexivity. Qed.

Lemma cli_only_say P (l : line) : cli_only P (say l).
Proof. intros cw. reflexivity. Qed.

Lemma cli_only_console_print P markup_error (o : output) :
  (forall e, o <> OutClient e) ->
  cli_only P (console_print markup_error o).
Proof.
  intros Ho cw. unfold console_print.
  destruct (markup_error o); [reflexivity|].
  destruct o as [e | l | t | q]; [contradiction (Ho e eq_refl)| | |];
    reflexivity.
Qed.

Lemma cli_only_show P markup_error (t : table) :
  cli_only P (show markup_error t).
Proof. apply cli_only_console_print. discriminate. Qed.

Lemma cli_only_item P {A} (field : option A) : cli_only P (item field).
Proof. intros cw. destruct field; reflexivity. Qed.

Lemma cli_only_add_row P rows row : cli_only P (add_row rows row).
Proof. intros cw. unfold add_row. destruct (cells row); reflexivity. Qed.

Lemma cli_only_call P {A} (m : M A) : m_only P m -> cli_only P (call m).
Proof.
  intros Hm cw. specialize (Hm (machine cw)). unfold call, only.
  destruct (m (machine cw)) as [[a | e] t w]; cbn [cli_out trace] in *;
    rewrite output_requests_client; exact Hm.
Qed.

Lemma m_only_ret P {A} (a : A) : m_only P (ret a).
Proof. intros w. reflexivity. Qed.

Lemma m_only_raise P {A} (e : exn) : m_only P (@raise A e).
Proof. intros w. reflexivity. Qed.

Lemma m_only_lift P {A} (r : result A) : m_only P (lift r).
Proof. intros w. reflexivity. Qed.

Lemma m_only_print P (m : message) : m_only P (print m).
Proof. intros w. reflexivity. Qed.

Lemma m_only_bind P {A B} (m : M A) (k : A -> M B) :
  m_only P m -> (forall a, m_only P (k a)) -> m_only P (bind m k).
Proof.
  intros Hm Hk w. specialize (Hm w). unfold bind.
  destruct (m w) as [[a | e] t w1]; cbn [trace] in *; [|exact Hm].
  specialize (Hk a w1). destruct (k a w1) as [r t' w2]. cbn [trace] in *.
  rewrite requests_of_app, forallb_app, Hm, Hk. reflexivity.
Qed.

Lemma m_only_try P {A} (body : M A) (handler : exn -> option (M A)) :
  m_only P body ->
  (forall e h, handler e = Some h -> m_only P h) ->
  m_only P (try_except body handler).
Proof.
  intros Hb Hh w. specialize (Hb w). unfold try_except.
  destruct (body w) as [[a | e] t w1]; cbn [trace] in *; [exact Hb|].
  destruct (handler e) as [h|] eqn:He; [|exact Hb].
  specialize (Hh e h He w1). destruct (h w1) as [r t' w2].
  cbn [trace] in *.
  rewrite requests_of_app, forallb_app, Hb, Hh. reflexivity.
Qed.

Lemma m_only_session_request P session method url kwargs :
  P (mk_request method url kwargs) = true ->
  m_only P (session_request session method url kwargs).
Proof.
  intros HP w. unfold session_request.
  destruct (session (sent w) _); cbn [trace requests_of forallb];
    rewrite HP; reflexivity.
Qed.

(** Computations put together from the pieces above. *)
Ltac only_step :=
  first
    [ apply m_only_ret | apply m_only_raise | apply m_only_lift
    | apply m_only_print
    | apply m_only_bind; [|intros ?]
    | apply m_only_try; [|intros ? ? ?]
    | apply cli_only_ret | apply cli_only_raise | apply cli_only_say
    | apply cli_only_show | apply cli_only_item | apply cli_only_add_row
    | apply cli_only_bind; [|intros ?]
    | apply cli_only_call
    | match goal with
      | H : (if ?b then _ else _) = Some _ |- _ =>
          destruct b; [|try discriminate H]
      | H : Some _ = Some _ |- _ => injection H as <-
      | H : None = Some _ |- _ => discriminate H
      | |- m_only _ (if ?b then _ else _) => destruct b
      | |- cli_only _ (if ?b then _ else _) => destruct b
      | |- m_only _ (match ?x with _ => _ end) => destruct x
      | |- cli_only _ (match ?x with _ => _ end) => destruct x
      end ].

Create HintDb only_db.

Ltac only_auto := repeat only_step; eauto with only_db.

Lemma strip_prefix_append (p s : string) :
  strip_prefix p (String.append p s) = Some s.
Proof.
  induction p as [|c p IH]; cbn [String.append strip_prefix];
    [destruct s; reflexivity|].
  rewrite Ascii.eqb_refl. exact IH.
Qed.

Lemma strip_prefix_some (p : string) :
  forall s rest, strip_prefix p s = Some rest -> s = String.append p rest.
Proof.
  induction p as [|c p IH]; intros s rest; cbn [strip_prefix String.append].
  - destruct s; intros [= <-]; reflexivity.
  - destruct s as [|b s]; [discriminate|].
    destruct (Ascii.eqb_spec c b) as [<- | _]; [|discriminate].
    intros H. rewrite (IH s rest H). reflexivity.
Qed.

Lemma contains_cons (sub : string) (c : ascii) (s : string) :
  contains sub (String c s)
  = String.prefix sub (String c s) || contains sub s.
Proof. reflexivity. Qed.

Lemma contains_slash (a b : string) :
  contains "/" (String.append a (String.append "/" b)) = true.
Proof.
  induction a as [|c a IH]; cbn [String.append] in *;
    rewrite contains_cons.
  - cbn [String.prefix].
    destruct (ascii_dec "/" "/") as [_ | H]; [|contradiction].
    destruct b; reflexivity.
  - rewrite IH. apply orb_true_r.
Qed.

Lemma contains_slash_split (s : string) :
  contains "/" s = true ->
  exists a b, s = String.append a (String.append "/" b).
Proof.
  induction s as [|c s IH]; [discriminate|].
  rewrite contains_cons. cbn [String.prefix].
  destruct (ascii_dec "/" c) as [<- | _].
  - intros _. exists EmptyString, s. reflexivity.
  - cbn [orb]. intros H. destruct (IH H) as (a & b & ->).
    exists (String c a), b. reflexivity.
Qed.

(** [is_column_delete] recognises the requests written from the
    template, and only those. *)
Lemma is_column_delete_template (q : request) :
  is_column_delete q = true
  <-> exists dataset_slug column_id,
        q = mk_request DELETE (column_url dataset_slug column_id) None.
Proof.
  unfold is_column_delete, column_url. split.
  - destruct q as [[] url [j|]]; cbn [req_method req_url req_json];
      try discriminate.
    destruct (strip_prefix _ url) as [rest|] eqn:Hrest; [|discriminate].
    intros Hslash. apply strip_prefix_some in Hrest.
    destruct (contains_slash_split rest Hslash) as (a & b & ->).
    exists a, b. rewrite Hrest. reflexivity.
  - intros (dataset_slug & column_id & ->).
    cbn [req_method req_url req_json].
    rewrite strip_prefix_append. apply contains_slash.
Qed.

Section CommandLineFacts.
Variable session : nat -> request -> reply.
Variable fromisoformat : string -> option datetime.
Variable strftime : datetime -> string -> string.
Variable repr : json -> string.
Variable ask : nat -> string.
Variable environment_api_key : option string.
Variable markup_error : output -> bool.

Lemma format_date_only P date_str :
  m_only P (format_date fromisoformat strftime date_str).
Proof. unfold format_date, parse_iso. only_auto. Qed.
#[local] Hint Resolve format_date_only : only_db.

Lemma get_dataset_url_only P dataset team_slug env_slug :
  m_only P (get_dataset_url repr dataset team_slug env_slug).
Proof. unfold get_dataset_url. only_auto. Qed.
#[local] Hint Resolve get_dataset_url_only : only_db.

Lemma is_column_inactive_only P column days :
  m_only P (is_column_inactive fromisoformat column days).
Proof. unfold is_column_inactive, parse_iso, datetime_now. only_auto.
  intros w. reflexivity. Qed.
#[local] Hint Resolve is_column_inactive_only : only_db.

Lemma is_dataset_inactive_only P dataset days :
  m_only P (is_dataset_inactive fromisoformat dataset days).
Proof. unfold is_dataset_inactive, parse_iso. only_auto.
  intros w. reflexivity. Qed.
#[local] Hint Resolve is_dataset_inactive_only : only_db.

Lemma categorize_loop_only P name days items :
  forall a i f,
    m_only P (categorize_loop fromisoformat name days items a i f).
Proof.
  induction items as [|d rest IH]; intros a i f; cbn [categorize_loop];
    [apply m_only_ret|].
  unfold on_dict. only_auto.
Qed.
#[local] Hint Resolve categorize_loop_only : only_db.

Lemma categorize_datasets_only P datasets name days :
  m_only P (categorize_datasets fromisoformat datasets name days).
Proof.
  unfold categorize_datasets. only_auto.
Qed.
#[local] Hint Resolve categorize_datasets_only : only_db.

Lemma check_loop_only P days columns :
  forall a i, m_only P (check_loop fromisoformat days columns a i).
Proof.
  induction columns as [|c rest IH]; intros a i; cbn [check_loop];
    [apply m_only_ret|].
  unfold on_dict. only_auto.
Qed.
#[local] Hint Resolve check_loop_only : only_db.

Lemma cli_only_prompt P {B} (q : question) (k : string -> CLI B) :
  (forall n, cli_only P (k (ask n))) ->
  cli_only P (cli_bind (prompt ask q) k).
Proof.
  intros Hk cw. unfold cli_bind, prompt.
  specialize (Hk (asked cw) (mk_cli_world (machine cw) (S (asked cw)))).
  destruct (k _ _) as [r o cw2]. exact Hk.
Qed.

Lemma datasets_rows_only P datasets team_slug env_slug :
  forall rows,
    cli_only P (datasets_rows fromisoformat strftime repr datasets
                              team_slug env_slug rows).
Proof.
  induction datasets as [|d rest IH]; intros rows; cbn [datasets_rows];
    [apply cli_only_ret|].
  only_auto.
Qed.
#[local] Hint Resolve datasets_rows_only : only_db.

Lemma display_datasets_table_only P datasets title team_slug env_slug :
  cli_only P (display_datasets_table fromisoformat strftime repr
                                     markup_error datasets title
                                     team_slug env_slug).
Proof.
  unfold display_datasets_table. only_auto.
Qed.
#[local] Hint Resolve display_datasets_table_only : only_db.

Lemma columns_rows_only P columns :
  forall rows, cli_only P (columns_rows fromisoformat strftime columns rows).
Proof.
  induction columns as [|c rest IH]; intros rows; cbn [columns_rows];
    [apply cli_only_ret|].
  only_auto.
Qed.
#[local] Hint Resolve columns_rows_only : only_db.

Lemma display_columns_table_only P columns title dataset_name :
  cli_only P (display_columns_table fromisoformat strftime markup_error
                                    columns title dataset_name).
Proof.
  unfold display_columns_table. only_auto.
Qed.
#[local] Hint Resolve display_columns_table_only : only_db.

Lemma check_columns_for_dataset_only P client dataset days :
  (forall slug, m_only P (client_get_columns client slug)) ->
  cli_only P (check_columns_for_dataset fromisoformat client dataset days).
Proof.
  intros Hget. unfold check_columns_for_dataset. only_auto.
Qed.
#[local] Hint Resolve check_columns_for_dataset_only : only_db.

Lemma process_loop_only P client args datasets :
  (forall slug, m_only P (client_get_columns client slug)) ->
  forall position count total found,
    cli_only P (process_loop fromisoformat strftime markup_error client
                             args datasets position count total found).
Proof.
  intros Hget.
  induction datasets as [|d rest IH]; intros position count total found;
    cbn [process_loop]; [apply cli_only_ret|].
  only_auto.
Qed.
#[local] Hint Resolve process_loop_only : only_db.

Lemma process_column_cleanup_only P client datasets args :
  (forall slug, m_only P (client_get_columns client slug)) ->
  (arg_delete_columns args = true ->
   forall found total, cli_only P (delete_columns ask client found total)) ->
  cli_only P (process_column_cleanup fromisoformat strftime ask
                                     markup_error client datasets args).
Proof.
  intros Hget Hdelete. unfold process_column_cleanup.
  apply cli_only_bind; [apply cli_only_say|intros _].
  apply cli_only_bind; [apply cli_only_say|intros _].
  apply cli_only_bind; [apply process_loop_only; exact Hget|intros found].
  apply cli_only_bind; [apply cli_only_say|intros _].
  destruct (arg_delete_columns args).
  - destruct (0 <? fst found)%nat; cbn [andb].
    + apply Hdelete. reflexivity.
    + apply cli_only_ret.
  - rewrite andb_false_r. only_auto.
Qed.

(** Who answers no to every prompt has nothing deleted. *)
Lemma delete_columns_declined P client found total :
  (forall n, ask n = "no") ->
  cli_only P (delete_columns ask client found total).
Proof.
  intros Hno. unfold delete_columns.
  apply cli_only_bind; [apply cli_only_say|intros _].
  apply cli_only_bind; [apply cli_only_say|intros _].
  apply cli_only_prompt. intros n. rewrite Hno. apply cli_only_say.
Qed.

Lemma delete_datasets_declined P client datasets args :
  (forall n, ask n = "no") ->
  cli_only P (delete_datasets ask client datasets args).
Proof.
  intros Hno. unfold delete_datasets.
  apply cli_only_bind; [apply cli_only_say|intros _].
  apply cli_only_bind; [apply cli_only_say|intros _].
  apply cli_only_prompt. intros n. rewrite Hno. apply cli_only_say.
Qed.

Lemma delete_column_loop_only P client slug columns :
  (forall s i, m_only P (client_delete_column client s i)) ->
  forall deleted, cli_only P (delete_column_loop client slug columns deleted).
Proof.
  intros Hdelete.
  induction columns as [|c rest IH]; intros deleted;
    cbn [delete_column_loop]; [apply cli_only_ret|].
  only_auto.
Qed.
#[local] Hint Resolve delete_column_loop_only : only_db.

Lemma delete_columns_loop_only P client found :
  (forall s i, m_only P (client_delete_column client s i)) ->
  forall deleted, cli_only P (delete_columns_loop client found deleted).
Proof.
  intros Hdelete.
  induction found as [|info rest IH]; intros deleted;
    cbn [delete_columns_loop]; [apply cli_only_ret|].
  only_auto.
Qed.
#[local] Hint Resolve delete_columns_loop_only : only_db.

Lemma delete_columns_only P client found total :
  (forall s i, m_only P (client_delete_column client s i)) ->
  cli_only P (delete_columns ask client found total).
Proof.
  intros Hdelete. unfold delete_columns.
  apply cli_only_bind; [apply cli_only_say|intros _].
  apply cli_only_bind; [apply cli_only_say|intros _].
  apply cli_only_prompt. intros n.
  only_auto.
Qed.

Lemma delete_datasets_loop_only P client args datasets :
  (forall f, client_delete_dataset client = Some f ->
             forall s b, m_only P (f s b)) ->
  forall deleted,
    cli_only P (delete_datasets_loop client args datasets deleted).
Proof.
  intros Hdelete.
  induction datasets as [|d rest IH]; intros deleted;
    cbn [delete_datasets_loop]; [apply cli_only_ret|].
  destruct (client_delete_dataset client) as [f|] eqn:Hf;
    only_auto.
Qed.
#[local] Hint Resolve delete_datasets_loop_only : only_db.

Lemma delete_datasets_only P client datasets args :
  (forall f, client_delete_dataset client = Some f ->
             forall s b, m_only P (f s b)) ->
  cli_only P (delete_datasets ask client datasets args).
Proof.
  intros Hdelete. unfold delete_datasets.
  apply cli_only_bind; [apply cli_only_say|intros _].
  apply cli_only_bind; [apply cli_only_say|intros _].
  apply cli_only_prompt. intros n.
  only_auto.
Qed.

(** The operations of main.py's class, by what they send. *)
Lemma main_reads_with_get dataset_slug :
  m_only is_get (Main.get_environment_info session)
  /\ m_only is_get (Main.get_columns session dataset_slug)
  /\ m_only is_get (Main.get_datasets session).
Proof.
  unfold Main.get_environment_info, Main.get_columns, Main.get_datasets,
    raise_for_status, response_json.
  repeat split; only_auto;
    apply m_only_session_request; reflexivity.
Qed.

Lemma main_delete_column_only dataset_slug column_id :
  m_only is_column_delete
         (Main.delete_column session dataset_slug column_id).
Proof.
  unfold Main.delete_column, raise_for_status, response_json.
  only_auto. apply m_only_session_request.
  apply is_column_delete_template.
  exists dataset_slug, column_id. reflexivity.
Qed.

Lemma m_only_weaken (P Q : request -> bool) {A} (m : M A) :
  (forall q, P q = true -> Q q = true) -> m_only P m -> m_only Q m.
Proof.
  intros HPQ Hm w. specialize (Hm w).
  rewrite forallb_forall in *. intros q Hq. apply HPQ, Hm, Hq.
Qed.

(** What [main] does once it has its client. *)
Lemma main_only P args :
  (forall q, is_get q = true -> P q = true) ->
  (arg_check_columns args = true -> arg_delete_columns args = true ->
   forall found total,
     cli_only P (delete_columns ask (HoneycombClient session repr)
                                found total)) ->
  (arg_delete args = true ->
   forall datasets,
     cli_only P (delete_datasets ask (HoneycombClient session repr)
                                 datasets args)) ->
  cli_only P (main session fromisoformat strftime repr ask
                   environment_api_key markup_error args).
Proof.
  intros Hget Hcolumns Hdatasets. unfold main, setup_client.
  assert (Hinfo : m_only P (Main.get_environment_info session)).
  { eapply m_only_weaken; [exact Hget|].
    apply (main_reads_with_get EmptyString). }
  assert (Hlist : m_only P (Main.get_datasets session)).
  { eapply m_only_weaken; [exact Hget|].
    apply (main_reads_with_get EmptyString). }
  assert (Hcols : forall slug,
             m_only P (client_get_columns (HoneycombClient session repr)
                                          slug)).
  { intros slug. cbn [client_get_columns HoneycombClient].
    eapply m_only_weaken; [exact Hget|].
    apply (main_reads_with_get (py_str repr slug)). }
  destruct (chosen_api_key environment_api_key args) as [[|c key]|];
    try (intros cw; reflexivity).
  cbv beta iota.
  apply cli_only_bind_ret.
  cbn [HoneycombClient client_get_environment_info client_get_datasets].
  apply cli_only_bind; [apply cli_only_call, Hinfo|intros auth_info].
  do 5 (apply cli_only_bind; [only_auto|intros ?]).
  apply cli_only_bind;
    [apply cli_only_console_print; discriminate|intros _].
  apply cli_only_bind; [apply cli_only_say|intros _].
  apply cli_only_bind; [apply cli_only_call, Hlist|intros datasets].
  apply cli_only_bind;
    [apply cli_only_call, categorize_datasets_only|intros categories].
  apply cli_only_bind; [apply cli_only_say|intros _].
  apply cli_only_bind;
    [destruct (negb _);
     [apply display_datasets_table_only|apply cli_only_ret]|intros _].
  apply cli_only_bind; [apply cli_only_say|intros _].
  apply cli_only_bind; [only_auto|intros _].
  apply cli_only_bind; [only_auto|intros _].
  apply cli_only_bind;
    [destruct (negb _);
     [apply display_datasets_table_only|apply cli_only_ret]|intros _].
  apply cli_only_bind.
  - destruct (arg_check_columns args) eqn:Hcheck; [|apply cli_only_ret].
    apply process_column_cleanup_only; [exact Hcols|].
    intros Hflag. apply Hcolumns; [reflexivity|exact Hflag].
  - intros _. destruct (arg_delete args); cbn [andb].
    + destruct (negb _); [apply Hdatasets; reflexivity|].
      only_auto.
    + apply cli_only_ret.
Qed.

(** X21: a run deletes only on request.  Without [--delete] and
    without [--check-columns] together with [--delete-columns], or when
    the user answers no to every prompt, every request [main] sends is a
    GET. *)
Theorem main_deletes_only_on_request (args : arguments) (cw : cli_world) :
  (arg_delete args = false
   /\ (arg_check_columns args = false \/ arg_delete_columns args = false))
  \/ (forall n, ask n = "no") ->
  forallb is_get
          (output_requests
             (cli_out (main session fromisoformat strftime repr ask
                            environment_api_key markup_error args cw)))
  = true.
Proof.
  intros Hsafe. apply main_only.
  - intros q Hq. exact Hq.
  - intros Hcheck Hflag found total.
    destruct Hsafe as [(_ & [H | H]) | Hno]; try congruence.
    apply delete_columns_declined. exact Hno.
  - intros Hflag datasets.
    destruct Hsafe as [(H & _) | Hno]; try congruence.
    apply delete_datasets_declined. exact Hno.
Qed.

(** X22: what [main] sends, as main.py stands.  Whatever the arguments,
    the answers of the user and those of the API, every request is a GET
    or a DELETE without body whose address is written from the template
    of a column's address, [/1/columns/{dataset_slug}/{column_id}]: no
    PUT is sent, and the template of a dataset's address is never used
    with DELETE, the class of main.py having no [delete_dataset].  The
    slug and the id are texts of the API's answers, put into the address
    as they are; which resource an id with dot segments reaches once the
    transport has normalised the path is not settled here. *)
Theorem main_sends_reads_and_column_deletes (args : arguments)
  (cw : cli_world) :
  Forall (fun q =>
            req_method q = GET
            \/ exists dataset_slug column_id,
                 q = mk_request DELETE (column_url dataset_slug column_id)
                                None)
         (output_requests
            (cli_out (main session fromisoformat strftime repr ask
                           environment_api_key markup_error args cw))).
Proof.
  assert (Hall : cli_only (fun q => is_get q || is_column_delete q)
                   (main session fromisoformat strftime repr ask
                         environment_api_key markup_error args)).
  { apply main_only.
    - intros q ->. reflexivity.
    - intros _ _ found total. apply delete_columns_only.
      intros s i. cbn [client_delete_column HoneycombClient].
      eapply m_only_weaken; [|apply main_delete_column_only].
      intros q ->. apply orb_true_r.
    - intros _ datasets. apply delete_datasets_only.
      intros f Hf. discriminate Hf. }
  specialize (Hall cw). unfold only in Hall.
  apply Forall_forall. intros q Hq.
  apply (proj1 (forallb_forall _ _) Hall) in Hq.
  apply orb_prop in Hq as [Hget | Hdelete].
  - left. unfold is_get in Hget.
    destruct (req_method q); first [reflexivity | discriminate Hget].
  - right. apply is_column_delete_template. exact Hdelete.
Qed.
End CommandLineFacts.

Lemma filter_split_length {A} (f : A -> bool) (l : list A) :
  (List.length (filter (fun x => negb (f x)) l)
   + List.length (filter f l) = List.length l)%nat.
Proof.
  induction l as [|x l IH]; [reflexivity|].
  cbn [filter]. destruct (f x); cbn [negb List.length]; lia.
Qed.

Section CheckFacts.
Variable fromisoformat : string -> option datetime.

Lemma is_column_inactive_reads_only (column : dict) (days : Z)
  (w : world) :
  exists o t,
    is_column_inactive fromisoformat column days w = mk_run o t w
    /\ requests_of t = [].
Proof.
  rewrite is_column_inactive_verdict.
  destruct (verdict_reads_only fromisoformat
              (dict_get_default column "last_written" JNull) days
              (MsgWarnColumn (dict_get_default column "key_name"
                                               (JStr "unknown"))) w)
    as (Hf & Ht).
  destruct (verdict _ _ _ _ _) as [o t f]; cbn [res trace final] in *.
  subst f. exists o, t. split; [reflexivity|].
  destruct Ht as [-> | (-> & _)]; reflexivity.
Qed.

Lemma check_loop_spec (days : Z) (w : world) :
  forall items a i,
    let r := check_loop fromisoformat days items a i w in
    let inactive := column_inactive_at fromisoformat w days in
    final r = w
    /\ requests_of (trace r) = []
    /\ (forall a' i',
          res r = Ok (a', i') ->
          a' = a ++ filter (fun c => negb (inactive c)) items
          /\ i' = i ++ filter inactive items)
    /\ (forallb (column_placeable fromisoformat w days) items = true ->
        exists a' i', res r = Ok (a', i')).
Proof.
  induction items as [|column rest IH]; intros a i; cbv zeta.
  - cbn [check_loop filter forallb]. run_cbv. rewrite !app_nil_r.
    split; [reflexivity|]. split; [reflexivity|].
    split; [intros a' i' [= <- <-]; split; reflexivity|eauto].
  - cbn [check_loop filter forallb].
    destruct column as [| b | n | s | l | c]; unfold on_dict; run_cbv;
      try (split; [reflexivity|]; split; [reflexivity|];
           split; discriminate).
    pose proof (eq_refl :
                  column_inactive_at fromisoformat w days (JObj c)
                  = match res (is_column_inactive fromisoformat c days
                                                  w) with
                    | Ok b => b
                    | Raise _ => false
                    end) as Hin.
    change (column_placeable fromisoformat w days (JObj c))
      with match res (is_column_inactive fromisoformat c days w) with
           | Ok _ => true
           | Raise _ => false
           end.
    destruct (is_column_inactive_reads_only c days w)
      as (o & t & Hrun & Hq).
    rewrite Hrun in *. cbn [res] in Hin. cbn [res].
    destruct o as [[|] | e]; run_cbv; rewrite ?Hin; cbn [negb andb].
    + specialize (IH a (i ++ [JObj c])). cbv zeta in IH.
      destruct (check_loop _ _ _ _ _ _) as [o' t' fw];
        cbn [res trace final] in *.
      destruct IH as (Hf & Hc & Hok & Htotal).
      split; [exact Hf|].
      split; [rewrite requests_of_app, Hq, Hc; reflexivity|].
      split; [|exact Htotal].
      intros a' i' Hres. destruct (Hok a' i' Hres) as (-> & ->).
      rewrite <- app_assoc. split; reflexivity.
    + specialize (IH (a ++ [JObj c]) i). cbv zeta in IH.
      destruct (check_loop _ _ _ _ _ _) as [o' t' fw];
        cbn [res trace final] in *.
      destruct IH as (Hf & Hc & Hok & Htotal).
      split; [exact Hf|].
      split; [rewrite requests_of_app, Hq, Hc; reflexivity|].
      split; [|exact Htotal].
      intros a' i' Hres. destruct (Hok a' i' Hres) as (-> & ->).
      rewrite <- app_assoc. split; reflexivity.
    + split; [reflexivity|]. split; [exact Hq|]. split; discriminate.
Qed.

(** X17: [check_columns_for_dataset].  A dataset without slug is
    skipped with one line and no call.  Otherwise the only requests are
    those of [get_columns]; and when that answers a list of columns, the
    inactive columns reported are those the classifier finds inactive, in
    their order, the two counts add up to the length of the list, and
    there is a report whenever the classifier answers for every
    column. *)
Theorem check_columns_for_dataset_counts (client : client) (d : dict)
  (days : Z) (cw : cli_world) :
  let slug := dict_get_default d "slug" (JStr EmptyString) in
  let g := client_get_columns client slug (machine cw) in
  let c := check_columns_for_dataset fromisoformat client (JObj d) days
                                     cw in
  (truthy slug = false ->
   cli_res c = Done no_columns
   /\ cli_out c = [OutLine (LineSkippingNoSlug
                              (dict_get_default d "name"
                                                (JStr "Unknown")))])
  /\ (truthy slug = true ->
      output_requests (cli_out c) = requests_of (trace g)
      /\ forall items,
          res g = Ok (JArr items) ->
          let inactive := column_inactive_at fromisoformat (final g) days in
          (forall report,
              cli_res c = Done report ->
              check_inactive_columns report = filter inactive items
              /\ check_inactive report
                 = List.length (filter inactive items)
              /\ (check_active report + check_inactive report
                  = List.length items)%nat)
          /\ (forallb (column_placeable fromisoformat (final g) days) items
              = true ->
              exists report, cli_res c = Done report)).
Proof.
  cbv zeta. destruct cw as [w n]. cbn [machine].
  unfold check_columns_for_dataset, call. run_cli. run_cbv.
  fold (dict_get_default d "name" (JStr "Unknown")).
  fold (dict_get_default d "slug" (JStr EmptyString)).
  destruct (truthy (dict_get_default d "slug" (JStr EmptyString)));
    cbn [negb]; run_cli;
    (split; [intros H; try discriminate H; try (split; reflexivity)
            |intros H; try discriminate H]).
  clear H.
  destruct (client_get_columns client _ w) as [[columns | e] t f];
    run_cli; cbn [res trace final];
    [|split; [rewrite ?app_nil_r; apply output_requests_client
             |intros items [=]]].
  destruct (truthy columns) eqn:Htruthy; cbn [negb]; run_cli.
  - destruct columns as [| b | k | s | l | o]; cbn [py_iter]; run_cbv;
      run_cli;
      try (split; [rewrite ?app_nil_r; apply output_requests_client
                  |intros items [=]]);
      match goal with
      | |- context [check_loop fromisoformat days ?l [] [] f] =>
          pose proof (check_loop_spec days f l [] []) as Hloop;
          cbv zeta in Hloop;
          destruct (check_loop fromisoformat days l [] [] f)
            as [[lists | e] tl fl]
      end;
      cbn [res trace final app] in Hloop;
      destruct Hloop as (Hf & Hq & Hok & Htotal); run_cli;
      (split;
       [rewrite !output_requests_app, !output_requests_client, Hq;
        cbn [output_requests]; rewrite !app_nil_r; reflexivity|]);
      intros items [= <-].
    + destruct lists as [a i].
      destruct (Hok a i eq_refl) as (-> & ->). cbn [fst snd].
      split; [|intros _; eauto].
      intros report [= <-].
      cbn [check_inactive_columns check_inactive check_active].
      split; [reflexivity|]. split; [reflexivity|].
      apply filter_split_length.
    + split; [discriminate|].
      intros Hall. destruct (Htotal Hall) as (a' & i' & [=]).
  - split; [rewrite ?app_nil_r; apply output_requests_client|].
    intros items [= ->]. destruct items; [|discriminate Htruthy].
    split; [|intros _; eauto].
    intros report [= <-]. repeat split.
Qed.
End CheckFacts.

Ltac run_all := repeat (progress (run_cli; run_cbv)).

Ltac out_norm :=
  repeat (progress cbn [output_requests app]
          || rewrite output_requests_app
          || rewrite output_requests_client).

Section DeletionFacts.
Variable session : nat -> request -> reply.
Variable repr : json -> string.
Variable ask : nat -> string.

Lemma delete_column_loop_requests (slug : json) (columns : list json) :
  forall deleted cw,
    let c := delete_column_loop (HoneycombClient session repr) slug columns
                                deleted cw in
    exists rest,
      flat_map (column_target repr slug) columns
      = output_requests (cli_out c) ++ rest
      /\ (forall k, cli_res c = Done k -> rest = []).
Proof.
  induction columns as [|column others IH]; intros deleted [w n];
    cbv zeta.
  - exists []. split; [reflexivity|]. reflexivity.
  - cbn [delete_column_loop flat_map].
    destruct column as [| b | k | s | l | c]; unfold call; run_cli;
      run_cbv;
      try (eexists; split; [reflexivity|discriminate]).
    unfold column_target at 1.
    fold (dict_get_default c "id" (JStr EmptyString)).
    destruct (truthy (dict_get_default c "id" (JStr EmptyString)));
      cbn [negb]; run_cli.
    + cbn [client_delete_column HoneycombClient].
      pose proof (main_delete_column_request session
                    (py_str repr slug)
                    (py_str repr (dict_get_default c "id"
                                                   (JStr EmptyString)))
                    w) as Hq.
      destruct (Main.delete_column session _ _ w) as [[ok | e] t f];
        cbn [trace] in Hq; run_cli.
      * destruct ok; run_cli.
        -- destruct (IH (S deleted) (mk_cli_world f n))
             as (rest & Hrest & Hdone).
           cbv zeta in Hrest, Hdone.
           destruct (delete_column_loop _ _ _ _ _) as [r o cwf];
             cbn [cli_res cli_out] in *.
           exists rest. split; [|exact Hdone].
           out_norm. rewrite Hq, Hrest. reflexivity.
        -- destruct (IH deleted (mk_cli_world f n))
             as (rest & Hrest & Hdone).
           cbv zeta in Hrest, Hdone.
           destruct (delete_column_loop _ _ _ _ _) as [r o cwf];
             cbn [cli_res cli_out] in *.
           exists rest. split; [|exact Hdone].
           out_norm. rewrite Hq, Hrest. reflexivity.
      * eexists. split; [|discriminate].
        out_norm. rewrite Hq. reflexivity.
    + destruct (IH deleted (mk_cli_world w n)) as (rest & Hrest & Hdone).
      cbv zeta in Hrest, Hdone.
      destruct (delete_column_loop _ _ _ _ _) as [r o cwf];
        cbn [cli_res cli_out] in *.
      exists rest. split; [exact Hrest|exact Hdone].
Qed.

Lemma delete_columns_loop_requests (found : list column_check) :
  forall deleted cw,
    let c := delete_columns_loop (HoneycombClient session repr) found
                                 deleted cw in
    exists rest,
      column_targets repr found = output_requests (cli_out c) ++ rest
      /\ (forall k, cli_res c = Done k -> rest = []).
Proof.
  unfold column_targets.
  induction found as [|info others IH]; intros deleted cw; cbv zeta.
  - exists []. split; reflexivity.
  - cbn [delete_columns_loop flat_map].
    destruct (check_dataset_name info) as [name|]; run_cli;
      [|eexists; split; [reflexivity|discriminate]].
    destruct (check_dataset_slug info) as [slug|]; run_cli;
      [|eexists; split; [reflexivity|discriminate]].
    destruct (delete_column_loop_requests slug
                (check_inactive_columns info) deleted cw)
      as (rest1 & Hrest1 & Hdone1).
    cbv zeta in Hrest1, Hdone1.
    destruct (delete_column_loop _ _ _ _ _) as [[k | e] o cw1];
      cbn [cli_res cli_out] in *.
    + rewrite (Hdone1 k eq_refl), app_nil_r in Hrest1.
      destruct (IH k cw1) as (rest & Hrest & Hdone).
      cbv zeta in Hrest, Hdone.
      destruct (delete_columns_loop _ _ _ _) as [r o' cwf];
        cbn [cli_res cli_out] in *.
      exists rest. split; [|exact Hdone].
      rewrite Hrest1, Hrest. out_norm. rewrite app_assoc. reflexivity.
    + eexists. split; [|discriminate].
      out_norm. rewrite Hrest1, <- app_assoc. reflexivity.
Qed.

(** X18: what [delete_columns] sends through the class of main.py.
    After the answer no: nothing.  Otherwise one DELETE for each column
    that has an id, dataset after dataset and in order, and nothing else;
    a run that is cut short by an exception has sent the first of these
    requests only. *)
Theorem delete_columns_requests (found : list column_check) (total : nat)
  (cw : cli_world) :
  let c := delete_columns ask (HoneycombClient session repr) found total
                          cw in
  (ask (asked cw) = "no" ->
   cli_res c = Done tt /\ output_requests (cli_out c) = [])
  /\ (exists rest,
        column_targets repr found = output_requests (cli_out c) ++ rest
        /\ (ask (asked cw) <> "no" -> cli_res c = Done tt -> rest = [])).
Proof.
  cbv zeta. unfold delete_columns, prompt. run_cli.
  destruct (String.eqb_spec (ask (asked cw)) "no") as [Hno | Hyes];
    run_cli.
  - split; [intros _; split; reflexivity|].
    eexists. split; [reflexivity|]. intros H. contradiction.
  - split; [intros H; contradiction|].
    destruct (delete_columns_loop_requests found 0%nat (after_prompt cw))
      as (rest & Hrest & Hdone).
    cbv zeta in Hrest, Hdone. unfold after_prompt in *.
    destruct (delete_columns_loop _ _ _ _) as [[k | e] o cwf];
      cbn [cli_res cli_out] in *; run_cli.
    + exists rest. split.
      * out_norm. rewrite app_nil_r. exact Hrest.
      * intros _ _. apply (Hdone k). reflexivity.
    + exists rest. split; [exact Hrest|]. intros _ [=].
Qed.

Lemma delete_datasets_loop_stops (args : arguments)
  (datasets : list json) :
  forall deleted cw,
    let c := delete_datasets_loop (HoneycombClient session repr) args
                                  datasets deleted cw in
    output_requests (cli_out c) = []
    /\ cli_final c = cw
    /\ (forallb is_dict datasets = true ->
        (existsb has_slug datasets = true ->
         cli_res c = Failed (Failure AttributeError))
        /\ (existsb has_slug datasets = false -> cli_res c = Done deleted)).
Proof.
  induction datasets as [|dataset rest IH]; intros deleted [w n];
    cbv zeta.
  - cbn. repeat split. discriminate.
  - cbn [delete_datasets_loop forallb existsb].
    destruct dataset as [| b | k | s | l | d]; unfold call; run_cli;
      run_cbv;
      try (split; [reflexivity|]; split; [reflexivity|];
           discriminate).
    cbn [has_slug is_dict andb].
    fold (dict_get_default d "slug" (JStr EmptyString)).
    destruct (truthy (dict_get_default d "slug" (JStr EmptyString)));
      cbn [negb orb]; run_cli.
    + cbn [client_delete_dataset HoneycombClient]. run_cli.
      split; [reflexivity|]. split; [reflexivity|].
      intros _. split; [reflexivity|discriminate].
    + specialize (IH deleted (mk_cli_world w n)). cbv zeta in IH.
      destruct (delete_datasets_loop _ _ _ _ _) as [r o cwf];
        cbn [cli_res cli_out cli_final] in *.
      destruct IH as (Hq & Hf & Hres).
      split; [exact Hq|]. split; [exact Hf|exact Hres].
Qed.

(** X19: [delete_datasets] with the class of main.py.  The answer no
    ends it after four lines of output.  Any other answer ends in
    [AttributeError] at the first dataset that has a slug, for that
    class has no [delete_dataset]; only when no dataset has a slug does
    it return.  In no case is a request sent. *)
Theorem main_class_cannot_delete_datasets (datasets : list json)
  (args : arguments) (cw : cli_world) :
  let c := delete_datasets ask (HoneycombClient session repr) datasets
                           args cw in
  let n := List.length datasets in
  output_requests (cli_out c) = []
  /\ (ask (asked cw) = "no" ->
      c = mk_cli_run (Done tt)
            [OutLine LineDatasetDeletionMode; OutLine LineCannotBeUndone;
             OutPrompt (AskDeleteDatasets n);
             OutLine LineDatasetDeletionAborted]
            (after_prompt cw))
  /\ (ask (asked cw) <> "no" ->
      forallb is_dict datasets = true ->
      (existsb has_slug datasets = true ->
       cli_res c = Failed (Failure AttributeError))
      /\ (existsb has_slug datasets = false -> cli_res c = Done tt)).
Proof.
  cbv zeta. unfold delete_datasets, prompt. run_cli.
  destruct (String.eqb_spec (ask (asked cw)) "no") as [Hno | Hyes];
    run_cli.
  - split; [reflexivity|]. split; [reflexivity|]. contradiction.
  - destruct (delete_datasets_loop_stops args datasets 0%nat
                (after_prompt cw)) as (Hq & Hf & Hres).
    cbv zeta in Hq, Hf, Hres. unfold after_prompt in *.
    destruct (delete_datasets_loop _ _ _ _ _) as [[k | e] o cwf];
      cbn [cli_res cli_out cli_final] in *; run_cli.
    + split; [out_norm; rewrite Hq; reflexivity|].
      split; [contradiction|]. intros _ Hdicts.
      destruct (Hres Hdicts) as (Hfail & Hdone).
      split; [intros Hslug; discriminate (Hfail Hslug)|reflexivity].
    + split; [out_norm; exact Hq|].
      split; [contradiction|]. intros _ Hdicts.
      destruct (Hres Hdicts) as (Hfail & Hdone).
      split; [intros Hslug; injection (Hfail Hslug) as ->; reflexivity
             |intros Hslug; discriminate (Hdone Hslug)].
Qed.
End DeletionFacts.

Section DisplayFacts.
Variable fromisoformat : string -> option datetime.
Variable strftime : datetime -> string -> string.

Lemma format_date_shows (v : json) (w : world) :
  text_or_false v = true ->
  exists s, format_date fromisoformat strftime v w = mk_run (Ok s) [] w.
Proof.
  unfold text_or_false, format_date, parse_iso.
  destruct (negb (truthy v)); cbn [orb];
    [intros _; eexists; reflexivity|].
  destruct v as [| b | n | s | l | d]; try discriminate. intros _.
  cbn [is_str]. destruct (s =? "null")%string;
    [eexists; reflexivity|].
  run_cbv. destruct (fromisoformat _); run_cbv; eexists; reflexivity.
Qed.

Lemma format_date_quiet (v : json) (w : world) :
  exists o, format_date fromisoformat strftime v w = mk_run o [] w.
Proof.
  unfold format_date, parse_iso.
  destruct (negb (truthy v) || is_str "null" v);
    [eexists; reflexivity|].
  run_cbv.
  destruct v as [| b | n | s | l | d]; run_cbv;
    try (eexists; reflexivity).
  destruct (fromisoformat _); run_cbv; eexists; reflexivity.
Qed.

Lemma shown_text (v : json) (default : string) :
  text_or_false v = true ->
  exists s, cell (py_or v (JStr default)) = Done s.
Proof.
  unfold text_or_false, py_or.
  destruct (truthy v); cbn [negb orb];
    [|intros _; eexists; reflexivity].
  destruct v; try discriminate. intros _. eexists. reflexivity.
Qed.

Lemma columns_rows_spec (columns : list json) :
  forall rows cw,
    let c := columns_rows fromisoformat strftime columns rows cw in
    cli_out c = []
    /\ cli_final c = cw
    /\ (forall rows',
          cli_res c = Done rows' ->
          List.length rows'
          = (List.length rows + List.length columns)%nat)
    /\ (forallb displayable columns = true ->
        exists rows', cli_res c = Done rows').
Proof.
  induction columns as [|column rest IH]; intros rows [w n]; cbv zeta.
  - cbn. split; [reflexivity|]. split; [reflexivity|].
    split; [intros rows' [= <-]; lia|eauto].
  - cbn [columns_rows forallb].
    destruct column as [| b | k | s | l | d]; unfold call; run_all;
      try (split; [reflexivity|]; split; [reflexivity|];
           split; discriminate).
    cbn [displayable].
    fold (dict_get_default d "key_name" JNull).
    fold (dict_get_default d "type" JNull).
    fold (dict_get_default d "created_at" JNull).
    fold (dict_get_default d "last_written" JNull).
    fold (dict_get_default d "hidden" (JBool false)).
    pose proof (format_date_shows (dict_get_default d "created_at" JNull)
                                  w) as Hcreated.
    destruct (format_date_quiet (dict_get_default d "created_at" JNull) w)
      as (oc & Hrun1). rewrite Hrun1.
    destruct oc as [created | e]; run_cli.
    2:{ split; [reflexivity|]. split; [reflexivity|].
        split; [discriminate|].
        intros H. apply andb_prop in H as (H & _).
        apply andb_prop in H as (H & _). apply andb_prop in H as (_ & H).
        destruct (Hcreated H) as (s & Hs). congruence. }
    pose proof (format_date_shows (dict_get_default d "last_written" JNull)
                                  w) as Hwritten.
    destruct (format_date_quiet (dict_get_default d "last_written" JNull)
                                w) as (ow & Hrun2). rewrite Hrun2.
    destruct ow as [written | e]; run_cli.
    2:{ split; [reflexivity|]. split; [reflexivity|].
        split; [discriminate|].
        intros H. apply andb_prop in H as (H & _).
        apply andb_prop in H as (_ & H).
        destruct (Hwritten H) as (s & Hs). congruence. }
    unfold add_row. cbn [cells cell].
    pose proof (shown_text (dict_get_default d "key_name" JNull)
                           "Unknown") as Hname.
    pose proof (shown_text (dict_get_default d "type" JNull) "unknown")
      as Htype.
    destruct (cell (py_or (dict_get_default d "key_name" JNull)
                          (JStr "Unknown"))) as [name | e].
    2:{ run_cli. split; [reflexivity|]. split; [reflexivity|].
        split; [discriminate|].
        intros H. apply andb_prop in H as (H & _).
        apply andb_prop in H as (H & _). apply andb_prop in H as (H & _).
        apply andb_prop in H as (H & _).
        destruct (Hname H) as (s & Hs). discriminate Hs. }
    destruct (cell (py_or (dict_get_default d "type" JNull)
                          (JStr "unknown"))) as [type | e].
    2:{ run_cli. split; [reflexivity|]. split; [reflexivity|].
        split; [discriminate|].
        intros H. apply andb_prop in H as (H & _).
        apply andb_prop in H as (H & _). apply andb_prop in H as (H & _).
        apply andb_prop in H as (_ & H).
        destruct (Htype H) as (s & Hs). discriminate Hs. }
    run_cli.
    specialize (IH (rows ++ [[name; type; created; written;
                              if truthy (dict_get_default d "hidden"
                                                          (JBool false))
                              then "Yes" else "No"]])
                   (mk_cli_world w n)).
    cbv zeta in IH.
    destruct (columns_rows _ _ _ _ _) as [r o cwf];
      cbn [cli_res cli_out cli_final] in *.
    destruct IH as (Ho & Hf & Hlen & Htotal).
    split; [exact Ho|]. split; [exact Hf|].
    split.
    + intros rows' Hres. rewrite (Hlen rows' Hres), length_app.
      cbn [List.length]. lia.
    + intros H. apply andb_prop in H as (_ & H). exact (Htotal H).
Qed.

(** X20: what [display_columns_table] shows.  The table has a row for
    each of the first 150 columns, and its title says so beyond 150; but
    the closing line counts from 100: given 101 to 150 columns, all of
    them are in the table and the line still announces more.  Columns
    whose name, type and dates are texts or missing always make a table;
    it is printed unless rich finds wrong markup in it, as with a column
    named "[/x]", and then [MarkupError] is raised and nothing is
    printed. *)
Theorem display_columns_table_shows (markup_error : output -> bool)
  (columns : list json) (title : caption) (dataset_name : json)
  (cw : cli_world) :
  let c := display_columns_table fromisoformat strftime markup_error
                                 columns title dataset_name cw in
  let n := List.length columns in
  let shown rows :=
    OutTable (mk_table
                (TitleFor title dataset_name
                          (if (150 <? n)%nat then Some (150%nat, n)
                           else None))
                columns_header rows) in
  (cli_res c = Done tt ->
   exists rows,
     List.length rows = Nat.min n 150
     /\ markup_error (shown rows) = false
     /\ cli_out c
        = shown rows
          :: (if (100 <? n)%nat
              then [OutLine (LineMoreColumns (n - 100))] else []))
  /\ (forallb displayable (firstn 150 columns) = true ->
      exists rows,
        List.length rows = Nat.min n 150
        /\ if markup_error (shown rows)
           then cli_res c = Failed MarkupError /\ cli_out c = []
           else cli_res c = Done tt)
  /\ cli_final c = cw.
Proof.
  cbv zeta. unfold display_columns_table, LIMIT. run_cli.
  destruct (columns_rows_spec (firstn 150 columns) [] cw)
    as (Ho & Hf & Hlen & Htotal).
  cbv zeta in Ho, Hf, Hlen, Htotal.
  destruct (columns_rows _ _ _ _ _) as [[rows | e] o cwf];
    cbn [cli_res cli_out cli_final] in *; subst o cwf; run_cli.
  - assert (Hrows : List.length rows
                    = Nat.min (List.length columns) 150).
    { rewrite (Hlen rows eq_refl), length_firstn. cbn [List.length]. lia. }
    destruct (markup_error _) eqn:Hmarkup; run_cli.
    + split; [discriminate|]. split; [|reflexivity].
      intros _. exists rows. split; [exact Hrows|].
      rewrite Hmarkup. split; reflexivity.
    + destruct (100 <? List.length columns)%nat; run_cli;
        (split; [|split; [|reflexivity]]);
        intros _; exists rows; (split; [exact Hrows|]);
        rewrite Hmarkup; first [split; reflexivity | reflexivity].
  - split; [discriminate|]. split; [|reflexivity].
    intros H. destruct (Htotal H) as (rows' & [=]).
Qed.
End DisplayFacts.


(** ** The theorems at work on the sample data *)

Lemma decimal_1 : decimal_of "1" 1.
Proof.
  assert (H1 : 0 <= 1 <= 9) by lia.
  exact (decimal_digit 1 H1).
Qed.

Lemma retry_at_most_three_requests_witness :
  let r := _make_request_with_retry always_limited sample_strptime GET
             auth_url None sample_world in
  let req := mk_request GET auth_url None in
  ((0 < 2)%nat
   /\ (0 < count_requests (trace r))%nat
   /\ always_limited (sent sample_world + 0)%nat req
      = Resp (rate_limited (Some "1"))
   /\ status_code (rate_limited (Some "1")) = 429)
  /\ (count_requests (trace r) = 3%nat
      /\ always_limited (sent sample_world + 2)%nat req
         = Resp (rate_limited (Some "5"))
      /\ status_code (rate_limited (Some "5")) = 429)
  /\ (count_requests (trace r) <= 3)%nat
  /\ (exists pre,
         count_requests pre = 0%nat
         /\ let h := _handle_rate_limit sample_strptime
                       (rate_limited (Some "1"))
                       (mk_world (clock sample_world + time_slept pre)
                                 (local_utcoffset sample_world)
                                 (S (sent sample_world + 0))) in
            trace h = [EvPrint (MsgRateLimited (seconds 1) "1");
                       EvSleep (seconds 1)]
            /\ exists rest,
                 trace r =
                   pre ++ EvRequest req :: trace h ++ EvRequest req :: rest)
  /\ res r = Ok (rate_limited (Some "5"))
  /\ (exists pre,
         count_requests pre = 2%nat /\ trace r = pre ++ [EvRequest req]).
Proof.
  cbv zeta.
  destruct (retry_at_most_three_requests always_limited sample_strptime GET
              auth_url None sample_world) as (Hbound & Hearly & Hlast).
  assert (H0 : (0 < 2)%nat /\
               (0 < count_requests
                      (trace (_make_request_with_retry always_limited
                                sample_strptime GET auth_url None
                                sample_world)))%nat)
    by (vm_compute; split; lia).
  assert (H3 : count_requests
                 (trace (_make_request_with_retry always_limited
                           sample_strptime GET auth_url None sample_world))
               = 3%nat) by reflexivity.
  assert (Hlen : Z.of_nat (String.length "1") <= 4300)
    by (vm_compute; discriminate).
  assert (Hn : 0 < 1 <= 9223372036) by lia.
  destruct H0 as (H02 & H0c).
  destruct (Hlast (rate_limited (Some "5")) H3 eq_refl eq_refl)
    as (Hres & Hpre).
  split; [repeat split; assumption|].
  split; [repeat split; assumption|].
  split; [exact Hbound|].
  split; [|split; assumption].
  destruct (Hearly 0%nat (rate_limited (Some "1")) H02 H0c eq_refl eq_refl)
    as (pre & Hcount & _ & Hdecimal & Hretry & _).
  destruct (Hdecimal "1" 1 eq_refl decimal_1 Hlen Hn) as (Hok & Htrace).
  exists pre. split; [exact Hcount|].
  split; [exact Htrace|exact (Hretry Hok)].
Defined.

Lemma transport_failure_retry_witness :
  let r := _make_request_with_retry unreachable sample_strptime GET
             "https://api.honeycomb.io/1/datasets" None sample_world in
  let req := mk_request GET "https://api.honeycomb.io/1/datasets" None in
  let refused := "Connection refused" in
  ((1 < 2)%nat
   /\ (1 < count_requests (trace r))%nat
   /\ unreachable (sent sample_world + 1)%nat req = Fail refused)
  /\ (count_requests (trace r) = 3%nat
      /\ unreachable (sent sample_world + 2)%nat req = Fail refused)
  /\ unreachable (sent sample_world) req = Fail refused
  /\ (exists pre rest,
         count_requests pre = 1%nat
         /\ trace r =
              pre ++ EvRequest req
              :: EvPrint (MsgRequestFailedRetrying (ConnectionError refused))
              :: EvSleep (seconds 1)
              :: EvRequest req :: rest)
  /\ res r = Raise (ConnectionError refused)
  /\ res (get_datasets unreachable sample_strptime sample_world)
     = Raise (SystemExit 1).
Proof.
  cbv zeta.
  destruct (transport_failure_retry unreachable sample_strptime GET
              "https://api.honeycomb.io/1/datasets" None sample_world)
    as (Hearly & Hlast & Hlisting).
  assert (H1 : (1 < 2)%nat /\
               (1 < count_requests
                      (trace (_make_request_with_retry unreachable
                                sample_strptime GET
                                "https://api.honeycomb.io/1/datasets" None
                                sample_world)))%nat)
    by (vm_compute; split; lia).
  destruct H1 as (H12 & H1c).
  destruct (Hlast "Connection refused" eq_refl eq_refl) as (Hres & _).
  destruct (Hlisting "Connection refused" "Connection refused"
              "Connection refused" eq_refl eq_refl eq_refl)
    as (Hexit & _ & _).
  split; [repeat split; assumption|].
  split; [repeat split|].
  split; [reflexivity|].
  split; [|split; assumption].
  exact (Hearly 1%nat "Connection refused" H12 H1c eq_refl).
Defined.

Lemma decimal_120 : decimal_of "120" 120.
Proof.
  assert (H0 : 0 <= 0 <= 9) by lia.
  assert (H1 : 0 <= 1 <= 9) by lia.
  assert (H2 : 0 <= 2 <= 9) by lia.
  exact (decimal_snoc "12" 12 0
           (decimal_snoc "1" 1 2 (decimal_digit 1 H1) H2) H0).
Qed.

Lemma retry_after_wait_witness :
  let http_date := "Wed, 21 Oct 2015 07:28:00 GMT" in
  let seconds_given := rate_limited (Some "120") in
  let date_given := rate_limited (Some http_date) in
  (status_code seconds_given = 429
   /\ headers_get (headers seconds_given) "Retry-After" = Some "120"
   /\ decimal_of "120" 120
   /\ Z.of_nat (String.length "120") <= 4300
   /\ 120 <= 9223372036)
  /\ (status_code date_given = 429
      /\ headers_get (headers date_given) "Retry-After" = Some http_date
      /\ contains "," http_date = true
      /\ sample_strptime http_date http_date_format
         = Some (mk_datetime 63581009280000000 None)
      /\ Z.max 0 (63581009280000000 - clock world_2015)
         <= seconds 9223372036)
  /\ time_slept (trace (_handle_rate_limit sample_strptime seconds_given
                          world_2015))
     = seconds 120
  /\ time_slept (trace (_handle_rate_limit sample_strptime date_given
                          world_2015))
     = Z.max 0 (63581009280000000 - clock world_2015).
Proof.
  cbv zeta.
  destruct (retry_after_wait sample_strptime (rate_limited (Some "120"))
              world_2015 "120" eq_refl eq_refl) as (Hseconds & _).
  destruct (retry_after_wait sample_strptime
              (rate_limited (Some "Wed, 21 Oct 2015 07:28:00 GMT"))
              world_2015 "Wed, 21 Oct 2015 07:28:00 GMT" eq_refl eq_refl)
    as (_ & Hdate).
  assert (Hlen : Z.of_nat (String.length "120") <= 4300)
    by (vm_compute; discriminate).
  assert (Hn : 120 <= 9223372036) by lia.
  assert (Hwait : Z.max 0 (63581009280000000 - clock world_2015)
                  <= seconds 9223372036)
    by (vm_compute; discriminate).
  destruct (Hseconds 120 decimal_120 Hlen Hn) as (_ & _ & Hslept & _).
  destruct (Hdate (mk_datetime 63581009280000000 None) eq_refl eq_refl
              Hwait)
    as (_ & _ & Hslept' & _).
  split; [repeat split; solve [exact decimal_120 | exact Hlen | exact Hn]|].
  split; [repeat split; exact Hwait|].
  split; assumption.
Defined.

Lemma soon_is_not_decimal : forall n, ~ decimal_of "soon" n.
Proof.
  intros n H. apply decimal_of_digits in H. destruct H as (_ & H & _).
  discriminate H.
Qed.

Lemma retry_after_fallback_witness :
  let absent := rate_limited None in
  let garbled := rate_limited (Some "soon") in
  (status_code absent = 429
   /\ headers_get (headers absent) "Retry-After" = None)
  /\ (status_code garbled = 429
      /\ headers_get (headers garbled) "Retry-After" = Some "soon"
      /\ "soon" <> EmptyString
      /\ (forall n, ~ decimal_of "soon" n)
      /\ sample_strptime "soon" http_date_format = None)
  /\ time_slept (trace (_handle_rate_limit sample_strptime absent
                          sample_world))
     = seconds 60
  /\ trace (_handle_rate_limit sample_strptime garbled sample_world)
     = [EvPrint (MsgRetryAfterParseError "soon" ValueError);
        EvPrint MsgFallback;
        EvSleep (seconds 60)].
Proof.
  cbv zeta.
  assert (Hne : "soon" <> EmptyString) by discriminate.
  destruct (retry_after_fallback sample_strptime (rate_limited None)
              sample_world eq_refl) as (Habsent & _).
  destruct (retry_after_fallback sample_strptime (rate_limited (Some "soon"))
              sample_world eq_refl) as (_ & Hgarbled).
  destruct (Habsent eq_refl) as (_ & _ & Hslept).
  destruct (Hgarbled "soon" eq_refl Hne soon_is_not_decimal eq_refl)
    as (_ & Htrace & _).
  split; [repeat split|].
  split; [repeat split; [exact Hne|exact soon_is_not_decimal]|].
  split; assumption.
Defined.


Lemma get_columns_transport_failure_witness :
  let req := mk_request GET (columns_url "checkout") None in
  (unreachable (sent sample_world) req = Fail "Connection refused"
   /\ unreachable (sent sample_world + 1)%nat req = Fail "Connection refused"
   /\ unreachable (sent sample_world + 2)%nat req = Fail "Connection refused")
  /\ res (get_columns unreachable sample_strptime "checkout" sample_world)
     = Raise AttributeError.
Proof.
  cbv zeta. split; [repeat split|].
  exact (get_columns_transport_failure unreachable sample_strptime "checkout"
           sample_world "Connection refused" "Connection refused"
           "Connection refused" eq_refl eq_refl eq_refl).
Defined.

Lemma conflict_error_is_no_text :
  forall s, JObj [("message", JStr "Conflict")] <> JStr s.
Proof. intros s H. discriminate H. Qed.

Lemma is_deletion_protected_raises_witness :
  (contains "delete protected" (lower (text (null_response 409))) = false
   /\ json_body (null_response 409) = Some JNull)
  /\ (contains "delete protected" (lower (text conflict_response)) = false
      /\ json_body conflict_response = Some conflict_body
      /\ dict_get [("error", JObj [("message", JStr "Conflict")])] "error"
         = Some (JObj [("message", JStr "Conflict")])
      /\ (forall s, JObj [("message", JStr "Conflict")] <> JStr s))
  /\ res (_is_deletion_protected (null_response 409) sample_world)
     = Raise TypeError
  /\ res (_is_deletion_protected conflict_response sample_world)
     = Raise AttributeError.
Proof.
  destruct (is_deletion_protected_raises (null_response 409) sample_world
              eq_refl) as (Hnull & _).
  destruct (is_deletion_protected_raises conflict_response sample_world
              eq_refl) as (_ & Hobject).
  split; [repeat split|].
  split; [repeat split; exact conflict_error_is_no_text|].
  split.
  - exact (Hnull eq_refl).
  - exact (Hobject _ _ eq_refl eq_refl conflict_error_is_no_text).
Defined.

Lemma delete_dataset_raises_witness :
  let req := mk_request DELETE (dataset_url "checkout") None in
  let conflict := scripted [Resp conflict_response] in
  let missing := scripted [Resp (null_response 404)] in
  (conflict (sent sample_world) req = Resp conflict_response
   /\ contains "delete protected" (lower (text conflict_response)) = false
   /\ status_code conflict_response = 409
   /\ json_body conflict_response = Some conflict_body
   /\ (forall s, JObj [("message", JStr "Conflict")] <> JStr s))
  /\ (missing (sent sample_world) req = Resp (null_response 404)
      /\ contains "delete protected" (lower (text (null_response 404)))
         = false
      /\ is_error_status (null_response 404) = true
      /\ status_code (null_response 404) <> 429
      /\ json_body (null_response 404) = Some JNull
      /\ (status_code (null_response 404) =? 409) && false = false)
  /\ res (delete_dataset conflict sample_strptime "checkout" true
            sample_world)
     = Raise AttributeError
  /\ res (delete_dataset missing sample_strptime "checkout" false
            sample_world)
     = Raise TypeError.
Proof.
  cbv zeta.
  assert (Hstatus : status_code (null_response 404) <> 429) by discriminate.
  destruct (delete_dataset_raises (scripted [Resp conflict_response])
              sample_strptime "checkout" sample_world conflict_response
              eq_refl eq_refl) as (Hconflict & _).
  destruct (delete_dataset_raises (scripted [Resp (null_response 404)])
              sample_strptime "checkout" sample_world (null_response 404)
              eq_refl eq_refl) as (_ & Hmissing).
  destruct (Hconflict _ _ eq_refl eq_refl eq_refl conflict_error_is_no_text)
    as (Hres & _).
  destruct (Hmissing false eq_refl Hstatus eq_refl eq_refl) as (Hres' & _).
  split; [repeat split; exact conflict_error_is_no_text|].
  split; [repeat split; exact Hstatus|].
  split; assumption.
Defined.

Lemma inactive_iff_before_cutoff_witness :
  let t := mk_datetime 63839664000000000 (Some 0) in
  let now_wall := clock sample_world + offset_of sample_world (tzinfo t) in
  (sample_stamp <> EmptyString
   /\ sample_fromisoformat (iso_text sample_stamp) = Some t
   /\ 0 <= now_wall <= max_wall
   /\ 0 <= now_wall - 60 * microseconds_per_day <= max_wall
   /\ dict_get sample_column "last_written" = Some (JStr sample_stamp)
   /\ dict_get sample_dataset "last_written_at" = Some (JStr sample_stamp))
  /\ is_column_inactive sample_fromisoformat sample_column 60 sample_world
     = mk_run (Ok true) [] sample_world
  /\ is_dataset_inactive sample_fromisoformat sample_dataset 60 sample_world
     = mk_run (Ok true) [] sample_world.
Proof.
  cbv zeta.
  assert (Hne : sample_stamp <> EmptyString) by discriminate.
  assert (Hnow : 0 <= clock sample_world
                      + offset_of sample_world (Some 0) <= max_wall)
    by (vm_compute; split; discriminate).
  assert (Hcut : 0 <= clock sample_world + offset_of sample_world (Some 0)
                      - 60 * microseconds_per_day <= max_wall)
    by (vm_compute; split; discriminate).
  destruct (inactive_iff_before_cutoff sample_fromisoformat sample_column 60
              sample_world sample_stamp
              (mk_datetime 63839664000000000 (Some 0))
              Hne eq_refl Hnow Hcut)
    as (inactive & Hiff & _ & Hcolumn & _).
  destruct (inactive_iff_before_cutoff sample_fromisoformat sample_dataset 60
              sample_world sample_stamp
              (mk_datetime 63839664000000000 (Some 0))
              Hne eq_refl Hnow Hcut)
    as (inactive' & Hiff' & _ & _ & Hdataset).
  assert (inactive = true) as -> by (apply Hiff; vm_compute; reflexivity).
  assert (inactive' = true) as -> by (apply Hiff'; vm_compute; reflexivity).
  split; [repeat split; solve [assumption | apply Hnow | apply Hcut]|].
  split.
  - exact (Hcolumn eq_refl).
  - exact (Hdataset eq_refl).
Defined.

Lemma missing_or_unparsable_is_inactive_witness :
  let never_written : dict := [("key_name", JStr "trace.id")] in
  let garbled : dict :=
    [("name", JStr "checkout"); ("last_written_at", JStr "yesterday")] in
  (dict_get never_written "last_written" = None
   /\ dict_get garbled "last_written_at" = Some (JStr "yesterday")
   /\ "yesterday" <> EmptyString
   /\ sample_fromisoformat (iso_text "yesterday") = None)
  /\ is_column_inactive sample_fromisoformat never_written 0 sample_world
     = mk_run (Ok true) [] sample_world
  /\ is_dataset_inactive sample_fromisoformat garbled 0 sample_world
     = mk_run (Ok true) [EvPrint (MsgWarnDataset (JStr "checkout"))]
              sample_world.
Proof.
  cbv zeta.
  assert (Hne : "yesterday" <> EmptyString) by discriminate.
  destruct (missing_or_unparsable_is_inactive sample_fromisoformat
              [("key_name", JStr "trace.id")] 0 sample_world)
    as (Hmissing & _ & _ & _).
  destruct (missing_or_unparsable_is_inactive sample_fromisoformat
              [("name", JStr "checkout");
               ("last_written_at", JStr "yesterday")] 0 sample_world)
    as (_ & _ & _ & Hgarbled).
  split; [repeat split; exact Hne|].
  split.
  - exact (Hmissing (or_introl eq_refl)).
  - exact (Hgarbled "yesterday" eq_refl Hne eq_refl).
Defined.

Lemma a_number_is_no_text : forall s, JNum 1700000000 <> JStr s.
Proof. intros s H. discriminate H. Qed.

Lemma timestamp_must_be_text_witness :
  (truthy (JNum 1700000000) = true
   /\ (forall s, JNum 1700000000 <> JStr s)
   /\ dict_get numbered_column "last_written" = Some (JNum 1700000000))
  /\ is_column_inactive sample_fromisoformat numbered_column 60 sample_world
     = mk_run (Raise AttributeError) [] sample_world.
Proof.
  destruct (timestamp_must_be_text sample_fromisoformat numbered_column 60
              sample_world (JNum 1700000000) eq_refl a_number_is_no_text)
    as (Hcolumn & _).
  split; [repeat split; exact a_number_is_no_text|].
  exact (Hcolumn eq_refl).
Defined.

(** *** More of the client, on the sample data *)





Lemma delete_dataset_direct_outcomes_witness :
  let r1 := _make_request_with_retry unreachable sample_strptime DELETE
              (dataset_url "checkout") None sample_world in
  res r1 = Raise (ConnectionError "Connection refused")
  /\ delete_dataset unreachable sample_strptime "checkout" true sample_world
     = mk_run (Ok false)
              (trace r1
               ++ [EvPrint (MsgDeleteError
                              "checkout"
                              (ConnectionError "Connection refused"))])
              (final r1).
Proof.
  cbv zeta.
  destruct (delete_dataset_direct_outcomes unreachable sample_strptime
              "checkout" true sample_world) as (_ & Hfailure & _).
  split; [reflexivity|].
  exact (Hfailure "Connection refused" eq_refl).
Defined.

(** *** More of main.py, on the sample data *)

Lemma classifiers_only_read_witness :
  dict_get sample_column "last_written"
  = dict_get sample_dataset "last_written_at"
  /\ res (is_column_inactive sample_fromisoformat sample_column 60
                             sample_world)
     = res (is_dataset_inactive sample_fromisoformat sample_dataset 60
                                sample_world).
Proof.
  destruct (classifiers_only_read sample_fromisoformat sample_column
              sample_dataset 60 sample_world) as (_ & _ & _ & _ & Hsame).
  split; [reflexivity|]. exact (Hsame eq_refl).
Defined.

Lemma shorter_window_keeps_inactive_witness :
  30 <= 60
  /\ res (is_dataset_inactive sample_fromisoformat sample_dataset 60
                              sample_world) = Ok true
  /\ exists b,
      res (is_dataset_inactive sample_fromisoformat sample_dataset 30
                               sample_world) = Ok b
      /\ b = true.
Proof.
  assert (Hle : 30 <= 60) by lia.
  destruct (shorter_window_keeps_inactive sample_fromisoformat
              sample_dataset 60 30 sample_world Hle) as (_ & Hdataset).
  split; [exact Hle|]. split; [reflexivity|].
  exists true. split; [reflexivity|].
  exact (Hdataset eq_refl true eq_refl).
Defined.

Lemma format_date_outcomes_witness :
  (sample_stamp <> EmptyString /\ sample_stamp <> "null")
  /\ format_date sample_fromisoformat sample_strftime (JStr sample_stamp)
                 sample_world
     = mk_run (Ok "2024-01-01") [] sample_world
  /\ format_date sample_fromisoformat sample_strftime (JStr "null")
                 sample_world
     = mk_run (Ok "Never") [] sample_world
  /\ format_date sample_fromisoformat sample_strftime (JNum 1700000000)
                 sample_world
     = mk_run (Raise AttributeError) [] sample_world.
Proof.
  assert (Hne : sample_stamp <> EmptyString) by discriminate.
  assert (Hnn : sample_stamp <> "null") by discriminate.
  destruct (format_date_outcomes sample_fromisoformat sample_strftime
              (JStr sample_stamp) sample_world) as (_ & Htext & _).
  destruct (format_date_outcomes sample_fromisoformat sample_strftime
              (JStr "null") sample_world) as (Hnever & _).
  destruct (format_date_outcomes sample_fromisoformat sample_strftime
              (JNum 1700000000) sample_world) as (_ & _ & Hother).
  split; [split; assumption|].
  split; [exact (Htext sample_stamp eq_refl Hne Hnn)|].
  split; [exact (Hnever (or_intror eq_refl))|].
  exact (Hother eq_refl a_number_is_no_text).
Defined.

Lemma sample_strftime_is_a_day (dt : datetime) :
  sample_strftime dt "%Y-%m-%d" <> "Never"
  /\ sample_strftime dt "%Y-%m-%d" <> "Unknown".
Proof.
  unfold sample_strftime.
  destruct ((wall dt =? 63839664000000000) && _); split; discriminate.
Qed.

Lemma never_or_unknown_is_inactive_witness :
  let record := [("name", JStr "old"); ("last_written_at", JStr "null")] in
  (sample_fromisoformat "null" = None
   /\ (forall dt,
          sample_strftime dt "%Y-%m-%d" <> "Never"
          /\ sample_strftime dt "%Y-%m-%d" <> "Unknown")
   /\ res (format_date sample_fromisoformat sample_strftime
             (dict_get_default record "last_written_at" (JStr EmptyString))
             sample_world) = Ok "Never")
  /\ res (is_dataset_inactive sample_fromisoformat record 60 sample_world)
     = Ok true.
Proof.
  cbv zeta.
  destruct (never_or_unknown_is_inactive sample_fromisoformat
              sample_strftime
              [("name", JStr "old"); ("last_written_at", JStr "null")]
              60 sample_world eq_refl sample_strftime_is_a_day)
    as (Hdataset & _).
  split; [repeat split; apply sample_strftime_is_a_day|].
  exact (Hdataset "Never" eq_refl (or_introl eq_refl)).
Defined.

Lemma categorize_datasets_partition_witness :
  let r := categorize_datasets sample_fromisoformat
             (JArr [checkout; scratch]) None 2000 sample_world in
  forallb (placeable sample_fromisoformat sample_world 2000 None)
          [checkout; scratch] = true
  /\ res r = Ok ([checkout], [scratch], []).
Proof.
  cbv zeta.
  destruct (categorize_datasets_partition sample_fromisoformat
              [checkout; scratch] None 2000 sample_world)
    as (_ & _ & Hplaces & Hanswers).
  split; [reflexivity|].
  destruct (Hanswers eq_refl) as (a & i & f & Hres).
  destruct (Hplaces a i f Hres) as (Ha & Hi & Hf).
  rewrite Hres, Ha, Hi, Hf. reflexivity.
Defined.

Lemma main_delete_column_outcomes_witness :
  let req := mk_request DELETE (column_url "checkout" "c1") None in
  (unreachable (sent sample_world) req = Fail "Connection refused"
   /\ scripted [Resp not_found_response] (sent sample_world) req
      = Resp not_found_response)
  /\ res (Main.delete_column unreachable "checkout" "c1" sample_world)
     = Raise AttributeError
  /\ res (Main.delete_column (scripted [Resp not_found_response])
                             "checkout" "c1" sample_world)
     = Ok false.
Proof.
  cbv zeta.
  destruct (main_delete_column_outcomes unreachable "checkout" "c1"
              sample_world) as (_ & Hfailure & _).
  destruct (main_delete_column_outcomes
              (scripted [Resp not_found_response]) "checkout" "c1"
              sample_world) as (Hanswer & _).
  split; [split; reflexivity|].
  split; [exact (proj1 (Hfailure "Connection refused" eq_refl))|].
  exact (Hanswer not_found_response eq_refl).
Defined.

(** *** The command line, on the sample data *)

Lemma check_columns_for_dataset_counts_witness :
  let api := scripted [Resp columns_response] in
  let client := HoneycombClient api sample_repr in
  let d := [("name", JStr "checkout"); ("slug", JStr "checkout");
            ("last_written_at", JStr sample_stamp)] in
  let g := client_get_columns client (JStr "checkout") sample_world in
  let c := check_columns_for_dataset sample_fromisoformat client (JObj d)
                                     2000 start in
  (truthy (dict_get_default d "slug" (JStr EmptyString)) = true
   /\ res g = Ok (JArr [stale_column; unused_column])
   /\ forallb (column_placeable sample_fromisoformat (final g) 2000)
              [stale_column; unused_column] = true)
  /\ exists report,
      cli_res c = Done report
      /\ check_inactive_columns report = [unused_column]
      /\ check_inactive report = 1%nat
      /\ check_active report = 1%nat.
Proof.
  cbv zeta.
  destruct (check_columns_for_dataset_counts sample_fromisoformat
              (HoneycombClient (scripted [Resp columns_response])
                               sample_repr)
              [("name", JStr "checkout"); ("slug", JStr "checkout");
               ("last_written_at", JStr sample_stamp)]
              2000 start) as (_ & Hslug).
  destruct (Hslug eq_refl) as (_ & Hitems).
  destruct (Hitems [stale_column; unused_column] eq_refl)
    as (Hcounts & Hanswers).
  split; [repeat split|].
  destruct (Hanswers eq_refl) as (report & Hreport).
  destruct (Hcounts report Hreport) as (Hcolumns & Hinactive & Hsum).
  exists report. split; [exact Hreport|].
  split; [exact Hcolumns|]. split; [exact Hinactive|].
  rewrite Hinactive in Hsum. cbn in Hsum. lia.
Defined.

Lemma delete_columns_requests_witness :
  let api := scripted [Resp ok_response] in
  let c := delete_columns (always "yes I do") (HoneycombClient api sample_repr)
                          [checkout_found] 1 start in
  (always "yes I do" (asked start) <> "no" /\ cli_res c = Done tt)
  /\ output_requests (cli_out c)
     = [mk_request DELETE (column_url "checkout" "c2") None].
Proof.
  cbv zeta.
  assert (Hyes : always "yes I do" (asked start) <> "no") by discriminate.
  destruct (delete_columns_requests (scripted [Resp ok_response])
              sample_repr (always "yes I do") [checkout_found] 1 start)
    as (_ & rest & Htargets & Hall).
  split; [split; [exact Hyes|reflexivity]|].
  rewrite (Hall Hyes eq_refl), app_nil_r in Htargets.
  symmetry. exact Htargets.
Defined.

Lemma main_class_cannot_delete_datasets_witness :
  let c := delete_datasets (always "yes I do")
             (HoneycombClient sample_api sample_repr) [checkout; scratch]
             (delete_everything 60) start in
  (always "yes I do" (asked start) <> "no"
   /\ forallb is_dict [checkout; scratch] = true
   /\ existsb has_slug [checkout; scratch] = true)
  /\ cli_res c = Failed (Failure AttributeError)
  /\ output_requests (cli_out c) = [].
Proof.
  cbv zeta.
  assert (Hyes : always "yes I do" (asked start) <> "no") by discriminate.
  destruct (main_class_cannot_delete_datasets sample_api sample_repr
              (always "yes I do") [checkout; scratch] (delete_everything 60)
              start) as (Hnone & _ & Hconfirmed).
  destruct (Hconfirmed Hyes eq_refl) as (Hfails & _).
  split; [repeat split; exact Hyes|].
  split; [exact (Hfails eq_refl)|exact Hnone].
Defined.

Lemma display_columns_table_shows_witness :
  let columns := repeat unused_column 101 in
  let c := display_columns_table sample_fromisoformat sample_strftime
             sample_markup_error columns (InactiveColumns 60)
             (JStr "checkout") start in
  forallb displayable (firstn 150 columns) = true
  /\ cli_res c = Done tt
  /\ exists rows,
      List.length rows = 101%nat
      /\ cli_out c
         = [OutTable (mk_table
                        (TitleFor (InactiveColumns 60) (JStr "checkout")
                                  None)
                        columns_header rows);
            OutLine (LineMoreColumns 1)].
Proof.
  cbv zeta.
  destruct (display_columns_table_shows sample_fromisoformat
              sample_strftime sample_markup_error
              (repeat unused_column 101)
              (InactiveColumns 60) (JStr "checkout") start)
    as (Hshown & _ & _).
  assert (Hall : forallb displayable (firstn 150 (repeat unused_column 101))
                 = true) by (vm_compute; reflexivity).
  assert (Hdone : cli_res (display_columns_table sample_fromisoformat
                             sample_strftime sample_markup_error
                             (repeat unused_column 101)
                             (InactiveColumns 60) (JStr "checkout") start)
                  = Done tt) by (vm_compute; reflexivity).
  split; [exact Hall|]. split; [exact Hdone|].
  destruct (Hshown Hdone) as (rows & Hlen & _ & Hout).
  exists rows. split; [exact Hlen|exact Hout].
Defined.

Lemma main_deletes_only_on_request_witness :
  (arg_delete (check_only 2000) = false
   /\ arg_delete_columns (check_only 2000) = false)
  /\ (forall n, always "no" n = "no")
  /\ forallb is_get
             (output_requests
                (cli_out (sample_main (always "yes I do")
                                      (check_only 2000)))) = true
  /\ forallb is_get
             (output_requests
                (cli_out (sample_main (always "no")
                                      (delete_everything 2000)))) = true.
Proof.
  split; [split; reflexivity|]. split; [intros n; reflexivity|].
  split.
  - exact (main_deletes_only_on_request sample_api sample_fromisoformat
             sample_strftime sample_repr (always "yes I do") None
             sample_markup_error (check_only 2000) start
             (or_introl (conj eq_refl (or_intror eq_refl)))).
  - exact (main_deletes_only_on_request sample_api sample_fromisoformat
             sample_strftime sample_repr (always "no") None
             sample_markup_error (delete_everything 2000) start
             (or_intror (fun n => eq_refl))).
Defined.


(** ** The scenarios of the test suite

    [tests/test_client.py] replayed on the model: the answers registered
    with the mock transport become a script, the assertions become the
    statements. *)

Example test_get_environment_info_partial_data :
  res (get_environment_info (scripted [Resp partial_auth_response])
         sample_strptime sample_world)
  = Ok (JObj [("environment", JObj [("name", JStr "Production")]);
              ("team", unknown_info)]).
Proof. reflexivity. Qed.

Example test_get_environment_info_network_error :
  res (get_environment_info unreachable sample_strptime sample_world)
  = Ok (JObj [("environment", unknown_info); ("team", unknown_info)]).
Proof. reflexivity. Qed.

Example test_get_columns_unauthorized :
  let unauthorized :=
    plain_response 401 (error_text (quoted "Unauthorized"))
                   (Some (JObj [("error", JStr "Unauthorized")])) in
  let c := get_columns (scripted [Resp unauthorized]) sample_strptime
             "test-dataset" sample_world in
  res c = Ok (JArr [])
  /\ trace c = [EvRequest (mk_request GET (columns_url "test-dataset") None);
                EvPrint (MsgColumnsUnauthorized "test-dataset");
                EvPrint MsgColumnsPermissionHint].
Proof. split; reflexivity. Qed.

Example test_get_datasets_error_exits :
  let unauthorized :=
    plain_response 401 (error_text (quoted "Unauthorized"))
                   (Some (JObj [("error", JStr "Unauthorized")])) in
  res (get_datasets (scripted [Resp unauthorized]) sample_strptime
         sample_world)
  = Raise (SystemExit 1).
Proof. reflexivity. Qed.

Example test_delete_dataset_with_protection_retry_success :
  let r := delete_dataset
             (scripted [Resp protected_response; Resp ok_response;
                        Resp ok_response])
             sample_strptime "test-dataset" true sample_world in
  res r = Ok true
  /\ requests_of (trace r)
     = [delete_request "test-dataset"; put_request "test-dataset";
        delete_request "test-dataset"].
Proof. split; reflexivity. Qed.

Example test_delete_dataset_with_protection_retry_disable_fails :
  let r := delete_dataset
             (scripted [Resp protected_response;
                        Resp (plain_response 403 EmptyString None)])
             sample_strptime "test-dataset" true sample_world in
  res r = Ok false
  /\ requests_of (trace r)
     = [delete_request "test-dataset"; put_request "test-dataset"].
Proof. split; reflexivity. Qed.

Example test_delete_dataset_with_protection_retry_second_delete_fails :
  let r := delete_dataset
             (scripted [Resp protected_response; Resp ok_response;
                        Resp (plain_response 500 EmptyString None)])
             sample_strptime "test-dataset" true sample_world in
  res r = Ok false
  /\ In (EvPrint (MsgRetryStatus 500)) (trace r).
Proof. split; [reflexivity|]. cbv. tauto. Qed.

Example test_delete_dataset_error_without_protection :
  let not_found :=
    plain_response 404 (error_text (quoted "Not found"))
                   (Some (JObj [("error", JStr "Not found")])) in
  let r := delete_dataset (scripted [Resp not_found]) sample_strptime
             "test-dataset" false sample_world in
  res r = Ok false
  /\ trace r = [EvRequest (delete_request "test-dataset");
                EvPrint (MsgDeleteStatus 404 "test-dataset");
                EvPrint (MsgErrorDetail (JStr "Not found"))].
Proof. split; reflexivity. Qed.

Example test_delete_dataset_network_error :
  res (delete_dataset unreachable sample_strptime "test-dataset" false
         sample_world)
  = Ok false.
Proof. reflexivity. Qed.

Example test_is_deletion_protected_text_check :
  res (_is_deletion_protected
         (plain_response 409 "This dataset is delete protected" None)
         sample_world)
  = Ok true.
Proof. reflexivity. Qed.

Example test_is_deletion_protected_json_check :
  res (_is_deletion_protected
         (plain_response 409 EmptyString (Some protected_body))
         sample_world)
  = Ok true.
Proof. reflexivity. Qed.

Example test_is_deletion_protected_no_match :
  res (_is_deletion_protected
         (plain_response 409 "Other error"
            (Some (JObj [("error", JStr "Not found")])))
         sample_world)
  = Ok false.
Proof. reflexivity. Qed.

Example test_is_deletion_protected_json_error :
  res (_is_deletion_protected (plain_response 409 EmptyString None)
         sample_world)
  = Ok false.
Proof. reflexivity. Qed.

(** ** A run of main.py

    [main] on the sample API, over 2000 days, every flag set and every
    prompt confirmed: three reads, then the DELETE of the one inactive
    column; the dataset without slug is skipped. *)

Example main_deletes_the_inactive_column :
  let run := sample_main (always "yes I do") (delete_everything 2000) in
  cli_res run = Done tt
  /\ output_requests (cli_out run)
     = [mk_request GET auth_url None;
        mk_request GET datasets_url None;
        mk_request GET (columns_url "checkout") None;
        mk_request DELETE (column_url "checkout" "c2") None].
Proof. split; reflexivity. Qed.

(** Over 60 days [checkout] is inactive; its deletion, once confirmed,
    ends the run with [AttributeError] before anything is sent. *)
Example main_fails_on_dataset_deletion :
  let run := sample_main (always "yes I do") (delete_everything 60) in
  cli_res run = Failed (Failure AttributeError)
  /\ output_requests (cli_out run)
     = [mk_request GET auth_url None; mk_request GET datasets_url None].
Proof. split; reflexivity. Qed.

(** Without a key the run ends at once. *)
Example main_needs_a_key :
  main sample_api sample_fromisoformat sample_strftime sample_repr
       (always "no") None sample_markup_error
       (mk_arguments 60 false false None false false None) start
  = mk_cli_run (Failed (Failure (SystemExit 1)))
               [OutLine LineNoApiKey; OutLine LineHowToSetApiKey] start.
Proof. reflexivity. Qed.

(** A column whose name is the closing tag "[/x]" makes its row, and the
    table is refused by rich: nothing is printed. *)
Example display_columns_table_refuses_markup :
  let c := display_columns_table sample_fromisoformat sample_strftime
             sample_markup_error [tagged_column] (InactiveColumns 60)
             (JStr "checkout") start in
  forallb displayable [tagged_column] = true
  /\ cli_res c = Failed MarkupError
  /\ cli_out c = [].
Proof. repeat split; reflexivity. Qed.
